(** * TCP-Based-Chat-Server: congestion control, send pipeline and codec

    A shallow embedding of [tcp_chat_system/tcp_chat_server.py] and
    [tcp_chat_system/chat_protocol.py].

    Conventions of the embedding:
    - Python [float] quantities that the code computes with ([cwnd],
      [ssthresh], [srtt], [rttvar], [rto], clock readings and their
      differences) are exact rationals [Q]; statements about them use
      [==], [<=] and [<] of [Q], and are those that rounding keeps: the
      values assigned, the order of two quantities, the discrete state.
    - Python [int] is [Z].
    - Python [str] is the list of its code points, [bytes] the list of its
      octets (each below 256).
    - A Python [float] that the code only stores and prints (a message
      timestamp) is a finite float given by its exact value together with the
      text [repr] produces for it, an infinity, or a NaN object.
    - A raised exception is an explicit outcome carrying the object as the
      statements executed before the [raise] left it. *)

From Stdlib Require Import Ascii String Decimal DecimalN.
From Stdlib Require DecimalFacts.
From Stdlib Require Import List ZArith NArith QArith Qabs Qround Qminmax Lia Lqa Bool.
Import ListNotations.

Set Warnings "-register-all".

(** ** Outcomes of fallible calls *)

(** The exceptions that the modelled code can raise.  [Untyped] is not an
    exception: it marks a call that returns an object whose attributes do not
    have their declared types (Python does not check them); such objects are
    outside the records of this development. *)
Inductive exn : Type :=
| ZeroDivisionError
| JSONDecodeError
| AttributeError
| TypeError
| KeyError
| ValueError
| UnicodeEncodeError
| UnicodeDecodeError
| StructError
| OverflowError
| Untyped.

(** A call that returns a value or raises. *)
Inductive result (A : Type) : Type :=
| Ok (a : A)
| Err (e : exn).

Arguments Ok {A} a.
Arguments Err {A} e.

Definition bind {A B : Type} (r : result A) (k : A -> result B) : result B :=
  match r with
  | Ok a => k a
  | Err e => Err e
  end.

Notation "x <- r ;; k" := (bind r (fun x => k))
  (at level 61, r at next level, right associativity).

(** A call on an object: the object afterwards, and whether it raised. *)
Inductive outcome (A : Type) : Type :=
| Returned (a : A)
| Raised (e : exn) (a : A).

Arguments Returned {A} a.
Arguments Raised {A} e a.

Definition state_of {A : Type} (o : outcome A) : A :=
  match o with
  | Returned a => a
  | Raised _ a => a
  end.

Definition returns {A : Type} (o : outcome A) : bool :=
  match o with
  | Returned _ => true
  | Raised _ _ => false
  end.

(** ** Numeric helpers *)

(** Python's [max(a, b)] on two arguments: [b] only when [b > a]. *)
Definition pymax (a b : Q) : Q := if Qle_bool b a then a else b.

(** [x >= y] and [x > y] as the interpreter decides them. *)
Definition Qgeb (x y : Q) : bool := Qle_bool y x.
Definition Qgtb (x y : Q) : bool := negb (Qle_bool x y).

(** [int(x)] of a float: truncation toward zero. *)
Definition int_of_Q (q : Q) : Z := Z.quot (Qnum q) (Zpos (Qden q)).

(** Python's [min(a, b)] on two arguments: [b] only when [b < a]. *)
Definition pymin (a b : Q) : Q := if Qgtb a b then b else a.

(** ** Python strings and bytes *)

Definition pystr : Type := list N.
Definition bytes : Type := list N.

(** A literal of the source text. *)
Definition py (s : string) : pystr := map N_of_ascii (list_ascii_of_string s).

(** A literal whose apostrophes stand for double quotes. *)
Definition pyq (s : string) : pystr :=
  map (fun c => if N.eqb c 39 then 34%N else c) (py s).

Definition pystr_eqb (a b : pystr) : bool :=
  if list_eq_dec N.eq_dec a b then true else false.

(** The characters of a decimal numeral. *)
Fixpoint digits_of_uint (d : Decimal.uint) : pystr :=
  match d with
  | Nil => []
  | D0 d' => 48%N :: digits_of_uint d'
  | D1 d' => 49%N :: digits_of_uint d'
  | D2 d' => 50%N :: digits_of_uint d'
  | D3 d' => 51%N :: digits_of_uint d'
  | D4 d' => 52%N :: digits_of_uint d'
  | D5 d' => 53%N :: digits_of_uint d'
  | D6 d' => 54%N :: digits_of_uint d'
  | D7 d' => 55%N :: digits_of_uint d'
  | D8 d' => 56%N :: digits_of_uint d'
  | D9 d' => 57%N :: digits_of_uint d'
  end.

Definition str_of_nat (n : N) : pystr := digits_of_uint (N.to_uint n).

(** [str(n)] for a Python [int]. *)
Definition str_of_int (z : Z) : pystr :=
  match z with
  | Zneg p => 45%N :: str_of_nat (Npos p)
  | _ => str_of_nat (Z.to_N z)
  end.

Module Utf8.
Local Open Scope N_scope.

(** [str.encode('utf-8')]: surrogates cannot be encoded. *)
Definition encode_char (cp : N) : result bytes :=
  if cp <? 0x80 then Ok [cp]
  else if cp <? 0x800 then
    Ok [N.lor 0xC0 (N.shiftr cp 6); N.lor 0x80 (N.land cp 0x3F)]
  else if cp <? 0x10000 then
    if (0xD800 <=? cp) && (cp <=? 0xDFFF) then Err UnicodeEncodeError
    else Ok [N.lor 0xE0 (N.shiftr cp 12);
             N.lor 0x80 (N.land (N.shiftr cp 6) 0x3F);
             N.lor 0x80 (N.land cp 0x3F)]
  else if cp <=? 0x10FFFF then
    Ok [N.lor 0xF0 (N.shiftr cp 18);
        N.lor 0x80 (N.land (N.shiftr cp 12) 0x3F);
        N.lor 0x80 (N.land (N.shiftr cp 6) 0x3F);
        N.lor 0x80 (N.land cp 0x3F)]
  else Err UnicodeEncodeError.

Fixpoint encode (s : pystr) : result bytes :=
  match s with
  | [] => Ok []
  | cp :: s' =>
      b <- encode_char cp ;;
      bs <- encode s' ;;
      Ok (b ++ bs)
  end.

Definition cont (b : N) : bool := (0x80 <=? b) && (b <=? 0xBF).
Definition between (lo hi b : N) : bool := (lo <=? b) && (b <=? hi).
Definition low6 (b : N) : N := N.land b 0x3F.

(** [bytes.decode('utf-8')], strict: shortest forms only, no surrogates,
    nothing above U+10FFFF. *)
Fixpoint decode (fuel : nat) (bs : bytes) : result pystr :=
  match fuel with
  | O => match bs with [] => Ok [] | _ => Err UnicodeDecodeError end
  | S fuel' =>
      match bs with
      | [] => Ok []
      | b0 :: r0 =>
          if b0 <? 0x80 then
            s <- decode fuel' r0 ;; Ok (b0 :: s)
          else if between 0xC2 0xDF b0 then
            match r0 with
            | b1 :: r1 =>
                if cont b1 then
                  s <- decode fuel' r1 ;;
                  Ok (N.lor (N.shiftl (N.land b0 0x1F) 6) (low6 b1) :: s)
                else Err UnicodeDecodeError
            | _ => Err UnicodeDecodeError
            end
          else if between 0xE0 0xEF b0 then
            match r0 with
            | b1 :: b2 :: r2 =>
                if between (if b0 =? 0xE0 then 0xA0 else 0x80)
                           (if b0 =? 0xED then 0x9F else 0xBF) b1
                   && cont b2 then
                  s <- decode fuel' r2 ;;
                  Ok (N.lor (N.shiftl (N.land b0 0x0F) 12)
                        (N.lor (N.shiftl (low6 b1) 6) (low6 b2)) :: s)
                else Err UnicodeDecodeError
            | _ => Err UnicodeDecodeError
            end
          else if between 0xF0 0xF4 b0 then
            match r0 with
            | b1 :: b2 :: b3 :: r3 =>
                if between (if b0 =? 0xF0 then 0x90 else 0x80)
                           (if b0 =? 0xF4 then 0x8F else 0xBF) b1
                   && cont b2 && cont b3 then
                  s <- decode fuel' r3 ;;
                  Ok (N.lor (N.shiftl (N.land b0 0x07) 18)
                        (N.lor (N.shiftl (low6 b1) 12)
                           (N.lor (N.shiftl (low6 b2) 6) (low6 b3))) :: s)
                else Err UnicodeDecodeError
            | _ => Err UnicodeDecodeError
            end
          else Err UnicodeDecodeError
      end
  end.

End Utf8.

Definition encode_utf8 (s : pystr) : result bytes := Utf8.encode s.
Definition decode_utf8 (bs : bytes) : result pystr :=
  Utf8.decode (length bs) bs.

(** ** [hashlib.sha256] (FIPS 180-4) *)

Module Sha256.
Local Open Scope N_scope.

Definition mask32 : N := 0xFFFFFFFF.
Definition add32 (a b : N) : N := N.land (a + b) mask32.
Definition rotr (n x : N) : N :=
  N.lor (N.shiftr x n) (N.land (N.shiftl x (32 - n)) mask32).
Definition shr (n x : N) : N := N.shiftr x n.
Definition xor3 (a b c : N) : N := N.lxor (N.lxor a b) c.

Definition Ch (x y z : N) : N :=
  N.lxor (N.land x y) (N.land (N.lxor x mask32) z).
Definition Maj (x y z : N) : N :=
  xor3 (N.land x y) (N.land x z) (N.land y z).
Definition Sigma0 (x : N) : N := xor3 (rotr 2 x) (rotr 13 x) (rotr 22 x).
Definition Sigma1 (x : N) : N := xor3 (rotr 6 x) (rotr 11 x) (rotr 25 x).
Definition sigma0 (x : N) : N := xor3 (rotr 7 x) (rotr 18 x) (shr 3 x).
Definition sigma1 (x : N) : N := xor3 (rotr 17 x) (rotr 19 x) (shr 10 x).

(** The first [n] primes: the numbers from 2 on with no divisor between 2
    and themselves. *)
Definition is_prime (p : nat) : bool :=
  forallb (fun d => negb (Nat.eqb (Nat.modulo p d) 0)) (seq 2 (p - 2)).

Definition first_primes (n : nat) : list N :=
  map N.of_nat (firstn n (filter is_prime (seq 2 320))).

(** The integer cube root, one bit at a time from bit [bits - 1] down. *)
Fixpoint cube_root (bits : nat) (x n : N) : N :=
  match bits with
  | O => x
  | S b =>
      let y := x + N.shiftl 1 (N.of_nat b) in
      cube_root b (if y * y * y <=? n then y else x) n
  end.

(** The round constants: the first 32 bits of the fractional parts of the
    cube roots of the first 64 primes. *)
Definition K : list N :=
  Eval vm_compute in
    map (fun p => N.land (cube_root 40 0 (p * 2 ^ 96)) mask32) (first_primes 64).

(** The initial hash value: the first 32 bits of the fractional parts of the
    square roots of the first 8 primes. *)
Definition H0 : list N :=
  Eval vm_compute in
    map (fun p => N.land (N.sqrt (p * 2 ^ 64)) mask32) (first_primes 8).

(** Big-endian number of a list of octets, and the octets of a number. *)
Definition be_word (bs : list N) : N :=
  fold_left (fun acc b => N.lor (N.shiftl acc 8) b) bs 0.

Fixpoint be_bytes (n : nat) (x : N) : list N :=
  match n with
  | O => []
  | S n' => N.land (N.shiftr x (8 * N.of_nat n')) 0xFF :: be_bytes n' x
  end.

(** Padding: a one bit, zeros up to 56 modulo 64, the bit length on 64 bits. *)
Definition pad (msg : list N) : list N :=
  let len := N.of_nat (length msg) in
  let zeros := (119 - len mod 64) mod 64 in
  msg ++ [0x80] ++ repeat 0 (N.to_nat zeros) ++ be_bytes 8 (8 * len).

Fixpoint chunks (n : nat) (size : nat) (l : list N) : list (list N) :=
  match n with
  | O => []
  | S n' => firstn size l :: chunks n' size (skipn size l)
  end.

Fixpoint extend (n : nat) (w : list N) : list N :=
  match n with
  | O => w
  | S n' =>
      let t := length w in
      let x := add32 (add32 (sigma1 (nth (t - 2) w 0)) (nth (t - 7) w 0))
                     (add32 (sigma0 (nth (t - 15) w 0)) (nth (t - 16) w 0)) in
      extend n' (w ++ [x])
  end.

Definition schedule (block : list N) : list N :=
  extend 48 (map be_word (chunks 16 4 block)).

Definition regs : Type := (N * N * N * N * N * N * N * N)%type.

Definition round (r : regs) (kw : N * N) : regs :=
  let '(a, b, c, d, e, f, g, h) := r in
  let t1 := add32 (add32 (add32 h (Sigma1 e)) (add32 (Ch e f g) (fst kw)))
                  (snd kw) in
  let t2 := add32 (Sigma0 a) (Maj a b c) in
  (add32 t1 t2, a, b, c, add32 d t1, e, f, g).

Definition compress (hs : regs) (block : list N) : regs :=
  let '(a, b, c, d, e, f, g, h) :=
    fold_left round (combine K (schedule block)) hs in
  let '(a0, b0, c0, d0, e0, f0, g0, h0) := hs in
  (add32 a0 a, add32 b0 b, add32 c0 c, add32 d0 d,
   add32 e0 e, add32 f0 f, add32 g0 g, add32 h0 h).

Definition init_regs : regs :=
  (nth 0 H0 0, nth 1 H0 0, nth 2 H0 0, nth 3 H0 0,
   nth 4 H0 0, nth 5 H0 0, nth 6 H0 0, nth 7 H0 0).

(** [hashlib.sha256(data).digest()] *)
Definition digest (msg : list N) : list N :=
  let padded := pad msg in
  let '(a, b, c, d, e, f, g, h) :=
    fold_left compress (chunks (length padded / 64) 64 padded) init_regs in
  flat_map (be_bytes 4) [a; b; c; d; e; f; g; h].

Definition hex_digit (d : N) : N := if d <? 10 then 48 + d else 87 + d.

Definition hex_byte (b : N) : list N :=
  [hex_digit ((b / 16) mod 16); hex_digit (b mod 16)].

(** [hashlib.sha256(data).hexdigest()] *)
Definition hexdigest (msg : list N) : list N := flat_map hex_byte (digest msg).

End Sha256.

(** ** Floats that are stored and printed *)

(** A float object: a finite one, with its exact value and its [repr], an
    infinity, or a NaN.  NaN objects differ in their identity only; number 0
    is the object that [json.loads] returns for the literal NaN. *)
Inductive pyfloat : Type :=
| Finite (float_value : Q) (finite_repr : pystr)
| Infinite (negative : bool)
| NaNObject (nan_id : N).

(** [repr(x)], which [str(x)] and [format(x, '')] equal *)
Definition float_repr (x : pyfloat) : pystr :=
  match x with
  | Finite _ r => r
  | Infinite false => py "inf"
  | Infinite true => py "-inf"
  | NaNObject _ => py "nan"
  end.

(** What [json.dumps] writes for a float: [float.__repr__] of a finite one,
    and the literals of JavaScript for the others. *)
Definition float_json (x : pyfloat) : pystr :=
  match x with
  | Finite _ r => r
  | Infinite false => py "Infinity"
  | Infinite true => py "-Infinity"
  | NaNObject _ => py "NaN"
  end.

(** [x == y]: a NaN equals nothing, itself included. *)
Definition float_eq (x y : pyfloat) : bool :=
  match x, y with
  | Finite a _, Finite b _ => Qeq_bool a b
  | Infinite a, Infinite b => Bool.eqb a b
  | _, _ => false
  end.

(** [x is y] for two NaN objects. *)
Definition same_nan (x y : pyfloat) : bool :=
  match x, y with
  | NaNObject i, NaNObject j => N.eqb i j
  | _, _ => false
  end.

Definition is_nan (x : pyfloat) : bool :=
  match x with
  | NaNObject _ => true
  | _ => false
  end.

(** The object a float literal of JSON denotes once decoded. *)
Definition decoded_float (x : pyfloat) : pyfloat :=
  match x with
  | NaNObject _ => NaNObject 0
  | _ => x
  end.

(** ** Dictionaries: insertion-ordered, one entry per key *)

Section Dict.
Context {V : Type}.

Fixpoint dict_get (k : pystr) (d : list (pystr * V)) : option V :=
  match d with
  | [] => None
  | (k', v) :: d' => if pystr_eqb k k' then Some v else dict_get k d'
  end.

(** [d[k] = v]: in place when the key exists, appended otherwise. *)
Fixpoint dict_set (k : pystr) (v : V) (d : list (pystr * V))
  : list (pystr * V) :=
  match d with
  | [] => [(k, v)]
  | (k', v') :: d' =>
      if pystr_eqb k k' then (k, v) :: d' else (k', v') :: dict_set k v d'
  end.

(** [del d[k]] for a key that is present. *)
Fixpoint dict_del (k : pystr) (d : list (pystr * V)) : list (pystr * V) :=
  match d with
  | [] => []
  | (k', v') :: d' =>
      if pystr_eqb k k' then d' else (k', v') :: dict_del k d'
  end.

Definition dict_mem (k : pystr) (d : list (pystr * V)) : bool :=
  match dict_get k d with Some _ => true | None => false end.

Definition dict_keys (d : list (pystr * V)) : list pystr := map fst d.

End Dict.

(** ** The [json] module *)

Inductive json : Type :=
| JNull
| JBool (b : bool)
| JInt (z : Z)
| JFloat (f : pyfloat)
| JStr (s : pystr)
| JArr (l : list json)
| JObj (d : list (pystr * json)).

Module Json.
Local Open Scope N_scope.

Definition hex4 (n : N) : pystr :=
  [Sha256.hex_digit ((n / 4096) mod 16); Sha256.hex_digit ((n / 256) mod 16);
   Sha256.hex_digit ((n / 16) mod 16); Sha256.hex_digit (n mod 16)].

(** [\uXXXX] *)
Definition uescape (n : N) : pystr := 92 :: 117 :: hex4 n.

(** One character under [ensure_ascii=True]. *)
Definition escape_char (c : N) : pystr :=
  if c =? 34 then [92; 34]            (* backslash, double quote *)
  else if c =? 92 then [92; 92]       (* backslash, backslash *)
  else if c =? 10 then [92; 110]      (* backslash, n *)
  else if c =? 13 then [92; 114]      (* backslash, r *)
  else if c =? 9 then [92; 116]       (* backslash, t *)
  else if c =? 8 then [92; 98]        (* backslash, b *)
  else if c =? 12 then [92; 102]      (* backslash, f *)
  else if (32 <=? c) && (c <=? 126) then [c]
  else if c <? 0x10000 then uescape c
  else
    let n := c - 0x10000 in
    uescape (0xD800 + n / 1024) ++ uescape (0xDC00 + n mod 1024).

Definition escape (s : pystr) : pystr := flat_map escape_char s.

Fixpoint join (sep : pystr) (parts : list pystr) : pystr :=
  match parts with
  | [] => []
  | [x] => x
  | x :: rest => x ++ sep ++ join sep rest
  end.

(** [json.dumps(v, separators=(item_sep, key_sep))] *)
Fixpoint dumps (item_sep key_sep : pystr) (v : json) : pystr :=
  match v with
  | JNull => py "null"
  | JBool true => py "true"
  | JBool false => py "false"
  | JInt z => str_of_int z
  | JFloat f => float_json f
  | JStr s => 34 :: escape s ++ [34]
  | JArr l => 91 :: join item_sep (map (dumps item_sep key_sep) l) ++ [93]
  | JObj d =>
      123 :: join item_sep
               (map (fun kv => (34 :: escape (fst kv) ++ [34]) ++ key_sep
                               ++ dumps item_sep key_sep (snd kv)) d)
          ++ [125]
  end.

(** *** [json.loads] *)

Definition is_ws (c : N) : bool :=
  (c =? 32) || (c =? 9) || (c =? 10) || (c =? 13).

Fixpoint skip_ws (s : pystr) : pystr :=
  match s with
  | c :: r => if is_ws c then skip_ws r else s
  | [] => []
  end.

Definition unhex (c : N) : option N :=
  if (48 <=? c) && (c <=? 57) then Some (c - 48)
  else if (97 <=? c) && (c <=? 102) then Some (c - 87)
  else if (65 <=? c) && (c <=? 70) then Some (c - 55)
  else None.

Definition parse_hex4 (s : pystr) : option (N * pystr) :=
  match s with
  | a :: b :: c :: d :: r =>
      match unhex a, unhex b, unhex c, unhex d with
      | Some x, Some y, Some z, Some w =>
          Some (x * 4096 + y * 256 + z * 16 + w, r)
      | _, _, _, _ => None
      end
  | _ => None
  end.

Definition high_surrogate (u : N) : bool := (0xD800 <=? u) && (u <=? 0xDBFF).
Definition low_surrogate (u : N) : bool := (0xDC00 <=? u) && (u <=? 0xDFFF).
Definition join_surrogates (hi lo : N) : N :=
  0x10000 + (hi - 0xD800) * 1024 + (lo - 0xDC00).

(** The character a one-letter escape stands for. *)
Definition unescape (e : N) : option N :=
  if e =? 34 then Some 34
  else if e =? 92 then Some 92
  else if e =? 47 then Some 47
  else if e =? 98 then Some 8
  else if e =? 102 then Some 12
  else if e =? 110 then Some 10
  else if e =? 114 then Some 13
  else if e =? 116 then Some 9
  else None.

Definition cons_char (c : N) (r : result (pystr * pystr))
  : result (pystr * pystr) :=
  match r with
  | Ok (str, rest) => Ok (c :: str, rest)
  | Err e => Err e
  end.

(** The text after an opening quote: the string it spells and what follows
    the closing quote (strict mode: no raw control characters). *)
Fixpoint scan_string (fuel : nat) (s : pystr) : result (pystr * pystr) :=
  match fuel with
  | O => Err JSONDecodeError
  | S f =>
      match s with
      | [] => Err JSONDecodeError
      | c :: r =>
          if c =? 34 then Ok ([], r)
          else if c =? 92 then
            match r with
            | [] => Err JSONDecodeError
            | e :: r1 =>
                if e =? 117 then
                  match parse_hex4 r1 with
                  | None => Err JSONDecodeError
                  | Some (u, r2) =>
                      if high_surrogate u then
                        match r2 with
                        | b :: u' :: r3 =>
                            if (b =? 92) && (u' =? 117) then
                              match parse_hex4 r3 with
                              | None => Err JSONDecodeError
                              | Some (u2, r4) =>
                                  if low_surrogate u2
                                  then cons_char (join_surrogates u u2)
                                                 (scan_string f r4)
                                  else cons_char u (scan_string f r2)
                              end
                            else cons_char u (scan_string f r2)
                        | _ => cons_char u (scan_string f r2)
                        end
                      else cons_char u (scan_string f r2)
                  end
                else
                  match unescape e with
                  | Some ch => cons_char ch (scan_string f r1)
                  | None => Err JSONDecodeError
                  end
            end
          else if c <? 32 then Err JSONDecodeError
          else cons_char c (scan_string f r)
      end
  end.

Definition is_digit (c : N) : bool := (48 <=? c) && (c <=? 57).

Definition is_numchar (c : N) : bool :=
  is_digit c || (c =? 45) || (c =? 43) || (c =? 46) || (c =? 101) || (c =? 69).

Fixpoint span (p : N -> bool) (s : pystr) : pystr * pystr :=
  match s with
  | c :: r => if p c then let '(a, b) := span p r in (c :: a, b) else ([], s)
  | [] => ([], [])
  end.

Definition strip_sign (tok : pystr) : pystr :=
  match tok with
  | c :: t => if c =? 45 then t else tok
  | [] => tok
  end.

Definition int_part_ok (ip : pystr) : bool :=
  match ip with
  | [] => false
  | c :: t => negb (c =? 48) || match t with [] => true | _ => false end
  end.

(** Whether a token is a JSON number, and then whether it has a fraction or
    an exponent.  A number is an optional minus sign, an integer part (a lone
    zero, or digits that do not start with zero), an optional fraction (a dot
    and at least one digit) and an optional exponent (e or E, an optional
    sign, at least one digit). *)
Definition classify_number (tok : pystr) : option bool :=
  let '(ip, r1) := span is_digit (strip_sign tok) in
  if int_part_ok ip then
    let frac :=
      match r1 with
      | c :: t =>
          if c =? 46 then
            let '(fp, r2) := span is_digit t in
            match fp with [] => None | _ => Some (true, r2) end
          else Some (false, r1)
      | [] => Some (false, r1)
      end in
    match frac with
    | None => None
    | Some (has_frac, r2) =>
        match r2 with
        | [] => Some has_frac
        | c :: t =>
            if (c =? 101) || (c =? 69) then
              let t' := match t with
                        | sg :: t'' =>
                            if (sg =? 43) || (sg =? 45) then t'' else t
                        | [] => t
                        end in
              let '(ep, r3) := span is_digit t' in
              match ep, r3 with
              | _ :: _, [] => Some true
              | _, _ => None
              end
            else None
        end
    end
  else None.

Definition decimal_step (acc d : N) : N := 10 * acc + (d - 48).

Definition nat_of_digits (ds : pystr) : N := fold_left decimal_step ds 0.

(** [int(tok)] for an integer token. *)
Definition int_of_literal (tok : pystr) : Z :=
  match tok with
  | c :: t => if c =? 45 then (- Z.of_N (nat_of_digits t))%Z
              else Z.of_N (nat_of_digits tok)
  | [] => 0%Z
  end.

Fixpoint strip_prefix (p s : pystr) : option pystr :=
  match p, s with
  | [], _ => Some s
  | a :: p', b :: s' => if a =? b then strip_prefix p' s' else None
  | _ :: _, [] => None
  end.

Section Loads.

(** [float(tok)] on a number token with a fraction or an exponent; [None]
    when the value overflows to an infinity. *)
Variable float_of_literal : pystr -> option pyfloat.

Definition parse_number (s : pystr) : result (json * pystr) :=
  let '(tok, rest) := span is_numchar s in
  match classify_number tok with
  | None => Err JSONDecodeError
  | Some false => Ok (JInt (int_of_literal tok), rest)
  | Some true =>
      match float_of_literal tok with
      | Some f => Ok (JFloat f, rest)
      | None =>
          match tok with
          | 45 :: _ => Ok (JFloat (Infinite true), rest)
          | _ => Ok (JFloat (Infinite false), rest)
          end
      end
  end.

(** The scalars that are neither strings nor containers. *)
Definition parse_atom (s : pystr) : result (json * pystr) :=
  match strip_prefix (py "null") s with
  | Some r => Ok (JNull, r)
  | None =>
  match strip_prefix (py "true") s with
  | Some r => Ok (JBool true, r)
  | None =>
  match strip_prefix (py "false") s with
  | Some r => Ok (JBool false, r)
  | None =>
  match strip_prefix (py "NaN") s with
  | Some r => Ok (JFloat (NaNObject 0), r)
  | None =>
  match strip_prefix (py "Infinity") s with
  | Some r => Ok (JFloat (Infinite false), r)
  | None =>
  match strip_prefix (py "-Infinity") s with
  | Some r => Ok (JFloat (Infinite true), r)
  | None => parse_number s
  end end end end end end.

(** One value at the head of [s] (no leading white space), and the rest.
    Every recursive call follows at least one consumed character, so the
    length of the text bounds the recursion. *)
Fixpoint parse_value (fuel : nat) (s : pystr) : result (json * pystr) :=
  match fuel with
  | O => Err JSONDecodeError
  | S f =>
      match s with
      | [] => Err JSONDecodeError
      | c :: r =>
          if c =? 34 then
            match scan_string (S (length r)) r with
            | Ok (str, r') => Ok (JStr str, r')
            | Err e => Err e
            end
          else if c =? 123 then
            match skip_ws r with
            | c' :: r' =>
                if c' =? 125 then Ok (JObj [], r')
                else parse_members f (c' :: r') []
            | [] => Err JSONDecodeError
            end
          else if c =? 91 then
            match skip_ws r with
            | c' :: r' =>
                if c' =? 93 then Ok (JArr [], r')
                else parse_elements f (c' :: r') []
            | [] => Err JSONDecodeError
            end
          else parse_atom s
      end
  end

with parse_members (fuel : nat) (s : pystr) (acc : list (pystr * json))
  : result (json * pystr) :=
  match fuel with
  | O => Err JSONDecodeError
  | S f =>
      match s with
      | [] => Err JSONDecodeError
      | c :: r =>
          if c =? 34 then
            match scan_string (S (length r)) r with
            | Err e => Err e
            | Ok (k, r1) =>
                match skip_ws r1 with
                | [] => Err JSONDecodeError
                | c2 :: r3 =>
                    if c2 =? 58 then
                      match parse_value f (skip_ws r3) with
                      | Err e => Err e
                      | Ok (v, r4) =>
                          let acc' := dict_set k v acc in
                          match skip_ws r4 with
                          | [] => Err JSONDecodeError
                          | c3 :: r5 =>
                              if c3 =? 125 then Ok (JObj acc', r5)
                              else if c3 =? 44
                              then parse_members f (skip_ws r5) acc'
                              else Err JSONDecodeError
                          end
                      end
                    else Err JSONDecodeError
                end
            end
          else Err JSONDecodeError
      end
  end

with parse_elements (fuel : nat) (s : pystr) (acc : list json)
  : result (json * pystr) :=
  match fuel with
  | O => Err JSONDecodeError
  | S f =>
      match parse_value f s with
      | Err e => Err e
      | Ok (v, r) =>
          match skip_ws r with
          | [] => Err JSONDecodeError
          | c :: r' =>
              if c =? 93 then Ok (JArr (acc ++ [v]), r')
              else if c =? 44 then parse_elements f (skip_ws r') (acc ++ [v])
              else Err JSONDecodeError
          end
      end
  end.

(** [json.loads(s)] *)
Definition loads (s : pystr) : result json :=
  let s0 := skip_ws s in
  match parse_value (S (length s0)) s0 with
  | Err e => Err e
  | Ok (v, r) =>
      match skip_ws r with
      | [] => Ok v
      | _ :: _ => Err JSONDecodeError
      end
  end.

End Loads.

End Json.

(** ** [chat_protocol.py]: the shared message class *)

Module Protocol.

Inductive MessageType : Type :=
| CHAT | ACK | HEARTBEAT | JOIN | LEAVE | RETRANSMIT
| SERVER_INFO | USER_LIST | PRIVATE_MESSAGE.

Definition value (t : MessageType) : pystr :=
  match t with
  | CHAT => py "chat"
  | ACK => py "ack"
  | HEARTBEAT => py "heartbeat"
  | JOIN => py "join"
  | LEAVE => py "leave"
  | RETRANSMIT => py "retransmit"
  | SERVER_INFO => py "server_info"
  | USER_LIST => py "user_list"
  | PRIVATE_MESSAGE => py "private_message"
  end.

Definition members : list MessageType :=
  [CHAT; ACK; HEARTBEAT; JOIN; LEAVE; RETRANSMIT;
   SERVER_INFO; USER_LIST; PRIVATE_MESSAGE].

(** [MessageType(v)]: the member whose value is [v]. *)
Definition MessageType_of (v : json) : result MessageType :=
  match v with
  | JStr s =>
      match find (fun t => pystr_eqb (value t) s) members with
      | Some t => Ok t
      | None => Err ValueError
      end
  | _ => Err ValueError
  end.

Record Message : Type := mkMessage {
  msg_id : pystr;
  msg_type : MessageType;
  sender : pystr;
  content : pystr;
  timestamp : pyfloat;
  checksum : pystr;
  priority : Z;
  sequence_number : Z
}.

(** The f-string of [calculate_checksum]. *)
Definition checksum_data (m : Message) : pystr :=
  msg_id m ++ value (msg_type m) ++ sender m ++ content m
  ++ float_repr (timestamp m) ++ str_of_int (priority m)
  ++ str_of_int (sequence_number m).

(** [Message.calculate_checksum] *)
Definition calculate_checksum (m : Message) : result pystr :=
  data <- encode_utf8 (checksum_data m) ;;
  Ok (firstn 16 (Sha256.hexdigest data)).

Definition set_checksum (c : pystr) (m : Message) : Message :=
  {| msg_id := msg_id m; msg_type := msg_type m; sender := sender m;
     content := content m; timestamp := timestamp m; checksum := c;
     priority := priority m; sequence_number := sequence_number m |}.

(** [Message.__post_init__] *)
Definition post_init (m : Message) : result Message :=
  match checksum m with
  | [] => c <- calculate_checksum m ;; Ok (set_checksum c m)
  | _ :: _ => Ok m
  end.

(** [Message.is_valid] *)
Definition is_valid (m : Message) : result bool :=
  expected_checksum <- calculate_checksum m ;;
  Ok (pystr_eqb (checksum m) expected_checksum).

(** [asdict(self)] with [msg_type] replaced by its value. *)
Definition to_dict (m : Message) : json :=
  JObj [(py "msg_id", JStr (msg_id m));
        (py "msg_type", JStr (value (msg_type m)));
        (py "sender", JStr (sender m));
        (py "content", JStr (content m));
        (py "timestamp", JFloat (timestamp m));
        (py "checksum", JStr (checksum m));
        (py "priority", JInt (priority m));
        (py "sequence_number", JInt (sequence_number m))].

(** The [json_data] of [to_bytes]. *)
Definition json_payload (m : Message) : result bytes :=
  encode_utf8 (Json.dumps (py ",") (py ":") (to_dict m)).

(** [struct.pack('!I', n)] *)
Definition pack_u32 (n : N) : result bytes :=
  if (n <? 2 ^ 32)%N then Ok (Sha256.be_bytes 4 n) else Err StructError.

(** [Message.to_bytes] *)
Definition to_bytes (m : Message) : result bytes :=
  json_data <- json_payload m ;;
  header <- pack_u32 (N.of_nat (length json_data)) ;;
  Ok (header ++ json_data).

Definition field_names : list pystr :=
  [py "msg_id"; py "msg_type"; py "sender"; py "content"; py "timestamp";
   py "checksum"; py "priority"; py "sequence_number"].

Definition required_fields : list pystr :=
  [py "msg_id"; py "msg_type"; py "sender"; py "content"; py "timestamp"].

Definition get_str (k : pystr) (default : option pystr)
                   (d : list (pystr * json)) : result pystr :=
  match dict_get k d, default with
  | Some (JStr s), _ => Ok s
  | Some _, _ => Err Untyped
  | None, Some s => Ok s
  | None, None => Err TypeError
  end.

(** [not v] for a decoded value. *)
Definition falsy (v : json) : bool :=
  match v with
  | JNull | JBool false | JStr [] | JArr [] | JObj [] => true
  | JInt z => Z.eqb z 0
  | JFloat (Finite q _) => Qeq_bool q 0
  | _ => false
  end.

(** The checksum given to the constructor.  [__post_init__] replaces a
    value that is false, whatever its type, by the calculated checksum, as
    it does the empty string. *)
Definition get_checksum (d : list (pystr * json)) : result pystr :=
  match dict_get (py "checksum") d with
  | Some (JStr s) => Ok s
  | Some v => if falsy v then Ok [] else Err Untyped
  | None => Ok []
  end.

Definition get_int (k : pystr) (default : Z) (d : list (pystr * json))
  : result Z :=
  match dict_get k d with
  | Some (JInt z) => Ok z
  | Some _ => Err Untyped
  | None => Ok default
  end.

Definition get_float (k : pystr) (d : list (pystr * json)) : result pyfloat :=
  match dict_get k d with
  | Some (JFloat f) => Ok f
  | Some _ => Err Untyped
  | None => Err TypeError
  end.

(** The dataclass constructor called with the dictionary as its keyword
    arguments (last line of [from_bytes]), followed by [__post_init__]. *)
Definition construct (mt : MessageType) (d : list (pystr * json))
  : result Message :=
  if negb (forallb (fun k => existsb (pystr_eqb k) field_names) (dict_keys d))
  then Err TypeError
  else if negb (forallb (fun k => dict_mem k d) required_fields)
  then Err TypeError
  else
    id <- get_str (py "msg_id") None d ;;
    snd <- get_str (py "sender") None d ;;
    cnt <- get_str (py "content") None d ;;
    ts <- get_float (py "timestamp") d ;;
    chk <- get_checksum d ;;
    prio <- get_int (py "priority") 1 d ;;
    seq <- get_int (py "sequence_number") 0 d ;;
    post_init {| msg_id := id; msg_type := mt; sender := snd; content := cnt;
                 timestamp := ts; checksum := chk; priority := prio;
                 sequence_number := seq |}.

Section Decode.
Variable float_of_literal : pystr -> option pyfloat.

(** The body of the [try] in [from_bytes]. *)
Definition from_bytes_try (data : bytes) : result Message :=
  text <- decode_utf8 data ;;
  json_data <- Json.loads float_of_literal text ;;
  match json_data with
  | JObj d =>
      match dict_get (py "msg_type") d with
      | None => Err KeyError
      | Some v => mt <- MessageType_of v ;; construct mt d
      end
  | _ => Err TypeError
  end.

(** [Message.from_bytes]: three exceptions are re-raised as [ValueError]. *)
Definition from_bytes (data : bytes) : result Message :=
  match from_bytes_try data with
  | Err JSONDecodeError | Err KeyError | Err UnicodeDecodeError =>
      Err ValueError
  | r => r
  end.

End Decode.

(** Two members of the enumeration are equal when they are the same member. *)
Definition MessageType_same (a b : MessageType) : bool :=
  pystr_eqb (value a) (value b).

(** [Message.__eq__] of two message objects, which [@dataclass] writes.
    The method compares the tuples of the fields of the two messages, each
    pair of elements with [is] first and [==] next ([tuples] is true); a
    [dataclasses] module that compares the fields one by one with [==] is
    the case where [tuples] is false. *)
Definition message_eq (tuples : bool) (a b : Message) : bool :=
  pystr_eqb (msg_id a) (msg_id b)
  && MessageType_same (msg_type a) (msg_type b)
  && pystr_eqb (sender a) (sender b)
  && pystr_eqb (content a) (content b)
  && (float_eq (timestamp a) (timestamp b)
      || tuples && same_nan (timestamp a) (timestamp b))
  && pystr_eqb (checksum a) (checksum b)
  && Z.eqb (priority a) (priority b)
  && Z.eqb (sequence_number a) (sequence_number b).

(** The message that differs from [m] in its timestamp only. *)
Definition set_timestamp (ts : pyfloat) (m : Message) : Message :=
  {| msg_id := msg_id m; msg_type := msg_type m; sender := sender m;
     content := content m; timestamp := ts; checksum := checksum m;
     priority := priority m; sequence_number := sequence_number m |}.

(** [validate_username] *)
Definition allowed_chars : pystr :=
  py "abcdefghijklmnopqrstuvwxyzABCDEFGHIJKLMNOPQRSTUVWXYZ0123456789_-".

Definition startswith_hyphen (u : pystr) : bool :=
  match u with
  | c :: _ => N.eqb c 45
  | [] => false
  end.

Definition validate_username (username : pystr) : bool :=
  match username with
  | [] => false
  | _ :: _ =>
      if (length username <? 1)%nat || (32 <? length username)%nat then false
      else if negb (forallb (fun c => existsb (N.eqb c) allowed_chars) username)
      then false
      else if startswith_hyphen username then false
      else true
  end.

(** ** The message factories *)

(** The readings a factory takes from its environment: the clock for the
    identifier, [random.randint(1000, 9999)], and the clock for the
    timestamp. *)
Record stamp : Type := mkStamp {
  clock_id : Q;
  rand : Z;
  clock_ts : pyfloat
}.

(** The identifier [f"<prefix>_{int(time.time())}_{random.randint(1000, 9999)}"]. *)
Definition fresh_id (prefix : pystr) (st : stamp) : pystr :=
  prefix ++ py "_" ++ str_of_int (int_of_Q (clock_id st)) ++ py "_"
  ++ str_of_int (rand st).

(** [Message(...)] called without a checksum. *)
Definition new_Message (id : pystr) (t : MessageType) (snd cnt : pystr)
                       (ts : pyfloat) (prio seq : Z) : result Message :=
  post_init {| msg_id := id; msg_type := t; sender := snd; content := cnt;
               timestamp := ts; checksum := []; priority := prio;
               sequence_number := seq |}.

(** [create_ack_message]; a caller that leaves [sequence_number] out passes 0. *)
Definition create_ack_message (st : stamp) (sender0 ack_for_msg_id : pystr)
                              (seq : Z) : result Message :=
  new_Message (fresh_id (py "ack") st) ACK sender0
    (Json.dumps (py ", ") (py ": ") (JObj [(py "ack_for", JStr ack_for_msg_id)]))
    (clock_ts st) 2 seq.

(** [create_heartbeat_message]; the default [content] is [py "ping"]. *)
Definition create_heartbeat_message (st : stamp) (sender0 content0 : pystr)
  : result Message :=
  new_Message (fresh_id (py "heartbeat") st) HEARTBEAT sender0 content0
    (clock_ts st) 2 0.

(** [create_chat_message]; a caller that leaves [sequence_number] out passes 0. *)
Definition create_chat_message (st : stamp) (sender0 content0 : pystr) (seq : Z)
  : result Message :=
  new_Message (fresh_id (py "chat") st) CHAT sender0 content0 (clock_ts st) 1 seq.

(** ** [NetworkStats] *)

Record NetworkStats : Type := mkStats {
  bytes_sent : Z;
  bytes_received : Z;
  messages_sent : Z;
  messages_received : Z;
  acks_sent : Z;
  acks_received : Z;
  retransmissions : Z;
  checksum_errors : Z;
  connection_time : Q;
  last_activity : Q
}.

(** [NetworkStats.__init__], which reads the clock twice. *)
Definition NetworkStats_init (t1 t2 : Q) : NetworkStats :=
  {| bytes_sent := 0; bytes_received := 0; messages_sent := 0;
     messages_received := 0; acks_sent := 0; acks_received := 0;
     retransmissions := 0; checksum_errors := 0;
     connection_time := t1; last_activity := t2 |}.

Definition is_ack (t : MessageType) : bool :=
  match t with ACK => true | _ => false end.

(** [NetworkStats.record_sent], at clock reading [now]. *)
Definition record_sent (now : Q) (message : Message) (byte_count : Z)
                       (s : NetworkStats) : NetworkStats :=
  {| bytes_sent := bytes_sent s + byte_count;
     bytes_received := bytes_received s;
     messages_sent := messages_sent s + 1;
     messages_received := messages_received s;
     acks_sent := if is_ack (msg_type message) then acks_sent s + 1
                  else acks_sent s;
     acks_received := acks_received s;
     retransmissions := retransmissions s;
     checksum_errors := checksum_errors s;
     connection_time := connection_time s;
     last_activity := now |}.

(** [NetworkStats.record_received], at clock reading [now]. *)
Definition record_received (now : Q) (message : Message) (byte_count : Z)
                           (s : NetworkStats) : NetworkStats :=
  {| bytes_sent := bytes_sent s;
     bytes_received := bytes_received s + byte_count;
     messages_sent := messages_sent s;
     messages_received := messages_received s + 1;
     acks_sent := acks_sent s;
     acks_received := if is_ack (msg_type message) then acks_received s + 1
                      else acks_received s;
     retransmissions := retransmissions s;
     checksum_errors := checksum_errors s;
     connection_time := connection_time s;
     last_activity := now |}.

(** [NetworkStats.record_retransmission] *)
Definition record_retransmission (s : NetworkStats) : NetworkStats :=
  {| bytes_sent := bytes_sent s; bytes_received := bytes_received s;
     messages_sent := messages_sent s; messages_received := messages_received s;
     acks_sent := acks_sent s; acks_received := acks_received s;
     retransmissions := retransmissions s + 1;
     checksum_errors := checksum_errors s;
     connection_time := connection_time s; last_activity := last_activity s |}.

(** [NetworkStats.record_checksum_error] *)
Definition record_checksum_error (s : NetworkStats) : NetworkStats :=
  {| bytes_sent := bytes_sent s; bytes_received := bytes_received s;
     messages_sent := messages_sent s; messages_received := messages_received s;
     acks_sent := acks_sent s; acks_received := acks_received s;
     retransmissions := retransmissions s;
     checksum_errors := checksum_errors s + 1;
     connection_time := connection_time s; last_activity := last_activity s |}.

(** [NetworkStats.get_uptime], at clock reading [now]. *)
Definition get_uptime (now : Q) (s : NetworkStats) : Q := now - connection_time s.

(** [a / b] on floats. *)
Definition truediv (a b : Q) : result Q :=
  if Qeq_bool b 0 then Err ZeroDivisionError else Ok (a / b).

(** The integers that have a float: those that round to a finite one. *)
Definition float_range (n : Z) : bool :=
  (Z.abs n <? 2 ^ 1024 - 2 ^ 970)%Z.

(** [n / b] for an integer and a float: the integer is made a float first,
    which raises OverflowError out of the range of the floats. *)
Definition int_truediv (n : Z) (b : Q) : result Q :=
  if float_range n then truediv (inject_Z n) b else Err OverflowError.

Record throughput : Type := mkThroughput {
  sent_bps : Q;
  received_bps : Q;
  sent_mps : Q;
  received_mps : Q
}.

(** [NetworkStats.get_throughput], at clock reading [now]. *)
Definition get_throughput (now : Q) (s : NetworkStats) : result throughput :=
  let uptime := get_uptime now s in
  if Qeq_bool uptime 0
  then Ok {| sent_bps := 0; received_bps := 0; sent_mps := 0; received_mps := 0 |}
  else
    a <- int_truediv (bytes_sent s) uptime ;;
    b <- int_truediv (bytes_received s) uptime ;;
    c <- int_truediv (messages_sent s) uptime ;;
    d <- int_truediv (messages_received s) uptime ;;
    Ok {| sent_bps := a; received_bps := b; sent_mps := c; received_mps := d |}.

(** What is recorded on a [NetworkStats] object. *)
Inductive stats_event : Type :=
| Sent (now : Q) (message : Message) (byte_count : Z)
| Received (now : Q) (message : Message) (byte_count : Z)
| Retransmission
| ChecksumError.

(** The byte count an event adds to each direction. *)
Definition sent_bytes (e : stats_event) : Z :=
  match e with
  | Sent _ _ n => n
  | _ => 0
  end.

Definition received_bytes (e : stats_event) : Z :=
  match e with
  | Received _ _ n => n
  | _ => 0
  end.

Definition byte_total (f : stats_event -> Z) (es : list stats_event) : Z :=
  fold_right Z.add 0%Z (map f es).

Definition stats_step (s : NetworkStats) (e : stats_event) : NetworkStats :=
  match e with
  | Sent now m n => record_sent now m n s
  | Received now m n => record_received now m n s
  | Retransmission => record_retransmission s
  | ChecksumError => record_checksum_error s
  end.

Definition stats_run (es : list stats_event) (s : NetworkStats) : NetworkStats :=
  fold_left stats_step es s.

(** The protocol constants. *)
Definition MAX_MESSAGE_SIZE : Z := 65536.
Definition ACK_TIMEOUT : Z := 5.
Definition MAX_RETRANSMISSIONS : Z := 3.
Definition CONGESTION_WINDOW_INITIAL : Z := 1.
Definition SLOW_START_THRESHOLD : Z := 64.

End Protocol.

(** ** The congestion controller ([CongestionControl]) *)

Inductive CongestionState : Type :=
| SLOW_START
| CONGESTION_AVOIDANCE
| FAST_RECOVERY.

Record CongestionControl : Type := mkCC {
  cwnd : Q;
  ssthresh : Q;
  state : CongestionState;
  duplicate_acks : Z;
  last_ack : Z;
  rtt_samples : list Q;
  srtt : Q;
  rttvar : Q;
  rto : Q
}.

(** [CongestionControl.__init__] *)
Definition CongestionControl_init : CongestionControl :=
  {| cwnd := 1; ssthresh := 64; state := SLOW_START;
     duplicate_acks := 0; last_ack := 0; rtt_samples := [];
     srtt := 0; rttvar := 0; rto := 3 |}.

(** [list.pop(0)] after the length test of [update_rtt]. *)
Definition pop0 (l : list Q) : list Q := tl l.

(** The first branch of [update_rtt]: the new [(srtt, rttvar)]. *)
Definition jacobson (rtt : Q) (c : CongestionControl) : Q * Q :=
  match rtt_samples c with
  | [] => (rtt, rtt / 2)
  | _ :: _ =>
      let alpha := 125 # 1000 in
      let beta := 25 # 100 in
      let rttvar1 := (1 - beta) * rttvar c + beta * Qabs (srtt c - rtt) in
      let srtt1 := (1 - alpha) * srtt c + alpha * rtt in
      (srtt1, rttvar1)
  end.

(** [CongestionControl.update_rtt] *)
Definition update_rtt (rtt : Q) (c : CongestionControl) : CongestionControl :=
  let est := jacobson rtt c in
  let samples := rtt_samples c ++ [rtt] in
  {| cwnd := cwnd c; ssthresh := ssthresh c; state := state c;
     duplicate_acks := duplicate_acks c; last_ack := last_ack c;
     rtt_samples :=
       if (100 <? length samples)%nat then pop0 samples else samples;
     srtt := fst est;
     rttvar := snd est;
     rto := pymax 1 (fst est + 4 * snd est) |}.

Definition set_window (w : Q) (st : CongestionState) (c : CongestionControl)
  : CongestionControl :=
  {| cwnd := w; ssthresh := ssthresh c; state := st;
     duplicate_acks := duplicate_acks c; last_ack := last_ack c;
     rtt_samples := rtt_samples c; srtt := srtt c; rttvar := rttvar c;
     rto := rto c |}.

(** The two assignments that open the new-ACK branch. *)
Definition note_new_ack (ack_num : Z) (c : CongestionControl)
  : CongestionControl :=
  {| cwnd := cwnd c; ssthresh := ssthresh c; state := state c;
     duplicate_acks := 0; last_ack := ack_num;
     rtt_samples := rtt_samples c; srtt := srtt c; rttvar := rttvar c;
     rto := rto c |}.

(** [self.duplicate_acks += 1] *)
Definition note_dup_ack (c : CongestionControl) : CongestionControl :=
  {| cwnd := cwnd c; ssthresh := ssthresh c; state := state c;
     duplicate_acks := duplicate_acks c + 1; last_ack := last_ack c;
     rtt_samples := rtt_samples c; srtt := srtt c; rttvar := rttvar c;
     rto := rto c |}.

(** The fast-retransmit assignments, in source order. *)
Definition fast_retransmit (c : CongestionControl) : CongestionControl :=
  let ssthresh' := pymax (cwnd c / 2) 2 in
  {| cwnd := ssthresh' + 3; ssthresh := ssthresh'; state := FAST_RECOVERY;
     duplicate_acks := duplicate_acks c; last_ack := last_ack c;
     rtt_samples := rtt_samples c; srtt := srtt c; rttvar := rttvar c;
     rto := rto c |}.

(** [CongestionControl.on_ack_received].  The only statement that can raise
    is the float division [1.0 / self.cwnd], on a zero window. *)
Definition on_ack_received (ack_num : Z) (rtt : Q) (c0 : CongestionControl)
  : outcome CongestionControl :=
  let c := update_rtt rtt c0 in
  if (ack_num >? last_ack c)%Z then
    let c1 := note_new_ack ack_num c in
    match state c1 with
    | SLOW_START =>
        let w := cwnd c1 + 1 in
        if Qgeb w (ssthresh c1)
        then Returned (set_window w CONGESTION_AVOIDANCE c1)
        else Returned (set_window w SLOW_START c1)
    | CONGESTION_AVOIDANCE =>
        if Qeq_bool (cwnd c1) 0
        then Raised ZeroDivisionError c1
        else Returned (set_window (cwnd c1 + 1 / cwnd c1)
                                  CONGESTION_AVOIDANCE c1)
    | FAST_RECOVERY =>
        Returned (set_window (ssthresh c1) CONGESTION_AVOIDANCE c1)
    end
  else if (ack_num =? last_ack c)%Z then
    let c1 := note_dup_ack c in
    if (duplicate_acks c1 =? 3)%Z then Returned (fast_retransmit c1)
    else match state c1 with
         | FAST_RECOVERY => Returned (set_window (cwnd c1 + 1) FAST_RECOVERY c1)
         | _ => Returned c1
         end
  else Returned c.

(** [CongestionControl.on_timeout] *)
Definition on_timeout (c : CongestionControl) : CongestionControl :=
  {| cwnd := 1; ssthresh := pymax (cwnd c / 2) 2; state := SLOW_START;
     duplicate_acks := 0; last_ack := last_ack c;
     rtt_samples := rtt_samples c; srtt := srtt c; rttvar := rttvar c;
     rto := rto c * 2 |}.

(** Events that drive a controller, and the state a sequence of them leaves. *)
Inductive cc_event : Type :=
| EvAck (ack_num : Z) (rtt : Q)
| EvTimeout.

Definition cc_step (c : CongestionControl) (e : cc_event) : CongestionControl :=
  match e with
  | EvAck a r => state_of (on_ack_received a r c)
  | EvTimeout => on_timeout c
  end.

Definition cc_run (es : list cc_event) (c : CongestionControl)
  : CongestionControl :=
  fold_left cc_step es c.

(** The samples passed to the estimator by a sequence of events, oldest first. *)
Fixpoint samples_of (es : list cc_event) : list Q :=
  match es with
  | [] => []
  | EvAck _ r :: es' => r :: samples_of es'
  | EvTimeout :: es' => samples_of es'
  end.

(** A run of duplicate ACKs: each carries the sequence number the controller
    acknowledged last, with its own RTT sample. *)
Definition dup_acks (rtts : list Q) (c : CongestionControl)
  : CongestionControl :=
  cc_run (map (EvAck (last_ack c)) rtts) c.

(** A run of new ACKs: sequence numbers strictly above the one acknowledged
    last, each above its predecessor. *)
Fixpoint fresh_acks (last : Z) (acks : list (Z * Q)) : Prop :=
  match acks with
  | [] => True
  | (a, _) :: acks' => (last < a)%Z /\ fresh_acks a acks'
  end.

Definition ack_events (acks : list (Z * Q)) : list cc_event :=
  map (fun p => EvAck (fst p) (snd p)) acks.

(** The invariant of the controller. *)
Definition cc_inv (c : CongestionControl) : Prop :=
  1 <= cwnd c /\ 2 <= ssthresh c /\ 1 <= rto c /\
  (length (rtt_samples c) <= 100)%nat.

(** The last [n] elements of a list. *)
Definition lastn {A : Type} (n : nat) (l : list A) : list A :=
  skipn (length l - n) l.

(** ** [tcp_chat_server.py]: the server's own message class *)

Module Server.

Inductive MessageType : Type :=
| CHAT | ACK | HEARTBEAT | JOIN | LEAVE | RETRANSMIT.

Definition value (t : MessageType) : pystr :=
  match t with
  | CHAT => py "chat"
  | ACK => py "ack"
  | HEARTBEAT => py "heartbeat"
  | JOIN => py "join"
  | LEAVE => py "leave"
  | RETRANSMIT => py "retransmit"
  end.

Definition is_ack (t : MessageType) : bool :=
  match t with ACK => true | _ => false end.

Record Message : Type := mkMessage {
  msg_id : pystr;
  msg_type : MessageType;
  sender : pystr;
  content : pystr;
  timestamp : pyfloat;
  checksum : pystr
}.

(** The f-string of [calculate_checksum]. *)
Definition checksum_data (m : Message) : pystr :=
  msg_id m ++ value (msg_type m) ++ sender m ++ content m
  ++ float_repr (timestamp m).

(** [Message.calculate_checksum] *)
Definition calculate_checksum (m : Message) : result pystr :=
  data <- encode_utf8 (checksum_data m) ;;
  Ok (firstn 16 (Sha256.hexdigest data)).

Definition set_checksum (c : pystr) (m : Message) : Message :=
  {| msg_id := msg_id m; msg_type := msg_type m; sender := sender m;
     content := content m; timestamp := timestamp m; checksum := c |}.

(** [Message.__post_init__] *)
Definition post_init (m : Message) : result Message :=
  match checksum m with
  | [] => c <- calculate_checksum m ;; Ok (set_checksum c m)
  | _ :: _ => Ok m
  end.

(** [Message(msg_id=..., msg_type=..., sender=..., content=..., timestamp=...)] *)
Definition new_Message (id : pystr) (t : MessageType) (snd cnt : pystr)
                       (ts : pyfloat) : result Message :=
  post_init {| msg_id := id; msg_type := t; sender := snd; content := cnt;
               timestamp := ts; checksum := [] |}.

(** [Message.is_valid] *)
Definition is_valid (m : Message) : result bool :=
  c <- calculate_checksum m ;; Ok (pystr_eqb (checksum m) c).

Definition to_dict (m : Message) : json :=
  JObj [(py "msg_id", JStr (msg_id m));
        (py "msg_type", JStr (value (msg_type m)));
        (py "sender", JStr (sender m));
        (py "content", JStr (content m));
        (py "timestamp", JFloat (timestamp m));
        (py "checksum", JStr (checksum m))].

(** [Message.to_bytes], with the default separators of [json.dumps]. *)
Definition to_bytes (m : Message) : result bytes :=
  json_data <- encode_utf8 (Json.dumps (py ", ") (py ": ") (to_dict m)) ;;
  header <- Protocol.pack_u32 (N.of_nat (length json_data)) ;;
  Ok (header ++ json_data).

(** ** [ClientConnection] *)

Record ClientConnection : Type := mkConn {
  client_id : pystr;
  username : pystr;
  congestion_control : CongestionControl;
  send_queue : list Message;
  pending_messages : list (pystr * (Message * Q));  (* msg_id -> (message, send time) *)
  last_heartbeat : Q;
  sequence_number : Z;
  expected_ack : Z;
  running : bool;
  sock_open : bool;       (* whether [socket.sendall] still succeeds *)
  wire : list Message     (* messages whose frame [sendall] took, oldest first *)
}.

(** [ClientConnection.__init__] at clock reading [now]. *)
Definition ClientConnection_init (id : pystr) (now : Q) : ClientConnection :=
  {| client_id := id; username := []; congestion_control := CongestionControl_init;
     send_queue := []; pending_messages := []; last_heartbeat := now;
     sequence_number := 0; expected_ack := 0; running := true;
     sock_open := true; wire := [] |}.

Definition with_cc (cc : CongestionControl) (c : ClientConnection)
  : ClientConnection :=
  {| client_id := client_id c; username := username c; congestion_control := cc;
     send_queue := send_queue c; pending_messages := pending_messages c;
     last_heartbeat := last_heartbeat c; sequence_number := sequence_number c;
     expected_ack := expected_ack c; running := running c;
     sock_open := sock_open c; wire := wire c |}.

Definition with_pending (p : list (pystr * (Message * Q))) (c : ClientConnection)
  : ClientConnection :=
  {| client_id := client_id c; username := username c;
     congestion_control := congestion_control c;
     send_queue := send_queue c; pending_messages := p;
     last_heartbeat := last_heartbeat c; sequence_number := sequence_number c;
     expected_ack := expected_ack c; running := running c;
     sock_open := sock_open c; wire := wire c |}.

Definition with_queue (q : list Message) (c : ClientConnection)
  : ClientConnection :=
  {| client_id := client_id c; username := username c;
     congestion_control := congestion_control c;
     send_queue := q; pending_messages := pending_messages c;
     last_heartbeat := last_heartbeat c; sequence_number := sequence_number c;
     expected_ack := expected_ack c; running := running c;
     sock_open := sock_open c; wire := wire c |}.

Definition with_running (b : bool) (c : ClientConnection) : ClientConnection :=
  {| client_id := client_id c; username := username c;
     congestion_control := congestion_control c;
     send_queue := send_queue c; pending_messages := pending_messages c;
     last_heartbeat := last_heartbeat c; sequence_number := sequence_number c;
     expected_ack := expected_ack c; running := b;
     sock_open := sock_open c; wire := wire c |}.

Definition with_wire (w : list Message) (c : ClientConnection)
  : ClientConnection :=
  {| client_id := client_id c; username := username c;
     congestion_control := congestion_control c;
     send_queue := send_queue c; pending_messages := pending_messages c;
     last_heartbeat := last_heartbeat c; sequence_number := sequence_number c;
     expected_ack := expected_ack c; running := running c;
     sock_open := sock_open c; wire := w |}.

(** [ClientConnection._send_raw]: any exception of [to_bytes] or [sendall]
    is caught and clears [running]. *)
Definition _send_raw (message : Message) (c : ClientConnection)
  : ClientConnection :=
  match to_bytes message with
  | Ok _ =>
      if sock_open c then with_wire (wire c ++ [message]) c
      else with_running false c
  | Err _ => with_running false c
  end.

(** [ClientConnection.send_message] *)
Definition send_message (message : Message) (c : ClientConnection)
  : ClientConnection :=
  if running c then with_queue (send_queue c ++ [message]) c else c.

(** One pass of the retransmission loop body for one identifier. *)
Definition retransmit_one (current_time : Q) (c : ClientConnection) (id : pystr)
  : ClientConnection :=
  match dict_get id (pending_messages c) with
  | Some (message, _) =>
      let c1 := _send_raw message c in
      let c2 := with_pending
                  (dict_set id (message, current_time) (pending_messages c1)) c1 in
      with_cc (on_timeout (congestion_control c2)) c2
  | None => c
  end.

(** The loop that sends new messages: at most [n] of them, stopping when the
    queue is found empty. *)
Fixpoint send_new (n : nat) (current_time : Q) (c : ClientConnection)
  : ClientConnection :=
  match n with
  | O => c
  | S n' =>
      match send_queue c with
      | [] => c
      | message :: q =>
          let c1 := _send_raw message (with_queue q c) in
          let c2 :=
            if is_ack (msg_type message) then c1
            else with_pending
                   (dict_set (msg_id message) (message, current_time)
                             (pending_messages c1)) c1 in
          send_new n' current_time c2
      end
  end.

(** The identifiers the first loop of the pass collects. *)
Definition to_retransmit (current_time : Q) (c : ClientConnection) : list pystr :=
  map fst
    (filter (fun e => Qgtb (current_time - snd (snd e))
                           (rto (congestion_control c)))
            (pending_messages c)).

(** The body of the [while] of [_sender_worker], at clock reading
    [current_time]. *)
Definition sender_pass (current_time : Q) (c : ClientConnection)
  : ClientConnection :=
  let c1 := fold_left (retransmit_one current_time)
                      (to_retransmit current_time c) c in
  let messages_in_flight := Z.of_nat (length (pending_messages c1)) in
  let can_send :=
    (int_of_Q (cwnd (congestion_control c1)) - messages_in_flight)%Z in
  send_new (Z.to_nat (Z.max 0 can_send)) current_time c1.

(** One turn of [while self.running]. *)
Definition _sender_worker (current_time : Q) (c : ClientConnection)
  : ClientConnection :=
  if running c then sender_pass current_time c else c.

Section Acks.
Variable float_of_literal : pystr -> option pyfloat.

(** The identifier [handle_ack] looks up: [json.loads(content).get('ack_for')]
    when that is a string.  A content that is not JSON, a document that is
    not an object, and an unhashable [ack_for] end in the [except] clause; a
    missing key gives [None] and a number or a boolean is no key of
    [pending_messages]: in all those cases the connection is left as it was. *)
Definition ack_for (content : pystr) : option pystr :=
  match Json.loads float_of_literal content with
  | Ok (JObj d) =>
      match dict_get (py "ack_for") d with
      | Some (JStr id) => Some id
      | _ => None
      end
  | _ => None
  end.

(** [ClientConnection.handle_ack], at clock reading [now]. *)
Definition handle_ack (now : Q) (ack_message : Message) (c : ClientConnection)
  : ClientConnection :=
  match ack_for (content ack_message) with
  | None => c
  | Some ack_msg_id =>
      match dict_get ack_msg_id (pending_messages c) with
      | None => c
      | Some (_, send_time) =>
          let rtt := now - send_time in
          match on_ack_received (expected_ack c) rtt (congestion_control c) with
          | Raised _ cc => with_cc cc c
          | Returned cc =>
              let c1 := with_cc cc c in
              let c2 :=
                {| client_id := client_id c1; username := username c1;
                   congestion_control := congestion_control c1;
                   send_queue := send_queue c1;
                   pending_messages := pending_messages c1;
                   last_heartbeat := last_heartbeat c1;
                   sequence_number := sequence_number c1;
                   expected_ack := expected_ack c1 + 1;
                   running := running c1; sock_open := sock_open c1;
                   wire := wire c1 |} in
              with_pending (dict_del ack_msg_id (pending_messages c2)) c2
          end
      end
  end.

(** What can happen to a connection: a message is queued, the sender loop
    takes a turn, an ACK is handled, the peer goes away. *)
Inductive conn_event : Type :=
| CSend (message : Message)
| CSenderTurn (current_time : Q)
| CAck (now : Q) (ack_message : Message)
| CPeerGone.

Definition conn_step (c : ClientConnection) (e : conn_event) : ClientConnection :=
  match e with
  | CSend m => send_message m c
  | CSenderTurn t => _sender_worker t c
  | CAck now m => handle_ack now m c
  | CPeerGone =>
      {| client_id := client_id c; username := username c;
         congestion_control := congestion_control c;
         send_queue := send_queue c; pending_messages := pending_messages c;
         last_heartbeat := last_heartbeat c;
         sequence_number := sequence_number c;
         expected_ack := expected_ack c; running := running c;
         sock_open := false; wire := wire c |}
  end.

Definition conn_run (es : list conn_event) (c : ClientConnection)
  : ClientConnection :=
  fold_left conn_step es c.

End Acks.

(** ** [ChatServer] *)

(** The readings a freshly built message takes from its environment: the
    clock for the identifier, [random.randint(1000, 9999)], and the clock
    for the timestamp. *)
Record stamp : Type := mkStamp {
  clock_id : Q;
  rand : Z;
  clock_ts : pyfloat
}.

(** The identifier [f"<prefix>_{int(time.time())}_{random.randint(1000, 9999)}"]. *)
Definition fresh_id (prefix : pystr) (st : stamp) : pystr :=
  prefix ++ py "_" ++ str_of_int (int_of_Q (clock_id st)) ++ py "_"
  ++ str_of_int (rand st).

Record ChatServer : Type := mkServer {
  clients : list (pystr * ClientConnection);
  server_running : bool;           (* [ChatServer.running] *)
  packet_loss_rate : Q;
  artificial_delay : Q
}.

Definition with_clients (cl : list (pystr * ClientConnection)) (s : ChatServer)
  : ChatServer :=
  {| clients := cl; server_running := server_running s;
     packet_loss_rate := packet_loss_rate s;
     artificial_delay := artificial_delay s |}.

(** Apply a method to the connection object registered under [id]. *)
Definition on_client (id : pystr) (f : ClientConnection -> ClientConnection)
                     (s : ChatServer) : ChatServer :=
  match dict_get id (clients s) with
  | Some c => with_clients (dict_set id (f c) (clients s)) s
  | None => s
  end.

(** [ChatServer._broadcast_message] *)
Definition _broadcast_message (st : stamp) (text : pystr)
                              (exclude_client : option pystr) (s : ChatServer)
  : outcome ChatServer :=
  match new_Message (fresh_id (py "broadcast") st) CHAT (py "server") text
                    (clock_ts st) with
  | Err e => Raised e s
  | Ok message =>
      Returned
        (with_clients
           (map (fun kv =>
                   let excluded :=
                     match exclude_client with
                     | Some x => pystr_eqb (fst kv) x
                     | None => false
                     end in
                   if negb excluded && running (snd kv)
                   then (fst kv, send_message message (snd kv))
                   else kv)
                (clients s))
           s)
  end.

(** [ClientConnection.close] *)
Definition close (c : ClientConnection) : ClientConnection :=
  {| client_id := client_id c; username := username c;
     congestion_control := congestion_control c;
     send_queue := send_queue c; pending_messages := pending_messages c;
     last_heartbeat := last_heartbeat c; sequence_number := sequence_number c;
     expected_ack := expected_ack c; running := false;
     sock_open := false; wire := wire c |}.

(** [ChatServer._disconnect_client] *)
Definition _disconnect_client (st : stamp) (id : pystr) (s : ChatServer)
  : outcome ChatServer :=
  match dict_get id (clients s) with
  | None => Returned s
  | Some client_conn =>
      let name := match username client_conn with
                  | [] => id
                  | _ :: _ => username client_conn
                  end in
      let announced :=
        match username client_conn with
        | [] => Returned s
        | _ :: _ =>
            _broadcast_message st
              (py "*** " ++ name ++ py " left the chat ***") (Some id) s
        end in
      match announced with
      | Raised e s1 => Raised e s1
      | Returned s1 =>
          let s2 := on_client id close s1 in
          Returned (with_clients (dict_del id (clients s2)) s2)
      end
  end.

Definition with_username (name : pystr) (c : ClientConnection)
  : ClientConnection :=
  {| client_id := client_id c; username := name;
     congestion_control := congestion_control c;
     send_queue := send_queue c; pending_messages := pending_messages c;
     last_heartbeat := last_heartbeat c; sequence_number := sequence_number c;
     expected_ack := expected_ack c; running := running c;
     sock_open := sock_open c; wire := wire c |}.

Definition with_heartbeat (t : Q) (c : ClientConnection) : ClientConnection :=
  {| client_id := client_id c; username := username c;
     congestion_control := congestion_control c;
     send_queue := send_queue c; pending_messages := pending_messages c;
     last_heartbeat := t; sequence_number := sequence_number c;
     expected_ack := expected_ack c; running := running c;
     sock_open := sock_open c; wire := wire c |}.

(** The readings one call of [_process_message] takes. *)
Record readings : Type := mkReadings {
  now : Q;                (* [time.time()] for [last_heartbeat] *)
  rtt_clock : Q;          (* [time.time()] in [handle_ack], for the RTT *)
  ack_stamp : stamp;      (* for the ACK it builds *)
  notice_stamp : stamp    (* for the notice it broadcasts *)
}.

Section Process.
Variable float_of_literal : pystr -> option pyfloat.

(** [ChatServer._process_message], for the connection registered as [id]. *)
Definition _process_message (env : readings) (id : pystr) (message : Message)
                            (s : ChatServer) : outcome ChatServer :=
  let s1 := on_client id (with_heartbeat (now env)) s in
  let acked :=
    if is_ack (msg_type message) then Returned s1
    else
      match new_Message (fresh_id (py "ack") (ack_stamp env)) ACK (py "server")
              (Json.dumps (py ", ") (py ": ")
                 (JObj [(py "ack_for", JStr (msg_id message))]))
              (clock_ts (ack_stamp env)) with
      | Err e => Raised e s1
      | Ok ack_message => Returned (on_client id (send_message ack_message) s1)
      end in
  match acked with
  | Raised e s2 => Raised e s2
  | Returned s2 =>
      match msg_type message with
      | JOIN =>
          let s3 := on_client id (with_username (content message)) s2 in
          _broadcast_message (notice_stamp env)
            (py "*** " ++ content message ++ py " joined the chat ***")
            (Some id) s3
      | CHAT =>
          let name := match dict_get id (clients s2) with
                      | Some c => username c
                      | None => []
                      end in
          _broadcast_message (notice_stamp env)
            (py "[" ++ name ++ py "]: " ++ content message) (Some id) s2
      | ACK =>
          Returned (on_client id
                      (handle_ack float_of_literal (rtt_clock env) message) s2)
      | HEARTBEAT => Returned s2
      | LEAVE => _disconnect_client (notice_stamp env) id s2
      | RETRANSMIT => Returned s2
      end
  end.

End Process.

(** ** Receiving: [Message.from_bytes] and the framing loop *)

Definition members : list MessageType :=
  [CHAT; ACK; HEARTBEAT; JOIN; LEAVE; RETRANSMIT].

(** [MessageType(v)]: the member whose value is [v]. *)
Definition MessageType_of (v : json) : result MessageType :=
  match v with
  | JStr s =>
      match find (fun t => pystr_eqb (value t) s) members with
      | Some t => Ok t
      | None => Err ValueError
      end
  | _ => Err ValueError
  end.

Definition field_names : list pystr :=
  [py "msg_id"; py "msg_type"; py "sender"; py "content"; py "timestamp";
   py "checksum"].

Definition required_fields : list pystr :=
  [py "msg_id"; py "msg_type"; py "sender"; py "content"; py "timestamp"].

(** The dataclass constructor called with the dictionary as its keyword
    arguments (last line of [from_bytes]), followed by [__post_init__]. *)
Definition construct (mt : MessageType) (d : list (pystr * json))
  : result Message :=
  if negb (forallb (fun k => existsb (pystr_eqb k) field_names) (dict_keys d))
  then Err TypeError
  else if negb (forallb (fun k => dict_mem k d) required_fields)
  then Err TypeError
  else
    id <- Protocol.get_str (py "msg_id") None d ;;
    snd <- Protocol.get_str (py "sender") None d ;;
    cnt <- Protocol.get_str (py "content") None d ;;
    ts <- Protocol.get_float (py "timestamp") d ;;
    chk <- Protocol.get_checksum d ;;
    post_init {| msg_id := id; msg_type := mt; sender := snd; content := cnt;
                 timestamp := ts; checksum := chk |}.

Section Receive.
Variable float_of_literal : pystr -> option pyfloat.

(** [Message.from_bytes]: no exception is caught here. *)
Definition from_bytes (data : bytes) : result Message :=
  text <- decode_utf8 data ;;
  json_data <- Json.loads float_of_literal text ;;
  match json_data with
  | JObj d =>
      match dict_get (py "msg_type") d with
      | None => Err KeyError
      | Some v => mt <- MessageType_of v ;; construct mt d
      end
  | _ => Err TypeError
  end.

(** [struct.unpack('!I', b)[0]] on four bytes. *)
Definition unpack_u32 (b : bytes) : N := Sha256.be_word b.

(** The inner [while] of [_handle_client]: the complete frames at the head of
    [buffer], oldest first, and what stays in the buffer.  Every turn takes
    at least four bytes, so [length buffer] turns are enough. *)
Fixpoint take_frames_fuel (fuel : nat) (buffer : bytes) : list bytes * bytes :=
  match fuel with
  | O => ([], buffer)
  | S fuel' =>
      if (4 <=? length buffer)%nat then
        let msg_length := N.to_nat (unpack_u32 (firstn 4 buffer)) in
        if (4 + msg_length <=? length buffer)%nat then
          let msg_data := firstn msg_length (skipn 4 buffer) in
          let (later, rest) :=
            take_frames_fuel fuel' (skipn (4 + msg_length) buffer) in
          (msg_data :: later, rest)
        else ([], buffer)
      else ([], buffer)
  end.

Definition take_frames (buffer : bytes) : list bytes * bytes :=
  take_frames_fuel (length buffer) buffer.

(** The readings taken for one frame: [random.random()] and those of
    [_process_message]. *)
Record frame_env : Type := mkFrameEnv {
  loss_sample : Q;
  frame_readings : readings
}.

(** What [_handle_client] does with one frame [msg_data] of the connection
    registered as [id]: every exception of the [try] is logged and dropped.
    The result is [Err Untyped] for a frame whose JSON gives a field a value
    of another type than the class declares: the object built from it is
    outside the records of this development. *)
Definition handle_frame (env : frame_env) (id : pystr) (msg_data : bytes)
                        (s : ChatServer) : result ChatServer :=
  if Qgtb (packet_loss_rate s) (loss_sample env) then Ok s
  else
    match from_bytes msg_data with
    | Ok message =>
        match is_valid message with
        | Ok true =>
            Ok (state_of (_process_message float_of_literal (frame_readings env)
                                           id message s))
        | _ => Ok s
        end
    | Err Untyped => Err Untyped
    | Err _ => Ok s
    end.

End Receive.

(** ** The supervisor: heartbeats, disconnection of the silent, shutdown *)

(** [ChatServer.set_network_conditions] *)
Definition set_network_conditions (rate delay : Q) (s : ChatServer) : ChatServer :=
  {| clients := clients s; server_running := server_running s;
     packet_loss_rate := pymax 0 (pymin 1 rate);
     artificial_delay := pymax 0 delay |}.

(** The first [for] of [_heartbeat_worker] over the items of [self.clients]:
    the identifiers found dead and the connections afterwards.  [stamps id]
    are the readings taken while the message for [id] is built; if building
    it raises, the loop stops there. *)
Fixpoint heartbeat_pass (current_time : Q) (stamps : pystr -> stamp)
                        (items : list (pystr * ClientConnection))
  : outcome (list pystr * list (pystr * ClientConnection)) :=
  match items with
  | [] => Returned ([], [])
  | (id, c) :: rest =>
      if Qgtb (current_time - last_heartbeat c) 30 then
        match heartbeat_pass current_time stamps rest with
        | Returned (dead, rest') => Returned (id :: dead, (id, c) :: rest')
        | Raised e (dead, rest') => Raised e (id :: dead, (id, c) :: rest')
        end
      else if Qgtb (current_time - last_heartbeat c) 10 then
        match new_Message (fresh_id (py "heartbeat") (stamps id)) HEARTBEAT
                (py "server") (py "ping") (clock_ts (stamps id)) with
        | Err e => Raised e ([], items)
        | Ok heartbeat_msg =>
            match heartbeat_pass current_time stamps rest with
            | Returned (dead, rest') =>
                Returned (dead, (id, send_message heartbeat_msg c) :: rest')
            | Raised e (dead, rest') =>
                Raised e (dead, (id, send_message heartbeat_msg c) :: rest')
            end
        end
      else
        match heartbeat_pass current_time stamps rest with
        | Returned (dead, rest') => Returned (dead, (id, c) :: rest')
        | Raised e (dead, rest') => Raised e (dead, (id, c) :: rest')
        end
  end.

(** [for client_id in ids: self._disconnect_client(client_id)]; [stamps id]
    are the readings of the notice broadcast for [id]. *)
Fixpoint disconnect_all (stamps : pystr -> stamp) (ids : list pystr)
                        (s : ChatServer) : outcome ChatServer :=
  match ids with
  | [] => Returned s
  | id :: rest =>
      match _disconnect_client (stamps id) id s with
      | Returned s1 => disconnect_all stamps rest s1
      | Raised e s1 => Raised e s1
      end
  end.

(** One turn of the [while] of [_heartbeat_worker], at clock reading
    [current_time]. *)
Definition _heartbeat_worker (current_time : Q)
                             (ping_stamps notice_stamps : pystr -> stamp)
                             (s : ChatServer) : outcome ChatServer :=
  if server_running s then
    match heartbeat_pass current_time ping_stamps (clients s) with
    | Raised e (_, items) => Raised e (with_clients items s)
    | Returned (dead_clients, items) =>
        disconnect_all notice_stamps dead_clients (with_clients items s)
    end
  else Returned s.

(** [ChatServer.shutdown] *)
Definition shutdown (notice_stamps : pystr -> stamp) (s : ChatServer)
  : outcome ChatServer :=
  disconnect_all notice_stamps (dict_keys (clients s))
    {| clients := clients s; server_running := false;
       packet_loss_rate := packet_loss_rate s;
       artificial_delay := artificial_delay s |}.

(** How many times the frame of message [id] was written to the socket. *)
Definition transmissions (id : pystr) (c : ClientConnection) : nat :=
  length (filter (fun m => pystr_eqb (msg_id m) id) (wire c)).

End Server.

(** ** Scenarios *)

(** Successive turns of the sender loop at the given clock readings. *)
Definition run_turns (times : list Q) (c : Server.ClientConnection)
  : Server.ClientConnection :=
  fold_left (fun c t => Server._sender_worker t c) times c.

(** Clock readings that let the retransmission timer expire at every turn
    after the first: each is later than its predecessor by more than the
    timeout then in force, which the turn doubles. *)
Fixpoint backoff_from (t timeout : Q) (k : nat) : list Q :=
  match k with
  | O => []
  | S k' => t :: backoff_from (t + timeout + 1) (timeout * 2) k'
  end.

Definition backoff_times (k : nat) : list Q :=
  backoff_from 0 (rto CongestionControl_init) k.

(** A connection whose only business is one unacknowledged message, sent
    [k] times, last at [t]. *)
Definition one_pending (id : pystr) (m : Server.Message) (k : nat) (t : Q)
                       (cc : CongestionControl) : Server.ClientConnection :=
  {| Server.client_id := id; Server.username := [];
     Server.congestion_control := cc;
     Server.send_queue := [];
     Server.pending_messages := [(Server.msg_id m, (m, t))];
     Server.last_heartbeat := 0; Server.sequence_number := 0;
     Server.expected_ack := 0; Server.running := true;
     Server.sock_open := true; Server.wire := repeat m k |}.

Definition sample_ts : pyfloat :=
  Finite (17000000005 # 10) (py "1700000000.5").

(** A notice the server broadcasts, as [_broadcast_message] builds it. *)
Definition sample_notice : Server.Message :=
  {| Server.msg_id := py "broadcast_1700000000_1234";
     Server.msg_type := Server.CHAT;
     Server.sender := py "server";
     Server.content := py "[bob]: hi";
     Server.timestamp := sample_ts;
     Server.checksum := py "ef500f7cd6c6c429" |}.

(** The ACK a client returns for it. *)
Definition sample_ack : Server.Message :=
  {| Server.msg_id := py "ack_1700000005_4321";
     Server.msg_type := Server.ACK;
     Server.sender := py "alice";
     Server.content := pyq "{'ack_for': 'broadcast_1700000000_1234'}";
     Server.timestamp := sample_ts;
     Server.checksum := py "d68adb35d52b497e" |}.

(** The frame of the sample notice. *)
Definition sample_frame : bytes :=
  match Server.to_bytes sample_notice with
  | Ok frame => frame
  | Err _ => []
  end.

(** The sample notice queued on a fresh connection, sent at 0 and sent again
    at 4, after the initial timeout of 3 seconds. *)
Definition retransmitted_once : Server.ClientConnection :=
  run_turns [0; 4]
    (Server.send_message sample_notice
       (Server.ClientConnection_init (py "client_1700000000_1000") 0)).

(** Text made of ASCII characters only. *)
Definition ascii_only (s : pystr) : bool := forallb (fun c => N.ltb c 128) s.

(** The characters the username rule names: letters, digits, underscore and
    hyphen. *)
Definition name_char (c : N) : bool :=
  ((65 <=? c) && (c <=? 90) || (97 <=? c) && (c <=? 122)
   || (48 <=? c) && (c <=? 57) || (c =? 95) || (c =? 45))%N.

(** The username rule: 1 to 32 such characters, the first not a hyphen. *)
Definition username_rule (u : pystr) : Prop :=
  (1 <= length u <= 32)%nat /\
  Forall (fun c => name_char c = true) u /\
  hd 0%N u <> 45%N.

(** A server with one fresh client, and a JOIN under a name that starts with
    a hyphen. *)
Definition lone_client : Server.ChatServer :=
  {| Server.clients :=
       [(py "client_1700000000_1000",
         Server.ClientConnection_init (py "client_1700000000_1000") 0)];
     Server.server_running := true;
     Server.packet_loss_rate := 0;
     Server.artificial_delay := 0 |}.

Definition bad_join : Server.Message :=
  {| Server.msg_id := py "join_1700000000_1111";
     Server.msg_type := Server.JOIN;
     Server.sender := py "-bad";
     Server.content := py "-bad";
     Server.timestamp := sample_ts;
     Server.checksum := py "cf7a3333be772318" |}.

Definition sample_readings : Server.readings :=
  {| Server.now := 17000000006 # 10;
     Server.rtt_clock := 17000000007 # 10;
     Server.ack_stamp :=
       {| Server.clock_id := 17000000006 # 10; Server.rand := 4321;
          Server.clock_ts := sample_ts |};
     Server.notice_stamp :=
       {| Server.clock_id := 17000000006 # 10; Server.rand := 1234;
          Server.clock_ts := sample_ts |} |}.

(** A code point that UTF-8 can encode: at most U+10FFFF, no surrogate. *)
Definition encodable (c : N) : bool :=
  ((c <? 0xD800) || ((0xDFFF <? c) && (c <=? 0x10FFFF)))%N.

(** A token that [json.loads] reads as a float: made of number characters,
    a JSON number, with a fraction or an exponent. *)
Definition float_token (tok : pystr) : bool :=
  forallb Json.is_numchar tok
  && match Json.classify_number tok with Some true => true | _ => false end.

(** What may follow a value inside a container: nothing, a comma, a closing
    brace or a closing bracket. *)
Definition delimited (tail : pystr) : Prop :=
  match tail with
  | [] => True
  | c :: _ => c = 44%N \/ c = 125%N \/ c = 93%N
  end.

(** [float(repr(x))] is [x] for a finite [x], whose [repr] is a float token
    of JSON. *)
Definition reads_back (float_of_literal : pystr -> option pyfloat)
                      (x : pyfloat) : Prop :=
  match x with
  | Finite _ r => float_token r = true /\ float_of_literal r = Some x
  | _ => True
  end.

(** The values a message dictionary holds and [json.loads] gives back as
    they are: text that UTF-8 encodes, integers, finite floats, the
    infinities and the NaN of the decoder. *)
Definition simple_value (float_of_literal : pystr -> option pyfloat) (v : json)
  : Prop :=
  match v with
  | JStr s => forallb encodable s = true
  | JInt _ => True
  | JFloat x => reads_back float_of_literal x /\ decoded_float x = x
  | _ => False
  end.

(** [str(n)] and [int(s)] raise ValueError beyond
    [sys.get_int_max_str_digits()] digits, 4300 unless the interpreter is
    told otherwise; [str_of_int] is [str] within that limit. *)
Definition int_max_str_digits : Z := 4300.

Definition within_str_digits (z : Z) : Prop :=
  (Z.abs z < 10 ^ int_max_str_digits)%Z.

(** A message of the protocol module whose timestamp is a NaN other than
    the decoder's, with the checksum of its fields. *)
Definition nan_message : Protocol.Message :=
  {| Protocol.msg_id := py "chat_1700000000_1234";
     Protocol.msg_type := Protocol.CHAT;
     Protocol.sender := py "alice";
     Protocol.content := py "hello";
     Protocol.timestamp := NaNObject 1;
     Protocol.checksum := py "ef742b480a6ce047";
     Protocol.priority := 1;
     Protocol.sequence_number := 0 |}.

(** The message that [from_bytes] builds from the payload of [m]. *)
Definition decoded (m : Protocol.Message) : Protocol.Message :=
  Protocol.set_timestamp (decoded_float (Protocol.timestamp m)) m.

(** The text of one member of an object, as [json.dumps] writes it. *)
Definition member_text (item_sep key_sep : pystr) (kv : pystr * json) : pystr :=
  (34%N :: Json.escape (fst kv) ++ [34%N]) ++ key_sep
  ++ Json.dumps item_sep key_sep (snd kv).

(** The dictionary that assigning the members in order builds. *)
Definition dict_of (kvs : list (pystr * json)) (acc : list (pystr * json))
  : list (pystr * json) :=
  fold_left (fun a kv => dict_set (fst kv) (snd kv) a) kvs acc.

(** The members that the server's enumeration shares with the protocol's. *)
Definition shared_type (t : Server.MessageType) : Protocol.MessageType :=
  match t with
  | Server.CHAT => Protocol.CHAT
  | Server.ACK => Protocol.ACK
  | Server.HEARTBEAT => Protocol.HEARTBEAT
  | Server.JOIN => Protocol.JOIN
  | Server.LEAVE => Protocol.LEAVE
  | Server.RETRANSMIT => Protocol.RETRANSMIT
  end.

(** A lowercase hexadecimal digit. *)
Definition is_lower_hex (c : N) : bool :=
  ((48 <=? c) && (c <=? 57) || (97 <=? c) && (c <=? 102))%N.

(** A chat message of the protocol module, with quotes, an accented letter,
    a line feed and a character outside the basic plane in its content. *)
Definition sample_message : Protocol.Message :=
  {| Protocol.msg_id := py "chat_1700000000_1234";
     Protocol.msg_type := Protocol.CHAT;
     Protocol.sender := py "alice";
     Protocol.content := pyq "hi 'there'" ++ [233; 10; 0x1F600]%N;
     Protocol.timestamp := sample_ts;
     Protocol.checksum := py "7f9e21569f42b431";
     Protocol.priority := 1;
     Protocol.sequence_number := -7 |}.

(** The same message as the server's class holds it. *)
Definition sample_message_on_server : Server.Message :=
  {| Server.msg_id := py "chat_1700000000_1234";
     Server.msg_type := Server.CHAT;
     Server.sender := py "alice";
     Server.content := pyq "hi 'there'" ++ [233; 10; 0x1F600]%N;
     Server.timestamp := sample_ts;
     Server.checksum := py "7f9e21569f42b431" |}.

(** [float()] on the sample timestamp's literal. *)
Definition sample_float_of_literal (tok : pystr) : option pyfloat :=
  if pystr_eqb tok (py "1700000000.5") then Some sample_ts else None.

(** A payload behind its length on four big-endian octets, as [to_bytes]
    frames it. *)
Definition framed (payload : bytes) : bytes :=
  Sha256.be_bytes 4 (N.of_nat (length payload)) ++ payload.

(** A buffer that holds no complete frame: fewer than four octets, or fewer
    octets than its header announces. *)
Definition incomplete (tail : bytes) : Prop :=
  (length tail < 4)%nat \/
  (length tail < 4 + N.to_nat (Server.unpack_u32 (firstn 4 tail)))%nat.

(** A dictionary holds one entry per key. *)
Definition unique_keys {V : Type} (d : list (pystr * V)) : Prop :=
  NoDup (dict_keys d).

(** The messages a connection holds as pending. *)
Definition pending_values (c : Server.ClientConnection) : list Server.Message :=
  map (fun e => fst (snd e)) (Server.pending_messages c).

(** A message that [to_bytes] can frame. *)
Definition framable (m : Server.Message) : Prop :=
  exists frame, Server.to_bytes m = Ok frame.

(** The connection [c] after messages were queued on it and nothing else
    happened to it. *)
Definition queue_extended (c c' : Server.ClientConnection) : Prop :=
  exists extra, c' = Server.with_queue (Server.send_queue c ++ extra) c.

(** Whether a broadcast that excludes [exclude] skips the key [k]. *)
Definition excluded (exclude : option pystr) (k : pystr) : bool :=
  match exclude with
  | Some x => pystr_eqb k x
  | None => false
  end.

(** A client that the heartbeat loop finds dead at [current_time]. *)
Definition silent (current_time : Q) (c : Server.ClientConnection) : bool :=
  Qgtb (current_time - Server.last_heartbeat c) 30.

(** Readings for a message built at the sample time. *)
Definition sample_stamp : Server.stamp :=
  {| Server.clock_id := 17000000006 # 10; Server.rand := 1234;
     Server.clock_ts := sample_ts |}.

(** A fresh connection with the sample notice in its queue. *)
Definition queued_notice : Server.ClientConnection :=
  Server.send_message sample_notice
    (Server.ClientConnection_init (py "client_1700000000_1000") 0).

(** A server with two clients: bob, last heard from at 0, and an unnamed
    one, last heard from at 20. *)
Definition two_clients : Server.ChatServer :=
  {| Server.clients :=
       [(py "client_1700000000_1000",
         Server.with_username (py "bob")
           (Server.ClientConnection_init (py "client_1700000000_1000") 0));
        (py "client_1700000020_2000",
         Server.ClientConnection_init (py "client_1700000020_2000") 20)];
     Server.server_running := true;
     Server.packet_loss_rate := 0;
     Server.artificial_delay := 0 |}.

(** What holds of a connection's controller and its [expected_ack]. *)
Definition ack_inv (e : Z) (cc : CongestionControl) : Prop :=
  (0 <= duplicate_acks cc <= 1)%Z /\
  state cc <> FAST_RECOVERY /\
  (last_ack cc <= e)%Z /\
  (last_ack cc = e -> duplicate_acks cc = 0%Z) /\
  1 <= cwnd cc /\ 2 <= ssthresh cc.

(** The same, of a connection. *)
Definition conn_ok (c : Server.ClientConnection) : Prop :=
  ack_inv (Server.expected_ack c) (Server.congestion_control c).

(** * Properties *)

(** Literals, digests and frames are computed, never unfolded step by step. *)
Arguments py : simpl never.
Arguments pystr_eqb : simpl never.
Arguments pyq : simpl never.
Arguments Sha256.hexdigest : simpl never.
Arguments Json.dumps : simpl never.
Arguments Json.loads : simpl never.
Arguments encode_utf8 : simpl never.
Arguments decode_utf8 : simpl never.
Arguments Protocol.to_bytes : simpl never.
Arguments Server.to_bytes : simpl never.
Arguments Server._send_raw : simpl never.
Arguments Server.new_Message : simpl never.
Arguments Server.ack_for : simpl never.
Arguments str_of_int : simpl never.


(** Case analysis on every comparison of naturals in sight. *)
Ltac split_tests :=
  repeat match goal with
         | |- context [N.ltb ?x ?y] => destruct (N.ltb_spec x y)
         | |- context [N.leb ?x ?y] => destruct (N.leb_spec x y)
         | H : context [N.ltb ?x ?y] |- _ => destruct (N.ltb_spec x y)
         | H : context [N.leb ?x ?y] |- _ => destruct (N.leb_spec x y)
         end.

(** ** Arithmetic of the helpers *)

Lemma Qgeb_true (x y : Q) : Qgeb x y = true <-> y <= x.
Proof. unfold Qgeb. apply Qle_bool_iff. Qed.

Lemma Qgtb_true (x y : Q) : Qgtb x y = true <-> y < x.
Proof.
  unfold Qgtb. rewrite negb_true_iff. split; intro H.
  - apply Qnot_le_lt. intro Hle. apply Qle_bool_iff in Hle. congruence.
  - destruct (Qle_bool x y) eqn:E; [|reflexivity].
    apply Qle_bool_iff in E. exfalso. apply (Qlt_not_le _ _ H E).
Qed.

Lemma Qgtb_false (x y : Q) : Qgtb x y = false <-> x <= y.
Proof.
  unfold Qgtb. rewrite negb_false_iff. apply Qle_bool_iff.
Qed.

Lemma pymax_lower_l (a b : Q) : a <= pymax a b.
Proof.
  unfold pymax. destruct (Qle_bool b a) eqn:E; [apply Qle_refl|].
  destruct (Qlt_le_dec a b) as [H|H]; [apply Qlt_le_weak; exact H|].
  apply Qle_bool_iff in H. congruence.
Qed.

Lemma pymax_lower_r (a b : Q) : b <= pymax a b.
Proof.
  unfold pymax. destruct (Qle_bool b a) eqn:E; [|apply Qle_refl].
  apply Qle_bool_iff. exact E.
Qed.

Lemma pymax_Qmax (a b : Q) : pymax a b == Qmax a b.
Proof.
  unfold pymax. destruct (Qle_bool b a) eqn:E.
  - apply Qle_bool_iff in E. symmetry. apply Q.max_l. exact E.
  - symmetry. apply Q.max_r.
    destruct (Qlt_le_dec a b) as [H|H]; [apply Qlt_le_weak; exact H|].
    apply Qle_bool_iff in H. congruence.
Qed.

(** ** The controller, one event at a time *)

Lemma cc_run_app (es1 es2 : list cc_event) (c : CongestionControl) :
  cc_run (es1 ++ es2) c = cc_run es2 (cc_run es1 c).
Proof. unfold cc_run. apply fold_left_app. Qed.

Lemma cc_run_snoc (es : list cc_event) (e : cc_event) (c : CongestionControl) :
  cc_run (es ++ [e]) c = cc_step (cc_run es c) e.
Proof. rewrite cc_run_app. reflexivity. Qed.

(** What a duplicate ACK does, by cases on the counter it finds. *)
Lemma dup_ack_third (r : Q) (c : CongestionControl) :
  duplicate_acks c = 2%Z ->
  on_ack_received (last_ack c) r c
  = Returned (fast_retransmit (note_dup_ack (update_rtt r c))).
Proof.
  intros Hd. unfold on_ack_received.
  change (last_ack (update_rtt r c)) with (last_ack c).
  rewrite Z.gtb_ltb, Z.ltb_irrefl, Z.eqb_refl.
  change (duplicate_acks (note_dup_ack (update_rtt r c)))
    with (duplicate_acks c + 1)%Z.
  rewrite Hd. reflexivity.
Qed.

Lemma dup_ack_other (r : Q) (c : CongestionControl) :
  duplicate_acks c <> 2%Z ->
  on_ack_received (last_ack c) r c
  = Returned (match state c with
              | FAST_RECOVERY =>
                  set_window (cwnd c + 1) FAST_RECOVERY
                             (note_dup_ack (update_rtt r c))
              | _ => note_dup_ack (update_rtt r c)
              end).
Proof.
  intros Hd. unfold on_ack_received.
  change (last_ack (update_rtt r c)) with (last_ack c).
  rewrite Z.gtb_ltb, Z.ltb_irrefl, Z.eqb_refl.
  change (duplicate_acks (note_dup_ack (update_rtt r c)))
    with (duplicate_acks c + 1)%Z.
  replace (duplicate_acks c + 1 =? 3)%Z with false
    by (symmetry; apply Z.eqb_neq; lia).
  change (state (note_dup_ack (update_rtt r c))) with (state c).
  destruct (state c); reflexivity.
Qed.

(** ** Duplicate ACKs and fast retransmit *)

Lemma dup_acks_snoc (rtts : list Q) (r : Q) (c : CongestionControl) :
  dup_acks (rtts ++ [r]) c
  = cc_step (dup_acks rtts c) (EvAck (last_ack c) r).
Proof. unfold dup_acks. rewrite map_app. apply cc_run_snoc. Qed.

Lemma dup_acks_shape (rtts : list Q) (c : CongestionControl) :
  state c <> FAST_RECOVERY ->
  (0 <= duplicate_acks c <= 2)%Z ->
  let c' := dup_acks rtts c in
  let seen := (Z.to_nat (duplicate_acks c) + length rtts)%nat in
  last_ack c' = last_ack c /\
  duplicate_acks c' = Z.of_nat seen /\
  ((seen < 3)%nat ->
     state c' = state c /\ cwnd c' = cwnd c /\ ssthresh c' = ssthresh c) /\
  ((3 <= seen)%nat ->
     state c' = FAST_RECOVERY /\
     ssthresh c' = pymax (cwnd c / 2) 2 /\
     cwnd c' == pymax (cwnd c / 2) 2 + 3 + inject_Z (Z.of_nat (seen - 3))).
Proof.
  intros Hst Hd0. induction rtts as [|r rtts IH] using rev_ind.
  - cbv zeta. unfold dup_acks, cc_run. cbn [map fold_left length].
    rewrite Nat.add_0_r.
    split; [reflexivity|]. split; [lia|]. split; [auto | intros; lia].
  - cbv zeta in *. rewrite dup_acks_snoc.
    destruct IH as (Hla & Hda & Hlt & Hge).
    set (c1 := dup_acks rtts c) in *.
    rewrite length_app. cbn [length].
    set (d := Z.to_nat (duplicate_acks c)) in *.
    unfold cc_step. rewrite <- Hla.
    destruct (Z.eq_dec (duplicate_acks c1) 2) as [E2|N2].
    + (* the third duplicate *)
      rewrite (dup_ack_third r c1 E2). cbn [state_of].
      assert (Hlen : (d + length rtts = 2)%nat) by lia.
      destruct (Hlt ltac:(lia)) as (Hs & Hc & Hss).
      split; [reflexivity|]. split; [simpl; lia|].
      split; [intros; lia|]. intros _.
      split; [reflexivity|]. simpl. rewrite Hc.
      split; [reflexivity|].
      replace (d + (length rtts + 1) - 3)%nat with 0%nat by lia.
      change (inject_Z (Z.of_nat 0)) with 0. ring.
    + rewrite (dup_ack_other r c1 N2). cbn [state_of].
      destruct (Nat.lt_ge_cases (d + length rtts) 3) as [Hs3|Hs3].
      * destruct (Hlt Hs3) as (Hs & Hc & Hss).
        assert (Hnf : state c1 <> FAST_RECOVERY) by congruence.
        assert (Hcase : match state c1 with
                        | FAST_RECOVERY =>
                            set_window (cwnd c1 + 1) FAST_RECOVERY
                              (note_dup_ack (update_rtt r c1))
                        | _ => note_dup_ack (update_rtt r c1)
                        end = note_dup_ack (update_rtt r c1))
          by (destruct (state c1); congruence).
        rewrite Hcase.
        split; [reflexivity|]. split; [simpl; lia|].
        split; [intros _; simpl; auto | intros; lia].
      * destruct (Hge Hs3) as (Hs & Hss & Hc).
        rewrite Hs.
        split; [reflexivity|]. split; [simpl; lia|].
        split; [intros; lia|]. intros _.
        split; [reflexivity|]. split; [exact Hss|].
        simpl. rewrite Hc.
        replace (d + (length rtts + 1) - 3)%nat
          with (S (d + length rtts - 3)) by lia.
        rewrite Nat2Z.inj_succ. unfold Z.succ. rewrite inject_Z_plus.
        change (inject_Z 1) with 1. ring.
Qed.

(** The duplicate counter of a reachable state tells on which side of
    FAST_RECOVERY the state is: 3 or more inside, at most 2 outside. *)
Lemma reachable_duplicates (es : list cc_event) :
  let c := cc_run es CongestionControl_init in
  (state c = FAST_RECOVERY -> (3 <= duplicate_acks c)%Z) /\
  (state c <> FAST_RECOVERY -> (0 <= duplicate_acks c <= 2)%Z).
Proof.
  cbv zeta. induction es as [|e es IH] using rev_ind.
  - unfold cc_run. simpl. split; [intros H; discriminate H | intros _; lia].
  - rewrite cc_run_snoc. set (c := cc_run es CongestionControl_init) in *.
    destruct IH as [Hin Hout]. destruct e as [a r|]; unfold cc_step.
    + unfold on_ack_received.
      change (last_ack (update_rtt r c)) with (last_ack c).
      destruct (a >? last_ack c)%Z.
      * change (state (note_new_ack a (update_rtt r c))) with (state c).
        destruct (state c) eqn:Es;
          repeat match goal with
                 | |- context [if ?b then _ else _] => destruct b
                 end; simpl; rewrite ?Es;
          (split; [intros H; discriminate H | intros _; lia]).
      * destruct (a =? last_ack c)%Z; [|exact (conj Hin Hout)].
        change (duplicate_acks (note_dup_ack (update_rtt r c)))
          with (duplicate_acks c + 1)%Z.
        destruct (Z.eqb_spec (duplicate_acks c + 1) 3) as [E3|N3].
        -- simpl. split; [intros _; lia | intros H; congruence].
        -- change (state (note_dup_ack (update_rtt r c))) with (state c).
           destruct (state c) eqn:Es; simpl; rewrite ?Es.
           ++ split; [intros H; discriminate H|]. intros _.
              specialize (Hout ltac:(discriminate)). lia.
           ++ split; [intros H; discriminate H|]. intros _.
              specialize (Hout ltac:(discriminate)). lia.
           ++ split; [|intros H; congruence]. intros _.
              specialize (Hin eq_refl). lia.
    + simpl. split; [intros H; discriminate H | intros _; lia].
Qed.

(** A new ACK starts the count of duplicates afresh, and so does a timeout. *)
Lemma new_ack_resets (a : Z) (r : Q) (c : CongestionControl) :
  (last_ack c < a)%Z ->
  duplicate_acks (cc_step c (EvAck a r)) = 0%Z /\
  state (cc_step c (EvAck a r)) <> FAST_RECOVERY /\
  last_ack (cc_step c (EvAck a r)) = a.
Proof.
  intros Hlt. unfold cc_step, on_ack_received.
  change (last_ack (update_rtt r c)) with (last_ack c).
  replace (a >? last_ack c)%Z with true by (symmetry; apply Z.gtb_lt; lia).
  change (state (note_new_ack a (update_rtt r c))) with (state c).
  destruct (state c) eqn:Es;
    repeat match goal with
           | |- context [if ?b then _ else _] => destruct b
           end;
    cbn [state_of set_window note_new_ack update_rtt duplicate_acks state
         last_ack]; rewrite ?Es;
    (split; [reflexivity|]);
    (split; [intros H; discriminate H | reflexivity]).
Qed.

(** An ACK below the one acknowledged last is neither new nor a duplicate:
    it feeds the estimator and changes nothing else. *)
Lemma old_ack_ignored (a : Z) (r : Q) (c : CongestionControl) :
  (a < last_ack c)%Z -> cc_step c (EvAck a r) = update_rtt r c.
Proof.
  intros Hlt. unfold cc_step, on_ack_received.
  change (last_ack (update_rtt r c)) with (last_ack c).
  replace (a >? last_ack c)%Z with false
    by (symmetry; rewrite Z.gtb_ltb; apply Z.ltb_ge; lia).
  replace (a =? last_ack c)%Z with false
    by (symmetry; apply Z.eqb_neq; lia).
  reflexivity.
Qed.

(** C4: from a state outside FAST_RECOVERY (whose duplicate counter, as in
    every reachable such state, is between 0 and 2), duplicate ACKs put the
    controller in FAST_RECOVERY exactly when the consecutive duplicates,
    those counted before included, have reached three; at the third,
    ssthresh = max(cwnd/2, 2) of the window before and cwnd = ssthresh + 3;
    every further duplicate ACK leaves the state FAST_RECOVERY and adds
    exactly 1 to cwnd.  The duplicates counted are the consecutive ones: a
    new ACK, and a timeout, set the counter to 0 and leave the controller
    outside FAST_RECOVERY, so that after either it again takes exactly three
    duplicates, and no fewer, to enter FAST_RECOVERY, whatever was counted
    before.  An ACK below [last_ack] is neither a duplicate nor a new ACK:
    it changes the RTT estimate only, the state and the counter staying as
    they are.  In every state reached from the initial one outside
    FAST_RECOVERY the counter is indeed between 0 and 2. *)
Theorem fast_recovery_on_third_duplicate
  (rtts : list Q) (c : CongestionControl) :
  state c <> FAST_RECOVERY ->
  (0 <= duplicate_acks c <= 2)%Z ->
  (state (dup_acks rtts c) = FAST_RECOVERY <->
   (3 <= Z.to_nat (duplicate_acks c) + length rtts)%nat) /\
  ((Z.to_nat (duplicate_acks c) + length rtts = 3)%nat ->
     ssthresh (dup_acks rtts c) == Qmax (cwnd c / 2) 2 /\
     cwnd (dup_acks rtts c) == ssthresh (dup_acks rtts c) + 3) /\
  ((3 <= Z.to_nat (duplicate_acks c) + length rtts)%nat ->
     forall r : Q,
       on_ack_received (last_ack (dup_acks rtts c)) r (dup_acks rtts c)
       = Returned (dup_acks (rtts ++ [r]) c) /\
       state (dup_acks (rtts ++ [r]) c) = FAST_RECOVERY /\
       cwnd (dup_acks (rtts ++ [r]) c) == cwnd (dup_acks rtts c) + 1) /\
  (forall (a : Z) (r : Q),
     (last_ack c < a)%Z ->
     duplicate_acks (cc_step c (EvAck a r)) = 0%Z /\
     state (cc_step c (EvAck a r)) <> FAST_RECOVERY /\
     (state (dup_acks rtts (cc_step c (EvAck a r))) = FAST_RECOVERY <->
      (3 <= length rtts)%nat)) /\
  (duplicate_acks (cc_step c EvTimeout) = 0%Z /\
   state (cc_step c EvTimeout) <> FAST_RECOVERY /\
   (state (dup_acks rtts (cc_step c EvTimeout)) = FAST_RECOVERY <->
    (3 <= length rtts)%nat)) /\
  (forall (a : Z) (r : Q),
     (a < last_ack c)%Z ->
     cc_step c (EvAck a r) = update_rtt r c /\
     state (cc_step c (EvAck a r)) = state c /\
     duplicate_acks (cc_step c (EvAck a r)) = duplicate_acks c /\
     last_ack (cc_step c (EvAck a r)) = last_ack c) /\
  (forall es : list cc_event,
     state (cc_run es CongestionControl_init) <> FAST_RECOVERY ->
     (0 <= duplicate_acks (cc_run es CongestionControl_init) <= 2)%Z).
Proof.
  intros Hst Hd0.
  destruct (dup_acks_shape rtts c Hst Hd0) as (Hla & Hda & Hlt & Hge).
  assert (Hafresh : forall c1 : CongestionControl,
             duplicate_acks c1 = 0%Z -> state c1 <> FAST_RECOVERY ->
             state (dup_acks rtts c1) = FAST_RECOVERY <-> (3 <= length rtts)%nat).
  { intros c1 Hd1 Hs1.
    destruct (dup_acks_shape rtts c1 Hs1 ltac:(lia)) as (_ & _ & Hlt1 & Hge1).
    rewrite Hd1 in Hlt1, Hge1. cbn [Z.to_nat Nat.add] in Hlt1, Hge1. split.
    - intros Hfr.
      destruct (Nat.lt_ge_cases (length rtts) 3) as [H|H]; [|exact H].
      destruct (Hlt1 H) as (Hs & _). congruence.
    - intros H. apply (Hge1 H). }
  split; [|split; [|split; [|split; [|split; [|split]]]]].
  - split.
    + intros Hfr.
      destruct (Nat.lt_ge_cases (Z.to_nat (duplicate_acks c) + length rtts) 3)
        as [H|H]; [|exact H].
      destruct (Hlt H) as (Hs & _). congruence.
    + intros H. apply (Hge H).
  - intros H3. destruct (Hge ltac:(lia)) as (Hs & Hss & Hc).
    rewrite Hss. split; [apply pymax_Qmax|].
    rewrite Hc, H3. change (inject_Z (Z.of_nat (3 - 3))) with 0. ring.
  - intros H3 r. destruct (Hge H3) as (Hs & Hss & Hc).
    assert (N2 : duplicate_acks (dup_acks rtts c) <> 2%Z) by lia.
    rewrite dup_acks_snoc. unfold cc_step. rewrite <- Hla.
    rewrite (dup_ack_other r _ N2). rewrite Hs. simpl.
    split; [reflexivity|]. split; [reflexivity|]. apply Qeq_refl.
  - intros a r Ha. destruct (new_ack_resets a r c Ha) as (Hd1 & Hs1 & _).
    split; [exact Hd1|]. split; [exact Hs1|]. exact (Hafresh _ Hd1 Hs1).
  - split; [reflexivity|]. split; [discriminate|].
    apply Hafresh; [reflexivity | discriminate].
  - intros a r Ha. rewrite (old_ack_ignored a r c Ha). repeat split.
  - intros es. apply (reachable_duplicates es).
Qed.

Lemma fast_recovery_on_third_duplicate_witness :
  (state (dup_acks [1 # 10; 1 # 10; 1 # 10] CongestionControl_init)
   = FAST_RECOVERY <-> (3 <= 0 + 3)%nat) /\
  ssthresh (dup_acks [1 # 10; 1 # 10; 1 # 10] CongestionControl_init)
  == Qmax (1 / 2) 2 /\
  (state (dup_acks [1 # 10; 1 # 10]
            (cc_step (dup_acks [1 # 10; 1 # 10] CongestionControl_init)
                     (EvAck 5 (1 # 10))))
   = FAST_RECOVERY <-> (3 <= 2)%nat).
Proof.
  destruct (fast_recovery_on_third_duplicate [1 # 10; 1 # 10; 1 # 10]
              CongestionControl_init)
    as (Hiff & Hthird & _); [discriminate | simpl; lia |].
  split; [exact Hiff|]. split; [apply (Hthird eq_refl)|].
  destruct (fast_recovery_on_third_duplicate [1 # 10; 1 # 10]
              (dup_acks [1 # 10; 1 # 10] CongestionControl_init))
    as (_ & _ & _ & Hnew & _);
    [vm_compute; discriminate | vm_compute; split; discriminate |].
  apply (Hnew 5%Z (1 # 10)). vm_compute. reflexivity.
Defined.

(** ** Slow start *)

Lemma new_ack_slow_start (a : Z) (r : Q) (c : CongestionControl) :
  (last_ack c < a)%Z ->
  state c = SLOW_START ->
  on_ack_received a r c
  = Returned (set_window (cwnd c + 1)
                (if Qgeb (cwnd c + 1) (ssthresh c)
                 then CONGESTION_AVOIDANCE else SLOW_START)
                (note_new_ack a (update_rtt r c))).
Proof.
  intros Hlt Hs. unfold on_ack_received.
  change (last_ack (update_rtt r c)) with (last_ack c).
  replace (a >? last_ack c)%Z with true by (symmetry; apply Z.gtb_lt; lia).
  change (state (note_new_ack a (update_rtt r c))) with (state c).
  rewrite Hs.
  change (cwnd (note_new_ack a (update_rtt r c))) with (cwnd c).
  change (ssthresh (note_new_ack a (update_rtt r c))) with (ssthresh c).
  destruct (Qgeb (cwnd c + 1) (ssthresh c)); reflexivity.
Qed.

Lemma slow_start_run (acks : list (Z * Q)) :
  forall c : CongestionControl,
    fresh_acks (last_ack c) acks ->
    (forall j, (j < length acks)%nat ->
               state (cc_run (firstn j (ack_events acks)) c) = SLOW_START) ->
    let c' := cc_run (ack_events acks) c in
    ssthresh c' = ssthresh c /\
    cwnd c' == cwnd c + inject_Z (Z.of_nat (length acks)) /\
    (acks <> [] ->
     state c' = if Qgeb (cwnd c') (ssthresh c')
                then CONGESTION_AVOIDANCE else SLOW_START).
Proof.
  induction acks as [|[a r] acks IH]; intros c Hfresh Hstay.
  - simpl. split; [reflexivity|]. split; [|congruence].
    change (inject_Z 0) with 0. ring.
  - destruct Hfresh as [Hlt Hfresh].
    assert (Hs : state c = SLOW_START) by (apply (Hstay 0%nat); simpl; lia).
    cbv zeta. simpl ack_events. unfold cc_run. simpl fold_left.
    fold (cc_run (ack_events acks) (state_of (on_ack_received a r c))).
    rewrite (new_ack_slow_start a r c Hlt Hs). simpl state_of.
    set (c1 := set_window _ _ _).
    assert (Hc1 : cwnd c1 = cwnd c + 1) by reflexivity.
    assert (Hss1 : ssthresh c1 = ssthresh c) by reflexivity.
    assert (Hla1 : last_ack c1 = a) by reflexivity.
    destruct (IH c1) as (Hss & Hcw & Hstate).
    + rewrite Hla1. exact Hfresh.
    + intros j Hj. specialize (Hstay (S j) ltac:(simpl; lia)).
      simpl in Hstay. unfold cc_run in Hstay. simpl in Hstay.
      rewrite (new_ack_slow_start a r c Hlt Hs) in Hstay. exact Hstay.
    + split; [congruence|]. split.
      * rewrite Hcw, Hc1. simpl length.
        rewrite Nat2Z.inj_succ. unfold Z.succ. rewrite inject_Z_plus.
        change (inject_Z 1) with 1. ring.
      * intros _. destruct acks as [|p acks'].
        -- unfold cc_run. simpl. reflexivity.
        -- apply Hstate. discriminate.
Qed.

(** C5: while the controller is in SLOW_START before each of k consecutive
    new ACKs, those ACKs increase cwnd by exactly k and leave ssthresh
    unchanged; the state after the last one is CONGESTION_AVOIDANCE exactly
    when the incremented cwnd has reached ssthresh, and SLOW_START otherwise. *)
Theorem slow_start_grows_by_one_per_ack
  (acks : list (Z * Q)) (c : CongestionControl) :
  fresh_acks (last_ack c) acks ->
  (forall j, (j < length acks)%nat ->
             state (cc_run (firstn j (ack_events acks)) c) = SLOW_START) ->
  cwnd (cc_run (ack_events acks) c)
  == cwnd c + inject_Z (Z.of_nat (length acks)) /\
  (acks <> [] ->
   (state (cc_run (ack_events acks) c) = CONGESTION_AVOIDANCE <->
    ssthresh (cc_run (ack_events acks) c) <= cwnd (cc_run (ack_events acks) c))
   /\
   (state (cc_run (ack_events acks) c) = SLOW_START <->
    cwnd (cc_run (ack_events acks) c) < ssthresh (cc_run (ack_events acks) c))).
Proof.
  intros Hfresh Hstay.
  destruct (slow_start_run acks c Hfresh Hstay) as (Hss & Hcw & Hstate).
  split; [exact Hcw|]. intros Hne. specialize (Hstate Hne).
  set (c' := cc_run (ack_events acks) c) in *.
  destruct (Qgeb (cwnd c') (ssthresh c')) eqn:E.
  - apply Qgeb_true in E. rewrite Hstate. split; split; try congruence; auto.
    intros Hlt. exfalso. apply (Qlt_not_le _ _ Hlt E).
  - assert (Hlt : cwnd c' < ssthresh c').
    { apply Qnot_le_lt. intro Hle. apply Qgeb_true in Hle. congruence. }
    rewrite Hstate. split; split; try congruence; auto.
    intros Hle. exfalso. apply (Qlt_not_le _ _ Hlt Hle).
Qed.

Lemma slow_start_grows_by_one_per_ack_witness :
  cwnd (cc_run (ack_events [(1%Z, 1 # 10); (2%Z, 1 # 10); (3%Z, 1 # 10)])
               CongestionControl_init)
  == 1 + 3.
Proof.
  apply (slow_start_grows_by_one_per_ack
           [(1%Z, 1 # 10); (2%Z, 1 # 10); (3%Z, 1 # 10)]
           CongestionControl_init).
  - simpl. lia.
  - intros j Hj. destruct j as [|[|[|j]]]; [reflexivity ..|simpl in Hj; lia].
Defined.

(** ** Timeout *)

(** C6: a timeout, whatever the controller state, sets ssthresh to
    max(cwnd/2, 2), cwnd to 1, the duplicate counter to 0, doubles rto and
    puts the controller in SLOW_START. *)
Theorem timeout_resets_window (c : CongestionControl) :
  ssthresh (on_timeout c) == Qmax (cwnd c / 2) 2 /\
  cwnd (on_timeout c) == 1 /\
  duplicate_acks (on_timeout c) = 0%Z /\
  rto (on_timeout c) == 2 * rto c /\
  state (on_timeout c) = SLOW_START.
Proof.
  split; [apply pymax_Qmax|]. split; [reflexivity|].
  split; [reflexivity|]. split; [|reflexivity].
  simpl. ring.
Qed.

(** ** The invariant *)

Lemma trim_lastn (l : list Q) (r : Q) :
  (let samples := lastn 100 l ++ [r] in
   if (100 <? length samples)%nat then pop0 samples else samples)
  = lastn 100 (l ++ [r]).
Proof.
  cbv zeta. unfold lastn, pop0. rewrite !length_app, length_skipn. simpl length.
  destruct (Nat.le_gt_cases (length l) 99) as [Hle|Hgt].
  - replace (length l - 100)%nat with 0%nat by lia.
    replace (length l + 1 - 100)%nat with 0%nat by lia.
    simpl skipn.
    replace (100 <? length l - 0 + 1)%nat with false
      by (symmetry; apply Nat.ltb_ge; lia).
    reflexivity.
  - replace (100 <? length l - (length l - 100) + 1)%nat with true
      by (symmetry; apply Nat.ltb_lt; lia).
    replace (length l + 1 - 100)%nat with (S (length l - 100)) by lia.
    rewrite (skipn_app (S (length l - 100))).
    replace (S (length l - 100) - length l)%nat with 0%nat by lia.
    simpl (skipn 0 [r]).
    change (S (length l - 100)) with (1 + (length l - 100))%nat.
    rewrite <- (skipn_skipn 1 (length l - 100) l).
    assert (Hne : skipn (length l - 100) l <> []).
    { intro Hnil. apply (f_equal (@length Q)) in Hnil.
      rewrite length_skipn in Hnil. simpl in Hnil. lia. }
    destruct (skipn (length l - 100) l) as [|x xs]; [congruence|].
    reflexivity.
Qed.

Lemma lastn_length {A : Type} (n : nat) (l : list A) :
  (length (lastn n l) <= n)%nat.
Proof. unfold lastn. rewrite length_skipn. lia. Qed.

Lemma samples_of_app (es1 es2 : list cc_event) :
  samples_of (es1 ++ es2) = samples_of es1 ++ samples_of es2.
Proof.
  induction es1 as [|[a r|] es1 IH]; simpl; [reflexivity| |exact IH].
  rewrite IH. reflexivity.
Qed.

Lemma update_rtt_rto (r : Q) (c : CongestionControl) : 1 <= rto (update_rtt r c).
Proof. apply pymax_lower_l. Qed.

Lemma on_ack_received_window (a : Z) (r : Q) (c : CongestionControl) :
  1 <= cwnd c -> 2 <= ssthresh c ->
  returns (on_ack_received a r c) = true /\
  1 <= cwnd (state_of (on_ack_received a r c)) /\
  2 <= ssthresh (state_of (on_ack_received a r c)) /\
  1 <= rto (state_of (on_ack_received a r c)) /\
  rtt_samples (state_of (on_ack_received a r c))
  = rtt_samples (update_rtt r c).
Proof.
  intros Hc Hs. pose proof (update_rtt_rto r c) as Hr.
  unfold on_ack_received.
  change (last_ack (update_rtt r c)) with (last_ack c).
  destruct (a >? last_ack c)%Z.
  - change (state (note_new_ack a (update_rtt r c))) with (state c).
    change (cwnd (note_new_ack a (update_rtt r c))) with (cwnd c).
    change (ssthresh (note_new_ack a (update_rtt r c))) with (ssthresh c).
    destruct (state c).
    + destruct (Qgeb (cwnd c + 1) (ssthresh c)); simpl;
        (split; [reflexivity|]); (split; [lra|]); auto.
    + destruct (Qeq_bool (cwnd c) 0) eqn:E.
      * apply Qeq_bool_iff in E. lra.
      * simpl. split; [reflexivity|]. split; [|auto].
        assert (H0 : 0 < / cwnd c) by (apply Qinv_lt_0_compat; lra).
        unfold Qdiv. lra.
    + simpl. split; [reflexivity|]. split; [lra|]. auto.
  - destruct (a =? last_ack c)%Z; [|simpl; auto].
    change (duplicate_acks (note_dup_ack (update_rtt r c)))
      with (duplicate_acks c + 1)%Z.
    destruct (duplicate_acks c + 1 =? 3)%Z.
    + simpl. split; [reflexivity|].
      pose proof (pymax_lower_r (cwnd c / 2) 2) as H2.
      split; [lra|]. auto.
    + change (state (note_dup_ack (update_rtt r c))) with (state c).
      destruct (state c); simpl; (split; [reflexivity|]); auto.
      split; [lra|]. auto.
Qed.

Lemma cc_run_invariant (es : list cc_event) :
  cc_inv (cc_run es CongestionControl_init) /\
  rtt_samples (cc_run es CongestionControl_init) = lastn 100 (samples_of es).
Proof.
  induction es as [|e es IH] using rev_ind.
  - unfold cc_inv, cc_run. simpl. repeat split; try lra; try lia.
  - rewrite cc_run_snoc, samples_of_app.
    destruct IH as ((Hc & Hs & Hr & Hl) & Hsam).
    set (c := cc_run es CongestionControl_init) in *.
    destruct e as [a r|].
    + unfold cc_step.
      destruct (on_ack_received_window a r c Hc Hs) as (_ & Hc' & Hs' & Hr' & Hsam').
      assert (Heq : rtt_samples (state_of (on_ack_received a r c))
                    = lastn 100 (samples_of es ++ samples_of [EvAck a r])).
      { rewrite Hsam'. simpl samples_of. unfold update_rtt. simpl rtt_samples.
        rewrite Hsam. apply trim_lastn. }
      split; [|exact Heq].
      unfold cc_inv. repeat split; try assumption.
      rewrite Heq. apply lastn_length.
    + simpl samples_of. rewrite app_nil_r. unfold cc_step.
      split; [|exact Hsam].
      unfold cc_inv. simpl.
      pose proof (pymax_lower_r (cwnd c / 2) 2) as H2.
      repeat split; try lra; try assumption.
Qed.

(** No event of a run from the initial state raises. *)
Lemma cc_run_returns (es : list cc_event) (a : Z) (r : Q) :
  returns (on_ack_received a r (cc_run es CongestionControl_init)) = true.
Proof.
  destruct (cc_run_invariant es) as ((Hc & Hs & _) & _).
  apply (on_ack_received_window a r _ Hc Hs).
Qed.

(** C9: in every state reached from the initial one by ACK and timeout
    events, cwnd >= 1, ssthresh >= 2, rto >= 1, the state is one of the three
    named ones, and the stored RTT window holds the last 100 samples fed so
    far in arrival order (at most 100, the oldest dropped first). *)
Theorem controller_invariant (es : list cc_event) :
  1 <= cwnd (cc_run es CongestionControl_init) /\
  2 <= ssthresh (cc_run es CongestionControl_init) /\
  1 <= rto (cc_run es CongestionControl_init) /\
  (state (cc_run es CongestionControl_init) = SLOW_START \/
   state (cc_run es CongestionControl_init) = CONGESTION_AVOIDANCE \/
   state (cc_run es CongestionControl_init) = FAST_RECOVERY) /\
  (length (rtt_samples (cc_run es CongestionControl_init)) <= 100)%nat /\
  rtt_samples (cc_run es CongestionControl_init)
  = skipn (length (samples_of es) - 100) (samples_of es).
Proof.
  destruct (cc_run_invariant es) as ((Hc & Hs & Hr & Hl) & Hsam).
  repeat split; try assumption.
  destruct (state (cc_run es CongestionControl_init)); auto.
Qed.

(** ** SHA-256 on the standard test messages *)

Example sha256_empty :
  Sha256.hexdigest []
  = py "e3b0c44298fc1c149afbf4c8996fb92427ae41e4649b934ca495991b7852b855".
Proof. vm_compute. reflexivity. Qed.

Example sha256_abc :
  Sha256.hexdigest (py "abc")
  = py "ba7816bf8f01cfea414140de5dae2223b00361a396177a9cb410ff61f20015ad".
Proof. vm_compute. reflexivity. Qed.

Example sha256_two_blocks :
  Sha256.hexdigest
    (py "abcdbcdecdefdefgefghfghighijhijkijkljklmklmnlmnomnopnopq")
  = py "248d6a61d20638b8e5c026930c3e6039a33ce45964ff2167f6ecedd419db06c1".
Proof. vm_compute. reflexivity. Qed.

(** ** The sample messages carry the checksum their class computes *)

Example sample_notice_valid : Server.is_valid sample_notice = Ok true.
Proof. vm_compute. reflexivity. Qed.

Example sample_ack_valid : Server.is_valid sample_ack = Ok true.
Proof. vm_compute. reflexivity. Qed.

Example sample_message_valid : Protocol.is_valid sample_message = Ok true.
Proof. vm_compute. reflexivity. Qed.

(** ** The JSON reader on sample documents *)

Example loads_ack :
  Json.loads (fun _ => None) (pyq "{'ack_for': 'chat_17_1234'}")
  = Ok (JObj [(py "ack_for", JStr (py "chat_17_1234"))]).
Proof. vm_compute. reflexivity. Qed.

Example loads_nested :
  Json.loads (fun _ => None) (pyq " { 'a' : [1, -20, true, null], 'a': {} } ")
  = Ok (JObj [(py "a", JObj [])]).
Proof. vm_compute. reflexivity. Qed.

(** ** The server feeds its own counter to the controller *)

Lemma ack_inv_init : ack_inv 0 CongestionControl_init.
Proof.
  unfold ack_inv. simpl. repeat split; try lia; try lra; try discriminate.
Qed.

Lemma ack_inv_timeout (e : Z) (cc : CongestionControl) :
  ack_inv e cc -> ack_inv e (on_timeout cc).
Proof.
  intros (Hd & Hs & Hl & Hz & Hc & Hss). unfold ack_inv. simpl.
  pose proof (pymax_lower_r (cwnd cc / 2) 2) as H2.
  repeat split; try lia; try lra; try discriminate; auto.
Qed.

Lemma ack_inv_expected (e : Z) (r : Q) (cc : CongestionControl) :
  ack_inv e cc ->
  exists cc', on_ack_received e r cc = Returned cc' /\ ack_inv (e + 1) cc'.
Proof.
  intros (Hd & Hs & Hl & Hz & Hc & Hss).
  unfold on_ack_received.
  change (last_ack (update_rtt r cc)) with (last_ack cc).
  destruct (e >? last_ack cc)%Z eqn:Egt.
  - change (state (note_new_ack e (update_rtt r cc))) with (state cc).
    change (cwnd (note_new_ack e (update_rtt r cc))) with (cwnd cc).
    change (ssthresh (note_new_ack e (update_rtt r cc))) with (ssthresh cc).
    destruct (state cc) eqn:Est; [| |congruence].
    + destruct (Qgeb (cwnd cc + 1) (ssthresh cc));
        eexists; (split; [reflexivity|]); unfold ack_inv; simpl;
        repeat split; try lia; try lra; try discriminate.
    + destruct (Qeq_bool (cwnd cc) 0) eqn:E0.
      * apply Qeq_bool_iff in E0. lra.
      * eexists; split; [reflexivity|]. unfold ack_inv; simpl.
        assert (H0 : 0 < / cwnd cc) by (apply Qinv_lt_0_compat; lra).
        repeat split; try lia; try discriminate; try assumption.
        unfold Qdiv. lra.
  - assert (He : last_ack cc = e).
    { destruct (Z.gtb_spec e (last_ack cc)); [discriminate | lia]. }
    replace (e =? last_ack cc)%Z with true by (symmetry; apply Z.eqb_eq; lia).
    change (duplicate_acks (note_dup_ack (update_rtt r cc)))
      with (duplicate_acks cc + 1)%Z.
    rewrite (Hz He). simpl (0 + 1 =? 3)%Z. cbv iota.
    change (state (note_dup_ack (update_rtt r cc))) with (state cc).
    assert (Hcase : match state cc with
                    | FAST_RECOVERY =>
                        Returned
                          (set_window (cwnd (note_dup_ack (update_rtt r cc)) + 1)
                             FAST_RECOVERY (note_dup_ack (update_rtt r cc)))
                    | _ => Returned (note_dup_ack (update_rtt r cc))
                    end = Returned (note_dup_ack (update_rtt r cc)))
      by (destruct (state cc); congruence).
    rewrite Hcase. eexists; split; [reflexivity|].
    unfold ack_inv; simpl. rewrite (Hz He).
    repeat split; try lia; try assumption.
Qed.

(** ** ASCII text *)

Lemma ascii_only_app (a b : pystr) :
  ascii_only (a ++ b) = ascii_only a && ascii_only b.
Proof. apply forallb_app. Qed.

Lemma encode_ascii (s : pystr) : ascii_only s = true -> encode_utf8 s = Ok s.
Proof.
  unfold encode_utf8. induction s as [|c s IH]; intros H; [reflexivity|].
  simpl in H. apply andb_true_iff in H. destruct H as [Hc Hs].
  simpl. unfold Utf8.encode_char.
  change (c <? 128)%N with (N.ltb c 128). rewrite Hc. simpl.
  rewrite (IH Hs). reflexivity.
Qed.

Lemma decode_ascii_fuel (fuel : nat) :
  forall s : pystr,
    (length s <= fuel)%nat -> ascii_only s = true -> Utf8.decode fuel s = Ok s.
Proof.
  induction fuel as [|fuel IH]; intros s Hlen H.
  - destruct s; [reflexivity | simpl in Hlen; lia].
  - destruct s as [|c s]; [reflexivity|].
    simpl in H. apply andb_true_iff in H. destruct H as [Hc Hs].
    simpl in Hlen. cbn [Utf8.decode].
    change (c <? 128)%N with (N.ltb c 128). rewrite Hc.
    rewrite (IH s ltac:(lia) Hs). reflexivity.
Qed.

Lemma decode_ascii (s : pystr) : ascii_only s = true -> decode_utf8 s = Ok s.
Proof. intros H. apply decode_ascii_fuel; [lia | exact H]. Qed.

Lemma hex_digit_ascii (d : N) : (d < 16)%N -> (Sha256.hex_digit d < 128)%N.
Proof.
  intros H. unfold Sha256.hex_digit. destruct (d <? 10)%N; lia.
Qed.

Lemma hex4_ascii (n : N) : ascii_only (Json.hex4 n) = true.
Proof.
  unfold Json.hex4, ascii_only. cbn [forallb].
  rewrite !andb_true_iff. repeat split;
    try (apply N.ltb_lt, hex_digit_ascii, N.mod_lt; discriminate).
Qed.

Lemma uescape_ascii (n : N) : ascii_only (Json.uescape n) = true.
Proof.
  unfold Json.uescape. change (ascii_only (92%N :: 117%N :: Json.hex4 n))
    with (ascii_only (Json.hex4 n)). apply hex4_ascii.
Qed.

Lemma escape_char_ascii (c : N) : ascii_only (Json.escape_char c) = true.
Proof.
  unfold Json.escape_char.
  repeat match goal with
         | |- ascii_only (if (?x =? ?y)%N then _ else _) = true =>
             destruct (x =? y)%N; [reflexivity|]
         end.
  destruct ((32 <=? c) && (c <=? 126))%N eqn:Eprint.
  - apply andb_true_iff in Eprint. destruct Eprint as [_ H].
    apply N.leb_le in H. unfold ascii_only. cbn [forallb].
    rewrite andb_true_r. apply N.ltb_lt. lia.
  - destruct (c <? 65536)%N; [apply uescape_ascii|].
    rewrite ascii_only_app, !uescape_ascii. reflexivity.
Qed.

Lemma escape_ascii (s : pystr) : ascii_only (Json.escape s) = true.
Proof.
  unfold Json.escape. induction s as [|c s IH]; [reflexivity|].
  simpl. rewrite ascii_only_app, escape_char_ascii, IH. reflexivity.
Qed.

Lemma digits_ascii (d : Decimal.uint) : ascii_only (digits_of_uint d) = true.
Proof. induction d; simpl; auto. Qed.

Lemma str_of_int_ascii (z : Z) : ascii_only (str_of_int z) = true.
Proof.
  unfold str_of_int, str_of_nat. destruct z; exact (digits_ascii _).
Qed.

Lemma server_value_ascii (t : Server.MessageType) :
  ascii_only (Server.value t) = true.
Proof. destruct t; reflexivity. Qed.

(** Building a server message out of ASCII text never raises. *)
Lemma new_Message_ascii (id : pystr) (t : Server.MessageType)
                        (snd cnt : pystr) (ts : pyfloat) :
  ascii_only id = true -> ascii_only snd = true -> ascii_only cnt = true ->
  ascii_only (float_repr ts) = true ->
  exists m, Server.new_Message id t snd cnt ts = Ok m.
Proof.
  intros Hid Hsnd Hcnt Hts.
  unfold Server.new_Message, Server.post_init, Server.calculate_checksum.
  cbn [Server.checksum]. unfold Server.checksum_data.
  cbn [Server.msg_id Server.msg_type Server.sender Server.content
       Server.timestamp].
  rewrite encode_ascii.
  - cbn [bind]. eexists. reflexivity.
  - rewrite !ascii_only_app, Hid, Hsnd, Hcnt, Hts, server_value_ascii.
    reflexivity.
Qed.

Lemma fresh_id_ascii (prefix : pystr) (st : Server.stamp) :
  ascii_only prefix = true -> ascii_only (Server.fresh_id prefix st) = true.
Proof.
  intros H. unfold Server.fresh_id.
  rewrite !ascii_only_app, H, !str_of_int_ascii. reflexivity.
Qed.

(** The content of the ACK that [_process_message] builds is ASCII. *)
Lemma ack_content_ascii (id : pystr) :
  ascii_only (Json.dumps (py ", ") (py ": ")
                (JObj [(py "ack_for", JStr id)])) = true.
Proof.
  cbn [Json.dumps map Json.join fst snd].
  change (ascii_only
            (123%N :: ((34%N :: Json.escape (py "ack_for") ++ [34%N])
                       ++ py ": " ++ (34%N :: Json.escape id ++ [34%N]))
                      ++ [125%N]) = true).
  change (ascii_only
            (((34%N :: Json.escape (py "ack_for") ++ [34%N])
              ++ py ": " ++ (34%N :: Json.escape id ++ [34%N]))
             ++ [125%N]) = true).
  rewrite !ascii_only_app.
  change (ascii_only (34%N :: Json.escape id ++ [34%N]))
    with (ascii_only (Json.escape id ++ [34%N])).
  rewrite ascii_only_app, escape_ascii. reflexivity.
Qed.

(** ** Dictionaries *)

Lemma pystr_eqb_refl (a : pystr) : pystr_eqb a a = true.
Proof. unfold pystr_eqb. destruct (list_eq_dec N.eq_dec a a); congruence. Qed.

Lemma pystr_eqb_eq (a b : pystr) : pystr_eqb a b = true <-> a = b.
Proof.
  unfold pystr_eqb. destruct (list_eq_dec N.eq_dec a b); split; congruence.
Qed.

Lemma pystr_eqb_sym (a b : pystr) : pystr_eqb a b = pystr_eqb b a.
Proof.
  unfold pystr_eqb.
  destruct (list_eq_dec N.eq_dec a b), (list_eq_dec N.eq_dec b a);
    congruence.
Qed.

Lemma dict_get_set_eq {V : Type} (k : pystr) (v : V) (d : list (pystr * V)) :
  dict_get k (dict_set k v d) = Some v.
Proof.
  induction d as [|[k' v'] d IH]; cbn [dict_set dict_get].
  - rewrite pystr_eqb_refl. reflexivity.
  - destruct (pystr_eqb k k') eqn:E; cbn [dict_get].
    + rewrite pystr_eqb_refl. reflexivity.
    + rewrite E. exact IH.
Qed.

(** ** Digests *)

Lemma hex_byte_ascii (b : N) : ascii_only (Sha256.hex_byte b) = true.
Proof.
  unfold Sha256.hex_byte, ascii_only. cbn [forallb].
  rewrite !andb_true_iff. repeat split;
    apply N.ltb_lt, hex_digit_ascii, N.mod_lt; discriminate.
Qed.

Lemma hexdigest_ascii (msg : bytes) : ascii_only (Sha256.hexdigest msg) = true.
Proof.
  unfold Sha256.hexdigest. induction (Sha256.digest msg) as [|b bs IH];
    [reflexivity|].
  cbn [flat_map]. rewrite ascii_only_app, hex_byte_ascii, IH. reflexivity.
Qed.

Lemma digest_length (msg : bytes) : length (Sha256.digest msg) = 32%nat.
Proof.
  unfold Sha256.digest.
  destruct (fold_left Sha256.compress _ Sha256.init_regs)
    as [[[[[[[a b] c] d] e] f] g] h].
  reflexivity.
Qed.

Lemma hexdigest_length (msg : bytes) : length (Sha256.hexdigest msg) = 64%nat.
Proof.
  unfold Sha256.hexdigest. pose proof (digest_length msg) as H.
  assert (Hgen : forall l : list N,
             length (flat_map Sha256.hex_byte l) = (2 * length l)%nat).
  { induction l as [|x l IH]; [reflexivity|].
    cbn [flat_map]. rewrite length_app, IH. simpl. lia. }
  rewrite Hgen, H. reflexivity.
Qed.

(** ** Text that UTF-8 encodes *)

Lemma ascii_encodable (s : pystr) :
  ascii_only s = true -> forallb encodable s = true.
Proof.
  unfold ascii_only. rewrite !forallb_forall. intros H c Hc.
  specialize (H c Hc). apply N.ltb_lt in H. unfold encodable.
  apply orb_true_iff. left. apply N.ltb_lt. lia.
Qed.

Lemma encode_char_encodable (c : N) (b : bytes) :
  Utf8.encode_char c = Ok b -> encodable c = true.
Proof.
  unfold Utf8.encode_char, encodable.
  split_tests; cbn [andb orb]; intros Hb;
    first [reflexivity | discriminate | lia].
Qed.

Lemma encode_encodable (s : pystr) (b : bytes) :
  encode_utf8 s = Ok b -> forallb encodable s = true.
Proof.
  unfold encode_utf8. revert b. induction s as [|c s IH]; intros b H;
    [reflexivity|].
  cbn [Utf8.encode] in H.
  destruct (Utf8.encode_char c) as [bc|e] eqn:Ec; [|discriminate].
  cbn [bind] in H.
  destruct (Utf8.encode s) as [bs|e] eqn:Es; [|discriminate].
  cbn [forallb]. rewrite (encode_char_encodable c bc Ec), (IH bs eq_refl).
  reflexivity.
Qed.

(** ** Reading back an escaped string *)

Lemma unhex_hex_digit (d : N) :
  (d < 16)%N -> Json.unhex (Sha256.hex_digit d) = Some d.
Proof.
  intros H. unfold Sha256.hex_digit, Json.unhex.
  destruct (N.ltb_spec d 10).
  - replace ((48 <=? 48 + d) && (48 + d <=? 57))%N with true
      by (symmetry; apply andb_true_iff; split; apply N.leb_le; lia).
    f_equal. lia.
  - replace ((48 <=? 87 + d) && (87 + d <=? 57))%N with false
      by (symmetry; apply andb_false_iff; right; apply N.leb_gt; lia).
    replace ((97 <=? 87 + d) && (87 + d <=? 102))%N with true
      by (symmetry; apply andb_true_iff; split; apply N.leb_le; lia).
    f_equal. lia.
Qed.

Lemma hex4_value (n : N) :
  (n < 65536)%N ->
  ((n / 4096) mod 16 * 4096 + (n / 256) mod 16 * 256
   + (n / 16) mod 16 * 16 + n mod 16 = n)%N.
Proof.
  intros H.
  pose proof (N.div_mod n 16 ltac:(discriminate)) as H1.
  pose proof (N.div_mod (n / 16) 16 ltac:(discriminate)) as H2.
  pose proof (N.div_mod (n / 256) 16 ltac:(discriminate)) as H3.
  rewrite (N.Div0.div_div n 16 16) in H2. change (16 * 16)%N with 256%N in H2.
  assert (H4 : (n / 256 / 16 = n / 4096)%N)
    by (rewrite N.Div0.div_div; reflexivity).
  rewrite H4 in H3.
  assert (H5 : (n / 4096 < 16)%N)
    by (apply N.Div0.div_lt_upper_bound; exact H).
  rewrite (N.mod_small (n / 4096) 16 H5). lia.
Qed.

Lemma parse_hex4_hex4 (n : N) (tail : pystr) :
  (n < 65536)%N -> Json.parse_hex4 (Json.hex4 n ++ tail) = Some (n, tail).
Proof.
  intros H. unfold Json.hex4, Json.parse_hex4. cbn [app].
  rewrite !unhex_hex_digit by (apply N.mod_lt; discriminate).
  rewrite (hex4_value n H). reflexivity.
Qed.

Lemma scan_unicode (f : nat) (r1 : pystr) :
  Json.scan_string (S f) (92%N :: 117%N :: r1)
  = match Json.parse_hex4 r1 with
    | None => Err JSONDecodeError
    | Some (u, r2) =>
        if Json.high_surrogate u then
          match r2 with
          | b :: u' :: r3 =>
              if ((b =? 92) && (u' =? 117))%N then
                match Json.parse_hex4 r3 with
                | None => Err JSONDecodeError
                | Some (u2, r4) =>
                    if Json.low_surrogate u2
                    then Json.cons_char (Json.join_surrogates u u2)
                                        (Json.scan_string f r4)
                    else Json.cons_char u (Json.scan_string f r2)
                end
              else Json.cons_char u (Json.scan_string f r2)
          | _ => Json.cons_char u (Json.scan_string f r2)
          end
        else Json.cons_char u (Json.scan_string f r2)
    end.
Proof. reflexivity. Qed.

Lemma scan_plain (f : nat) (c : N) (r : pystr) :
  c <> 34%N -> c <> 92%N -> (32 <= c)%N ->
  Json.scan_string (S f) (c :: r) = Json.cons_char c (Json.scan_string f r).
Proof.
  intros H34 H92 H32. cbn [Json.scan_string].
  rewrite (proj2 (N.eqb_neq c 34) H34), (proj2 (N.eqb_neq c 92) H92).
  rewrite (proj2 (N.ltb_ge c 32) H32). reflexivity.
Qed.

Lemma scan_bmp (c : N) (f : nat) (tail : pystr) :
  encodable c = true -> (c < 65536)%N ->
  Json.scan_string (S f) (Json.uescape c ++ tail)
  = Json.cons_char c (Json.scan_string f tail).
Proof.
  intros Henc Hb. unfold Json.uescape. cbn [app]. rewrite scan_unicode.
  rewrite (parse_hex4_hex4 c tail Hb).
  assert (Hs : Json.high_surrogate c = false).
  { unfold Json.high_surrogate. unfold encodable in Henc.
    split_tests; cbn [andb orb] in *;
      first [reflexivity | discriminate | lia]. }
  rewrite Hs. reflexivity.
Qed.

Lemma scan_astral (c : N) (f : nat) (tail : pystr) :
  (65536 <= c)%N -> (c <= 1114111)%N ->
  Json.scan_string (S f)
    ((Json.uescape (55296 + (c - 65536) / 1024)
      ++ Json.uescape (56320 + (c - 65536) mod 1024)) ++ tail)
  = Json.cons_char c (Json.scan_string f tail).
Proof.
  intros Hlo Hhi.
  assert (Hn : (c - 65536 < 1048576)%N) by lia.
  pose proof (N.Div0.div_lt_upper_bound (c - 65536) 1024 1024 Hn) as Hq.
  pose proof (N.mod_lt (c - 65536) 1024 ltac:(discriminate)) as Hr.
  pose proof (N.div_mod (c - 65536) 1024 ltac:(discriminate)) as Hdm.
  remember ((c - 65536) / 1024)%N as q eqn:Eq.
  remember ((c - 65536) mod 1024)%N as r eqn:Er.
  rewrite <- app_assoc. unfold Json.uescape at 1. cbn [app].
  rewrite scan_unicode.
  rewrite (parse_hex4_hex4 (55296 + q)) by lia.
  assert (H1 : Json.high_surrogate (55296 + q) = true).
  { unfold Json.high_surrogate. apply andb_true_iff.
    split; apply N.leb_le; lia. }
  rewrite H1. unfold Json.uescape. cbn [app].
  change ((92 =? 92) && (117 =? 117))%N with true. cbv iota.
  rewrite (parse_hex4_hex4 (56320 + r)) by lia.
  assert (H2 : Json.low_surrogate (56320 + r) = true).
  { unfold Json.low_surrogate. apply andb_true_iff.
    split; apply N.leb_le; lia. }
  rewrite H2.
  assert (H3 : Json.join_surrogates (55296 + q) (56320 + r) = c).
  { unfold Json.join_surrogates. lia. }
  rewrite H3. reflexivity.
Qed.

Lemma scan_char (c : N) (f : nat) (tail : pystr) :
  encodable c = true ->
  Json.scan_string (S f) (Json.escape_char c ++ tail)
  = Json.cons_char c (Json.scan_string f tail).
Proof.
  intros Henc. unfold Json.escape_char.
  destruct (N.eqb_spec c 34) as [->|H34]; [reflexivity|].
  destruct (N.eqb_spec c 92) as [->|H92]; [reflexivity|].
  destruct (N.eqb_spec c 10) as [->|H10]; [reflexivity|].
  destruct (N.eqb_spec c 13) as [->|H13]; [reflexivity|].
  destruct (N.eqb_spec c 9) as [->|H9]; [reflexivity|].
  destruct (N.eqb_spec c 8) as [->|H8]; [reflexivity|].
  destruct (N.eqb_spec c 12) as [->|H12]; [reflexivity|].
  destruct (N.leb_spec 32 c) as [H32|H32];
    [destruct (N.leb_spec c 126) as [H126|H126]|]; cbn [andb].
  - apply scan_plain; assumption.
  - destruct (N.ltb_spec c 65536) as [Hb|Hb].
    + apply scan_bmp; assumption.
    + apply scan_astral; [exact Hb|].
      unfold encodable in Henc.
      destruct (N.leb_spec c 1114111); [assumption|].
      rewrite andb_false_r, orb_false_r in Henc. apply N.ltb_lt in Henc. lia.
  - destruct (N.ltb_spec c 65536) as [Hb|Hb]; [|lia]. apply scan_bmp; assumption.
Qed.

Lemma escape_char_nonempty (c : N) : Json.escape_char c <> [].
Proof.
  unfold Json.escape_char, Json.uescape.
  repeat match goal with
         | |- (if ?b then _ else _) <> [] => destruct b
         end; discriminate.
Qed.

Lemma escape_length (s : pystr) : (length s <= length (Json.escape s))%nat.
Proof.
  unfold Json.escape. induction s as [|c s IH]; [simpl; lia|].
  cbn [flat_map]. rewrite length_app.
  pose proof (escape_char_nonempty c) as Hne.
  destruct (Json.escape_char c); [congruence|]. simpl. lia.
Qed.

(** A quoted string is read back as it was written. *)
Lemma scan_escape (s : pystr) :
  forall (f : nat) (tail : pystr),
    forallb encodable s = true ->
    (length s < f)%nat ->
    Json.scan_string f (Json.escape s ++ 34%N :: tail) = Ok (s, tail).
Proof.
  unfold Json.escape. induction s as [|c s IH]; intros f tail Henc Hf.
  - destruct f; [simpl in Hf; lia|]. reflexivity.
  - destruct f; [simpl in Hf; lia|].
    cbn [forallb] in Henc. apply andb_true_iff in Henc.
    destruct Henc as [Hc Hs].
    cbn [flat_map]. rewrite <- app_assoc. rewrite (scan_char c f _ Hc).
    rewrite (IH f tail Hs ltac:(simpl in Hf; lia)). reflexivity.
Qed.

(** ** Reading back a number *)

Lemma digits_value_acc (d : Decimal.uint) :
  forall acc : positive,
    fold_left Json.decimal_step (digits_of_uint d) (Npos acc)
    = Npos (Pos.of_uint_acc d acc).
Proof.
  induction d; intros acc; cbn [digits_of_uint fold_left Pos.of_uint_acc];
    [reflexivity| ..];
    match goal with
    | |- fold_left _ _ ?x = N.pos (Pos.of_uint_acc _ ?y) =>
        replace x with (N.pos y) by (unfold Json.decimal_step; lia)
    end; apply IHd.
Qed.

Lemma digits_value (d : Decimal.uint) :
  Json.nat_of_digits (digits_of_uint d) = N.of_uint d.
Proof.
  unfold Json.nat_of_digits, N.of_uint.
  induction d; cbn [digits_of_uint fold_left Pos.of_uint];
    [reflexivity | exact IHd | ..];
    match goal with
    | |- fold_left _ _ ?x = N.pos (Pos.of_uint_acc _ ?y) =>
        replace x with (N.pos y) by (unfold Json.decimal_step; lia)
    end; apply digits_value_acc.
Qed.

Lemma digits_are_digits (d : Decimal.uint) :
  forallb Json.is_digit (digits_of_uint d) = true.
Proof. induction d; simpl; auto. Qed.

Lemma digit_is_numchar (c : N) : Json.is_digit c = true -> Json.is_numchar c = true.
Proof. intros H. unfold Json.is_numchar. rewrite H. reflexivity. Qed.

Lemma span_all (p : N -> bool) (tok tail : pystr) :
  forallb p tok = true ->
  match tail with
  | [] => True
  | c :: _ => p c = false
  end ->
  Json.span p (tok ++ tail) = (tok, tail).
Proof.
  intros Htok Htail. induction tok as [|c tok IH].
  - destruct tail as [|c tail]; [reflexivity|]. simpl. rewrite Htail.
    reflexivity.
  - cbn [forallb] in Htok. apply andb_true_iff in Htok.
    destruct Htok as [Hc Ht]. cbn [app Json.span]. rewrite Hc, (IH Ht).
    reflexivity.
Qed.

Lemma to_uint_normal (n : N) : unorm (N.to_uint n) = N.to_uint n.
Proof.
  rewrite <- (DecimalN.Unsigned.to_of (N.to_uint n)).
  rewrite DecimalN.Unsigned.of_to. reflexivity.
Qed.

Lemma normal_int_part (d : Decimal.uint) :
  unorm d = d -> Json.int_part_ok (digits_of_uint d) = true.
Proof.
  intros Hu. destruct d; try reflexivity.
  - discriminate.
  - rewrite DecimalFacts.unorm_D0 in Hu. unfold unorm in Hu.
    destruct (nzhead d) eqn:En;
      try (exfalso; apply (DecimalFacts.nzhead_nonzero d d); congruence).
    injection Hu as <-. reflexivity.
Qed.

Lemma str_of_nat_digits (n : N) :
  forallb Json.is_digit (str_of_nat n) = true.
Proof. apply digits_are_digits. Qed.

Lemma str_of_nat_nonempty (n : N) : str_of_nat n <> [].
Proof.
  unfold str_of_nat. pose proof (to_uint_normal n) as Hu.
  destruct (N.to_uint n); try discriminate.
Qed.

Lemma classify_digits (ds : pystr) :
  forallb Json.is_digit ds = true ->
  Json.int_part_ok ds = true ->
  Json.span Json.is_digit ds = (ds, []) /\
  (forall tok, Json.strip_sign tok = ds -> Json.classify_number tok = Some false).
Proof.
  intros Hd Hok.
  assert (Hspan : Json.span Json.is_digit ds = (ds, [])).
  { rewrite <- (app_nil_r ds) at 1. apply span_all; [exact Hd | exact I]. }
  split; [exact Hspan|]. intros tok Htok.
  unfold Json.classify_number. rewrite Htok, Hspan, Hok. reflexivity.
Qed.

Lemma digit_not_minus (c : N) : Json.is_digit c = true -> (c =? 45)%N = false.
Proof.
  unfold Json.is_digit. intros H. apply andb_true_iff in H.
  destruct H as [H _]. apply N.leb_le in H. apply N.eqb_neq. lia.
Qed.

Lemma strip_sign_digits (ds : pystr) :
  forallb Json.is_digit ds = true -> Json.strip_sign ds = ds.
Proof.
  destruct ds as [|c ds]; [reflexivity|]. cbn [forallb]. intros H.
  apply andb_true_iff in H. destruct H as [H _].
  cbn [Json.strip_sign]. rewrite (digit_not_minus c H). reflexivity.
Qed.

(** The decimal text of an integer is an integer token that reads back as
    the integer. *)
Lemma str_of_int_token (z : Z) :
  str_of_int z <> [] /\
  forallb Json.is_numchar (str_of_int z) = true /\
  Json.classify_number (str_of_int z) = Some false /\
  Json.int_of_literal (str_of_int z) = z.
Proof.
  assert (Hnum : forall n, forallb Json.is_numchar (str_of_nat n) = true).
  { intros n. pose proof (str_of_nat_digits n) as H.
    rewrite forallb_forall in *. intros c Hc. apply digit_is_numchar, H, Hc. }
  assert (Hcls : forall n tok, Json.strip_sign tok = str_of_nat n ->
                   Json.classify_number tok = Some false).
  { intros n. apply classify_digits; [apply str_of_nat_digits|].
    apply normal_int_part, to_uint_normal. }
  assert (Hval : forall n, Json.nat_of_digits (str_of_nat n) = n).
  { intros n. unfold str_of_nat. rewrite digits_value.
    apply DecimalN.Unsigned.of_to. }
  assert (Hpos : forall n, Json.int_of_literal (str_of_nat n) = Z.of_N n).
  { intros n. unfold Json.int_of_literal.
    pose proof (str_of_nat_digits n) as Hd. pose proof (Hval n) as Hv.
    destruct (str_of_nat n) as [|c t] eqn:E.
    - cbn in Hv. subst n. reflexivity.
    - cbn [forallb] in Hd. apply andb_true_iff in Hd.
      rewrite (digit_not_minus c (proj1 Hd)), Hv. reflexivity. }
  unfold str_of_int. destruct z as [|p|p].
  - split; [apply str_of_nat_nonempty|]. split; [apply Hnum|].
    split; [|apply Hpos].
    apply (Hcls 0%N), strip_sign_digits, str_of_nat_digits.
  - split; [apply str_of_nat_nonempty|]. split; [apply Hnum|].
    split; [|apply Hpos].
    apply (Hcls (Z.to_N (Z.pos p))), strip_sign_digits, str_of_nat_digits.
  - split; [discriminate|]. split; [|split].
    + cbn [forallb]. rewrite Hnum. reflexivity.
    + apply (Hcls (N.pos p)). reflexivity.
    + cbn [Json.int_of_literal]. change (45 =? 45)%N with true. cbv iota.
      rewrite Hval. reflexivity.
Qed.

Section Reading.
Variable float_of_literal : pystr -> option pyfloat.

Lemma numchar_cases (c : N) :
  Json.is_numchar c = true ->
  ((48 <= c <= 57) \/ c = 45 \/ c = 43 \/ c = 46 \/ c = 101 \/ c = 69)%N.
Proof.
  unfold Json.is_numchar, Json.is_digit. intros H.
  repeat (apply orb_true_iff in H; destruct H as [H|H]);
    try (apply N.eqb_eq in H; lia).
  apply andb_true_iff in H. destruct H as [H1 H2].
  apply N.leb_le in H1, H2. lia.
Qed.

Lemma delimited_stops (tail : pystr) :
  delimited tail ->
  match tail with
  | [] => True
  | c :: _ => Json.is_numchar c = false
  end /\
  match tail with
  | [] => True
  | c :: _ => c <> 73%N
  end.
Proof.
  destruct tail as [|c tail]; [split; exact I|].
  intros [ -> | [ -> | -> ] ]; split; (reflexivity || discriminate).
Qed.

Lemma strip_prefix_head (a c : N) (p s : pystr) :
  a <> c -> Json.strip_prefix (a :: p) (c :: s) = None.
Proof.
  intros H. cbn [Json.strip_prefix].
  rewrite (proj2 (N.eqb_neq a c) H). reflexivity.
Qed.

(** A number token followed by a delimiter is read as the number. *)
Lemma parse_atom_token (tok tail : pystr) :
  tok <> [] ->
  forallb Json.is_numchar tok = true ->
  delimited tail ->
  Json.parse_atom float_of_literal (tok ++ tail)
  = match Json.classify_number tok with
    | None => Err JSONDecodeError
    | Some false => Ok (JInt (Json.int_of_literal tok), tail)
    | Some true =>
        match float_of_literal tok with
        | Some f => Ok (JFloat f, tail)
        | None =>
            match tok with
            | 45%N :: _ => Ok (JFloat (Infinite true), tail)
            | _ => Ok (JFloat (Infinite false), tail)
            end
        end
    end.
Proof.
  intros Hne Hnum Hdel.
  destruct (delimited_stops tail Hdel) as [Hstop H73].
  assert (Hspan : Json.span Json.is_numchar (tok ++ tail) = (tok, tail))
    by (apply span_all; assumption).
  destruct tok as [|c tok]; [congruence|].
  cbn [forallb] in Hnum. apply andb_true_iff in Hnum.
  destruct Hnum as [Hc Htok].
  pose proof (numchar_cases c Hc) as Hcases.
  unfold Json.parse_atom.
  change (py "null") with [110; 117; 108; 108]%N.
  change (py "true") with [116; 114; 117; 101]%N.
  change (py "false") with [102; 97; 108; 115; 101]%N.
  change (py "NaN") with [78; 97; 78]%N.
  change (py "Infinity") with [73; 110; 102; 105; 110; 105; 116; 121]%N.
  change (py "-Infinity") with [45; 73; 110; 102; 105; 110; 105; 116; 121]%N.
  cbn [app].
  rewrite !strip_prefix_head by lia.
  assert (Hinf : Json.strip_prefix [45; 73; 110; 102; 105; 110; 105; 116; 121]%N
                   (c :: tok ++ tail) = None).
  { destruct (N.eq_dec 45 c) as [<-|Hn]; [|apply strip_prefix_head; exact Hn].
    change (Json.strip_prefix [73; 110; 102; 105; 110; 105; 116; 121]%N
              (tok ++ tail) = None).
    destruct tok as [|c2 tok].
    - cbn [app]. destruct tail as [|d tail]; [reflexivity|].
      apply strip_prefix_head. congruence.
    - cbn [app]. apply strip_prefix_head.
      cbn [forallb] in Htok. apply andb_true_iff in Htok.
      pose proof (numchar_cases c2 (proj1 Htok)). lia. }
  rewrite Hinf. unfold Json.parse_number.
  change (c :: tok ++ tail) with ((c :: tok) ++ tail). rewrite Hspan.
  reflexivity.
Qed.

Lemma parse_value_token (f : nat) (tok tail : pystr) :
  tok <> [] ->
  forallb Json.is_numchar tok = true ->
  Json.parse_value float_of_literal (S f) (tok ++ tail)
  = Json.parse_atom float_of_literal (tok ++ tail).
Proof.
  intros Hne Hnum. destruct tok as [|c tok]; [congruence|].
  cbn [forallb] in Hnum. apply andb_true_iff in Hnum.
  pose proof (numchar_cases c (proj1 Hnum)) as Hc.
  cbn [app Json.parse_value].
  rewrite (proj2 (N.eqb_neq c 34)) by lia.
  rewrite (proj2 (N.eqb_neq c 123)) by lia.
  rewrite (proj2 (N.eqb_neq c 91)) by lia.
  reflexivity.
Qed.

Lemma parse_value_string (f : nat) (s tail : pystr) :
  forallb encodable s = true ->
  Json.parse_value float_of_literal (S f) (34%N :: Json.escape s ++ 34%N :: tail)
  = Ok (JStr s, tail).
Proof.
  intros Henc. cbn [Json.parse_value]. change (34 =? 34)%N with true.
  cbv iota. rewrite scan_escape; [reflexivity | exact Henc |].
  rewrite length_app. pose proof (escape_length s). simpl. lia.
Qed.

(** A simple value followed by a delimiter is read back as it was written. *)
Lemma finite_token (x : pyfloat) (item_sep key_sep : pystr) :
  float_token (float_repr x) = true ->
  Json.dumps item_sep key_sep (JFloat x) = float_repr x.
Proof.
  destruct x as [q r|[|]|i]; intros H; try reflexivity;
    vm_compute in H; discriminate H.
Qed.
Lemma finite_simple (x : pyfloat) :
  float_token (float_repr x) = true ->
  float_of_literal (float_repr x) = Some x ->
  simple_value float_of_literal (JFloat x).
Proof.
  destruct x as [q r|[|]|i]; intros H1 H2;
    try (vm_compute in H1; discriminate H1).
  split; [split; assumption | reflexivity].
Qed.
Lemma simple_float (x : pyfloat) :
  simple_value float_of_literal (JFloat x) ->
  (float_token (float_repr x) = true /\
   float_of_literal (float_repr x) = Some x) \/
  (exists b, x = Infinite b) \/ x = NaNObject 0.
Proof.
  destruct x as [q r|b|i]; intros [H1 H2].
  - left. exact H1.
  - right. left. exists b. reflexivity.
  - right. right. symmetry. exact H2.
Qed.
Lemma parse_simple (item_sep key_sep : pystr) (v : json) (f : nat)
                   (tail : pystr) :
  simple_value float_of_literal v ->
  delimited tail ->
  Json.parse_value float_of_literal (S f)
    (Json.dumps item_sep key_sep v ++ tail)
  = Ok (v, tail).
Proof.
  intros Hv Hdel. destruct v as [| | z | x | s | |]; try contradiction.
  - change (Json.dumps item_sep key_sep (JInt z)) with (str_of_int z).
    destruct (str_of_int_token z) as (Hne & Hnum & Hcls & Hval).
    rewrite parse_value_token, parse_atom_token by assumption.
    rewrite Hcls, Hval. reflexivity.
  - destruct (simple_float x Hv) as [[Htok Hback]|[[b ->]| ->]];
      [|destruct b; reflexivity | reflexivity].
    rewrite (finite_token x item_sep key_sep Htok).
    unfold float_token in Htok. apply andb_true_iff in Htok.
    destruct Htok as [Hnum Hcls].
    destruct (Json.classify_number (float_repr x)) as [[|]|] eqn:E;
      try discriminate.
    assert (Hne : float_repr x <> []).
    { intros Hnil. rewrite Hnil in E. discriminate. }
    rewrite parse_value_token, parse_atom_token by assumption.
    rewrite E, Hback. reflexivity.
  - change (Json.dumps item_sep key_sep (JStr s))
      with (34%N :: Json.escape s ++ [34%N]).
    cbn [app]. rewrite <- app_assoc. cbn [app].
    apply parse_value_string. exact Hv.
Qed.

Lemma skip_ws_prefix (ws rest : pystr) :
  forallb Json.is_ws ws = true ->
  match rest with
  | [] => True
  | c :: _ => Json.is_ws c = false
  end ->
  Json.skip_ws (ws ++ rest) = rest.
Proof.
  intros Hws Hrest. induction ws as [|w ws IH].
  - destruct rest as [|c rest]; [reflexivity|]. cbn [app Json.skip_ws].
    rewrite Hrest. reflexivity.
  - cbn [forallb] in Hws. apply andb_true_iff in Hws.
    cbn [app Json.skip_ws]. rewrite (proj1 Hws). apply IH, (proj2 Hws).
Qed.

Lemma skip_ws_id (c : N) (rest : pystr) :
  Json.is_ws c = false -> Json.skip_ws (c :: rest) = c :: rest.
Proof. intros H. cbn [Json.skip_ws]. rewrite H. reflexivity. Qed.

(** A simple value is written with a first character that is not white
    space. *)
Lemma simple_head (item_sep key_sep : pystr) (v : json) (rest : pystr) :
  simple_value float_of_literal v ->
  match Json.dumps item_sep key_sep v ++ rest with
  | [] => True
  | c :: _ => Json.is_ws c = false
  end.
Proof.
  assert (Hnum : forall tok, tok <> [] -> forallb Json.is_numchar tok = true ->
                 match tok ++ rest with
                 | [] => True
                 | c :: _ => Json.is_ws c = false
                 end).
  { intros tok Hne H. destruct tok as [|c tok]; [congruence|].
    cbn [forallb] in H. apply andb_true_iff in H.
    pose proof (numchar_cases c (proj1 H)) as Hc. cbn [app].
    unfold Json.is_ws.
    repeat match goal with
           | |- context [N.eqb ?x ?y] => destruct (N.eqb_spec x y); try lia
           end; reflexivity. }
  intros Hv. destruct v as [| | z | x | s | |]; try contradiction.
  - change (Json.dumps item_sep key_sep (JInt z)) with (str_of_int z).
    destruct (str_of_int_token z) as (Hne & Hn & _). apply Hnum; assumption.
  - destruct (simple_float x Hv) as [[Htok _]|[[b ->]| ->]];
      [|destruct b; reflexivity | reflexivity].
    rewrite (finite_token x item_sep key_sep Htok).
    unfold float_token in Htok.
    apply andb_true_iff in Htok. destruct Htok as [Hn Hcls].
    apply Hnum; [|exact Hn]. intros Hnil. rewrite Hnil in Hcls. discriminate.
  - reflexivity.
Qed.

Lemma join_cons2 (sep x y : pystr) (rest : list pystr) :
  Json.join sep (x :: y :: rest) = x ++ sep ++ Json.join sep (y :: rest).
Proof. reflexivity. Qed.

Lemma parse_members_quote (f : nat) (r : pystr) (acc : list (pystr * json)) :
  Json.parse_members float_of_literal (S f) (34%N :: r) acc
  = match Json.scan_string (S (length r)) r with
    | Err e => Err e
    | Ok (k, r1) =>
        match Json.skip_ws r1 with
        | [] => Err JSONDecodeError
        | c2 :: r3 =>
            if (c2 =? 58)%N then
              match Json.parse_value float_of_literal f (Json.skip_ws r3) with
              | Err e => Err e
              | Ok (v, r4) =>
                  match Json.skip_ws r4 with
                  | [] => Err JSONDecodeError
                  | c3 :: r5 =>
                      if (c3 =? 125)%N then Ok (JObj (dict_set k v acc), r5)
                      else if (c3 =? 44)%N
                      then Json.parse_members float_of_literal f
                             (Json.skip_ws r5) (dict_set k v acc)
                      else Err JSONDecodeError
                  end
              end
            else Err JSONDecodeError
        end
    end.
Proof. reflexivity. Qed.

(** The members of an object, written with separators that are a comma or a
    colon followed by white space, are read back one after the other. *)
Lemma parse_members_ok (ws_i ws_k : pystr) (kvs : list (pystr * json)) :
  forallb Json.is_ws ws_i = true ->
  forallb Json.is_ws ws_k = true ->
  forall (acc : list (pystr * json)) (fuel : nat) (tail : pystr),
    kvs <> [] ->
    Forall (fun kv => forallb encodable (fst kv) = true /\
                      simple_value float_of_literal (snd kv)) kvs ->
    (length kvs < fuel)%nat ->
    Json.parse_members float_of_literal fuel
      (Json.join (44%N :: ws_i)
         (map (member_text (44%N :: ws_i) (58%N :: ws_k)) kvs)
       ++ 125%N :: tail) acc
    = Ok (JObj (dict_of kvs acc), tail).
Proof.
  intros Hwi Hwk. induction kvs as [|[k v] kvs IH];
    intros acc fuel tail Hne Hall Hfuel; [congruence|].
  inversion Hall as [|kv0 kvs0 [Hk Hv] Hrest]; subst. cbn [fst snd] in Hk, Hv.
  destruct fuel as [|[|f]]; [simpl in Hfuel; lia | simpl in Hfuel; lia |].
  (* the text of the first member, then whatever follows it *)
  assert (Hstep :
    forall X : pystr,
      delimited X ->
      Json.parse_members float_of_literal (S (S f))
        (member_text (44%N :: ws_i) (58%N :: ws_k) (k, v) ++ X) acc
      = match Json.skip_ws X with
        | [] => Err JSONDecodeError
        | c3 :: r5 =>
            if (c3 =? 125)%N then Ok (JObj (dict_set k v acc), r5)
            else if (c3 =? 44)%N
            then Json.parse_members float_of_literal (S f) (Json.skip_ws r5)
                   (dict_set k v acc)
            else Err JSONDecodeError
        end).
  { intros X HX. unfold member_text. cbn [fst snd].
    rewrite <- !app_assoc. cbn [app]. rewrite <- app_assoc. cbn [app].
    rewrite parse_members_quote.
    rewrite scan_escape;
      [| exact Hk
       | rewrite length_app; pose proof (escape_length k); simpl; lia].
    rewrite (skip_ws_id 58 _ eq_refl). change (58 =? 58)%N with true.
    cbv iota.
    rewrite (skip_ws_prefix ws_k _ Hwk
               (simple_head (44%N :: ws_i) (58%N :: ws_k) v X Hv)).
    rewrite (parse_simple (44%N :: ws_i) (58%N :: ws_k) v f X Hv HX).
    reflexivity. }
  destruct kvs as [|kv2 kvs].
  - cbn [map Json.join]. rewrite Hstep by (right; left; reflexivity).
    rewrite skip_ws_id by reflexivity. reflexivity.
  - cbn [map]. rewrite join_cons2. rewrite <- !app_assoc.
    cbn [app]. rewrite Hstep by (left; reflexivity).
    rewrite skip_ws_id by reflexivity.
    change (44 =? 125)%N with false. change (44 =? 44)%N with true. cbv iota.
    rewrite skip_ws_prefix; [| exact Hwi |].
    + apply (IH (dict_set k v acc) (S f) tail);
        [discriminate | exact Hrest | cbn [length] in Hfuel |- *; lia].
    + destruct kv2 as [k2 v2]. destruct kvs as [|kv3 kvs];
        cbn [map Json.join]; unfold member_text at 1; cbn [app]; reflexivity.
Qed.

Lemma parse_value_brace (f : nat) (r : pystr) :
  Json.parse_value float_of_literal (S f) (123%N :: r)
  = match Json.skip_ws r with
    | c' :: r' =>
        if (c' =? 125)%N then Ok (JObj [], r')
        else Json.parse_members float_of_literal f (c' :: r') []
    | [] => Err JSONDecodeError
    end.
Proof. reflexivity. Qed.

Lemma members_head (sep key_sep : pystr) (kvs : list (pystr * json)) :
  kvs <> [] ->
  exists r, Json.join sep (map (member_text sep key_sep) kvs) = 34%N :: r.
Proof.
  intros Hne. destruct kvs as [|[k v] kvs]; [congruence|].
  destruct kvs as [|kv2 kvs]; cbn [map Json.join]; unfold member_text at 1;
    cbn [app fst]; eexists; reflexivity.
Qed.

Lemma members_length (sep key_sep : pystr) (kvs : list (pystr * json)) :
  (length kvs <= length (Json.join sep (map (member_text sep key_sep) kvs)))%nat.
Proof.
  induction kvs as [|[k v] kvs IH]; [simpl; lia|].
  destruct kvs as [|kv2 kvs].
  - cbn [map Json.join]. unfold member_text. cbn [app length]. lia.
  - cbn [map]. rewrite join_cons2. rewrite !length_app.
    cbn [map] in IH. unfold member_text at 1. cbn [app length].
    cbn [length] in IH |- *. lia.
Qed.

(** What [json.dumps] writes for a dictionary of simple values, [json.loads]
    reads back as the dictionary that assigning the members in order
    builds. *)
Lemma loads_dumps_object (ws_i ws_k : pystr) (kvs : list (pystr * json)) :
  forallb Json.is_ws ws_i = true ->
  forallb Json.is_ws ws_k = true ->
  kvs <> [] ->
  Forall (fun kv => forallb encodable (fst kv) = true /\
                    simple_value float_of_literal (snd kv)) kvs ->
  Json.loads float_of_literal
    (Json.dumps (44%N :: ws_i) (58%N :: ws_k) (JObj kvs))
  = Ok (JObj (dict_of kvs [])).
Proof.
  intros Hwi Hwk Hne Hall.
  change (Json.dumps (44%N :: ws_i) (58%N :: ws_k) (JObj kvs))
    with (123%N :: Json.join (44%N :: ws_i)
                     (map (member_text (44%N :: ws_i) (58%N :: ws_k)) kvs)
                   ++ [125%N]).
  unfold Json.loads. rewrite skip_ws_id by reflexivity.
  rewrite parse_value_brace.
  destruct (members_head (44%N :: ws_i) (58%N :: ws_k) kvs Hne) as (r & Hr).
  pose proof (members_length (44%N :: ws_i) (58%N :: ws_k) kvs) as Hlen.
  set (text := Json.join (44%N :: ws_i)
                 (map (member_text (44%N :: ws_i) (58%N :: ws_k)) kvs)) in *.
  assert (Hskip : Json.skip_ws (text ++ [125%N]) = 34%N :: r ++ [125%N]).
  { rewrite Hr. cbn [app]. apply skip_ws_id. reflexivity. }
  rewrite Hskip. change (34 =? 125)%N with false. cbv iota.
  change (34%N :: r ++ [125%N]) with ((34%N :: r) ++ [125%N]).
  rewrite <- Hr. unfold text.
  rewrite (parse_members_ok ws_i ws_k kvs Hwi Hwk [] _ [] Hne Hall).
  - reflexivity.
  - fold text. cbn [length]. rewrite length_app. cbn [length]. lia.
Qed.

Lemma numchars_ascii (tok : pystr) :
  forallb Json.is_numchar tok = true -> ascii_only tok = true.
Proof.
  unfold ascii_only. rewrite !forallb_forall. intros H c Hc.
  pose proof (numchar_cases c (H c Hc)). apply N.ltb_lt. lia.
Qed.

Lemma simple_ascii (item_sep key_sep : pystr) (v : json) :
  simple_value float_of_literal v ->
  ascii_only (Json.dumps item_sep key_sep v) = true.
Proof.
  intros Hv. destruct v as [| | z | x | s | |]; try contradiction.
  - apply str_of_int_ascii.
  - destruct (simple_float x Hv) as [[Htok _]|[[b ->]| ->]];
      [|destruct b; reflexivity | reflexivity].
    rewrite (finite_token x item_sep key_sep Htok).
    unfold float_token in Htok.
    apply andb_true_iff in Htok. apply numchars_ascii, (proj1 Htok).
  - change (Json.dumps item_sep key_sep (JStr s))
      with (34%N :: Json.escape s ++ [34%N]).
    change (ascii_only (Json.escape s ++ [34%N]) = true).
    rewrite ascii_only_app, escape_ascii. reflexivity.
Qed.

Lemma dumps_object_ascii (item_sep key_sep : pystr)
                         (kvs : list (pystr * json)) :
  ascii_only item_sep = true -> ascii_only key_sep = true ->
  Forall (fun kv => simple_value float_of_literal (snd kv)) kvs ->
  ascii_only (Json.dumps item_sep key_sep (JObj kvs)) = true.
Proof.
  intros Hi Hk Hall.
  change (Json.dumps item_sep key_sep (JObj kvs))
    with (123%N :: Json.join item_sep (map (member_text item_sep key_sep) kvs)
                   ++ [125%N]).
  change (ascii_only
            (Json.join item_sep (map (member_text item_sep key_sep) kvs)
             ++ [125%N]) = true).
  rewrite ascii_only_app, andb_true_r.
  induction Hall as [|[k v] kvs Hv Hrest IH]; [reflexivity|].
  assert (Hm : ascii_only (member_text item_sep key_sep (k, v)) = true).
  { unfold member_text. cbn [fst snd]. rewrite !ascii_only_app.
    rewrite Hk, (simple_ascii item_sep key_sep v Hv).
    change (ascii_only (34%N :: Json.escape k ++ [34%N]))
      with (ascii_only (Json.escape k ++ [34%N])).
    rewrite ascii_only_app, escape_ascii. reflexivity. }
  destruct kvs as [|kv2 kvs]; [exact Hm|].
  cbn [map]. rewrite join_cons2, !ascii_only_app, Hm, Hi. exact IH.
Qed.

End Reading.

(** ** The protocol message on the wire *)

Module ProtocolProps.
Import Protocol.

Lemma forallb_firstn {A : Type} (p : A -> bool) (n : nat) (l : list A) :
  forallb p l = true -> forallb p (firstn n l) = true.
Proof.
  revert l. induction n as [|n IH]; intros l H; [reflexivity|].
  destruct l as [|x l]; [reflexivity|]. cbn [forallb] in H.
  apply andb_true_iff in H. cbn [firstn forallb].
  rewrite (proj1 H), (IH l (proj2 H)). reflexivity.
Qed.

(** A checksum, once computed, is 16 hexadecimal digits. *)
Lemma checksum_shape (data : bytes) :
  length (firstn 16 (Sha256.hexdigest data)) = 16%nat /\
  ascii_only (firstn 16 (Sha256.hexdigest data)) = true.
Proof.
  split.
  - rewrite length_firstn, hexdigest_length. reflexivity.
  - apply forallb_firstn, hexdigest_ascii.
Qed.

Lemma valid_checksum (m : Message) :
  is_valid m = Ok true ->
  exists data,
    encode_utf8 (checksum_data m) = Ok data /\
    checksum m = firstn 16 (Sha256.hexdigest data).
Proof.
  unfold is_valid, calculate_checksum.
  destruct (encode_utf8 (checksum_data m)) as [data|e]; [|discriminate].
  cbn [bind]. intros H. injection H as H. apply pystr_eqb_eq in H.
  exists data. split; [reflexivity | exact H].
Qed.

Lemma MessageType_of_value (t : MessageType) :
  MessageType_of (JStr (value t)) = Ok t.
Proof. destruct t; vm_compute; reflexivity. Qed.

Section RoundTrip.
Variable float_of_literal : pystr -> option pyfloat.

Lemma to_dict_plain (m : Message) :
  is_valid m = Ok true ->
  simple_value float_of_literal (JFloat (timestamp m)) ->
  exists kvs,
    to_dict m = JObj kvs /\ kvs <> [] /\ dict_of kvs [] = kvs /\
    Forall (fun kv => forallb encodable (fst kv) = true /\
                      simple_value float_of_literal (snd kv)) kvs.
Proof.
  intros Hvalid Hts.
  destruct (valid_checksum m Hvalid) as (data & Henc & Hchk).
  apply encode_encodable in Henc. unfold checksum_data in Henc.
  rewrite !forallb_app, !andb_true_iff in Henc.
  destruct Henc as (Hid & _ & Hsnd & Hcnt & _).
  destruct (checksum_shape data) as (_ & Hhex). rewrite <- Hchk in Hhex.
  apply ascii_encodable in Hhex.
  eexists. split; [reflexivity|]. split; [discriminate|].
  split; [vm_compute; reflexivity|].
  repeat (apply Forall_cons; [split; [reflexivity|]|]); try apply Forall_nil;
    cbn [snd]; try exact Hts; cbn [simple_value]; auto.
  destruct (msg_type m); reflexivity.
Qed.


Lemma payload_read (m : Message) :
  is_valid m = Ok true ->
  simple_value float_of_literal (JFloat (timestamp m)) ->
  exists payload,
    json_payload m = Ok payload /\
    from_bytes float_of_literal payload = Ok m.
Proof.
  intros Hvalid Hts.
  destruct (to_dict_plain m Hvalid Hts) as (kvs & Hdict & Hne & Hof & Hall).
  destruct (valid_checksum m Hvalid) as (data & _ & Hchk).
  destruct (checksum_shape data) as (Hlen & _). rewrite <- Hchk in Hlen.
  set (text := Json.dumps (py ",") (py ":") (to_dict m)).
  assert (Hascii : ascii_only text = true).
  { unfold text. rewrite Hdict.
    apply (dumps_object_ascii float_of_literal); [reflexivity | reflexivity |].
    eapply Forall_impl; [|exact Hall]. intros kv H. exact (proj2 H). }
  assert (Hloads : Json.loads float_of_literal text = Ok (JObj kvs)).
  { unfold text. rewrite Hdict.
    change (py ",") with (44%N :: []). change (py ":") with (58%N :: []).
    rewrite (loads_dumps_object float_of_literal [] [] kvs eq_refl eq_refl
               Hne Hall).
    rewrite Hof. reflexivity. }
  assert (Hpayload : json_payload m = Ok text).
  { unfold json_payload. fold text. apply encode_ascii, Hascii. }
  exists text. split; [exact Hpayload|].
  unfold from_bytes, from_bytes_try.
  rewrite (decode_ascii text Hascii). cbn [bind]. rewrite Hloads.
  cbn [bind]. clear Hloads Hpayload Hascii text.
  unfold to_dict in Hdict. injection Hdict as <-.
  change (dict_get (py "msg_type")
            [(py "msg_id", JStr (msg_id m));
             (py "msg_type", JStr (value (msg_type m)));
             (py "sender", JStr (sender m));
             (py "content", JStr (content m));
             (py "timestamp", JFloat (timestamp m));
             (py "checksum", JStr (checksum m));
             (py "priority", JInt (priority m));
             (py "sequence_number", JInt (sequence_number m))])
    with (Some (JStr (value (msg_type m)))).
  cbv beta iota. rewrite MessageType_of_value. cbn [bind].
  destruct m as [id t snd cnt ts chk prio seq].
  cbn [msg_id msg_type sender content timestamp checksum priority
       sequence_number] in *.
  destruct chk as [|c chk]; [discriminate|].
  vm_compute. reflexivity.
Qed.

Lemma decoded_simple (x : pyfloat) :
  reads_back float_of_literal x ->
  simple_value float_of_literal (JFloat (decoded_float x)).
Proof.
  destruct x as [q r|b|i]; intros H; split; (exact H || reflexivity || exact I).
Qed.

Lemma decoded_payload (m : Message) : json_payload (decoded m) = json_payload m.
Proof.
  destruct m as [id t snd cnt ts chk prio seq]. destruct ts; reflexivity.
Qed.

Lemma decoded_valid (m : Message) : is_valid (decoded m) = is_valid m.
Proof.
  destruct m as [id t snd cnt ts chk prio seq]. destruct ts; reflexivity.
Qed.

Lemma decoded_same (m : Message) : is_nan (timestamp m) = false -> decoded m = m.
Proof.
  destruct m as [id t snd cnt ts chk prio seq].
  destruct ts; intros H; [reflexivity | reflexivity | discriminate H].
Qed.

Lemma float_eq_refl (x : pyfloat) : float_eq x x = negb (is_nan x).
Proof.
  destruct x as [q r|b|i]; cbn [float_eq is_nan negb];
    [apply Qeq_bool_iff; reflexivity | apply Bool.eqb_reflx | reflexivity].
Qed.

Lemma message_eq_decoded (tuples : bool) (m : Message) :
  message_eq tuples (decoded m) m
  = negb (is_nan (timestamp m)) || tuples && same_nan (NaNObject 0) (timestamp m).
Proof.
  unfold message_eq, decoded, MessageType_same.
  cbn [set_timestamp msg_id msg_type sender content timestamp checksum
       priority sequence_number].
  rewrite !pystr_eqb_refl, !Z.eqb_refl, !andb_true_r. cbn [andb].
  destruct (timestamp m) as [q r|b|i]; cbn [decoded_float is_nan negb orb];
    [rewrite float_eq_refl | rewrite float_eq_refl |]; reflexivity.
Qed.

(** C8 (amended): let a message be valid: its checksum verifies and its two
    integers are within the digits that [str] prints (beyond them
    [is_valid] and [to_bytes] raise ValueError), its timestamp being a finite
    float (which [repr] prints as a float token that [float()] reads back),
    an infinity or a NaN.  Then [from_bytes] applied to the JSON payload that
    [to_bytes] frames returns a message whose checksum verifies and whose
    fields are those of the message, the timestamp apart when it is a NaN:
    the decoded message then holds the NaN of the decoder.  The decoded
    message is the message itself when the timestamp is not a NaN; when it
    is one, the two compare equal only if the message holds the very NaN of
    the decoder and the fields are compared as tuples.  The frame [to_bytes]
    returns is the payload behind its length on four big-endian octets. *)
Theorem from_bytes_to_bytes (m : Message) :
  is_valid m = Ok true ->
  within_str_digits (priority m) ->
  within_str_digits (sequence_number m) ->
  reads_back float_of_literal (timestamp m) ->
  exists payload,
    json_payload m = Ok payload /\
    from_bytes float_of_literal payload = Ok (decoded m) /\
    (m' <- from_bytes float_of_literal payload ;; is_valid m') = Ok true /\
    (is_nan (timestamp m) = false -> decoded m = m) /\
    (forall tuples : bool,
       message_eq tuples (decoded m) m
       = negb (is_nan (timestamp m))
         || tuples && same_nan (NaNObject 0) (timestamp m)) /\
    ((N.of_nat (length payload) < 2 ^ 32)%N ->
     to_bytes m
     = Ok (Sha256.be_bytes 4 (N.of_nat (length payload)) ++ payload)).
Proof.
  intros Hvalid _ _ Hts.
  assert (Hvalid' : is_valid (decoded m) = Ok true)
    by (rewrite decoded_valid; exact Hvalid).
  destruct (payload_read (decoded m) Hvalid' (decoded_simple _ Hts))
    as (payload & Hpayload & Hfrom).
  rewrite decoded_payload in Hpayload.
  exists payload. split; [exact Hpayload|]. split; [exact Hfrom|].
  split; [rewrite Hfrom; exact Hvalid'|].
  split; [apply decoded_same|].
  split; [intros tuples; apply message_eq_decoded|].
  intros Hsize. unfold to_bytes. rewrite Hpayload. cbn [bind].
  unfold pack_u32. rewrite (proj2 (N.ltb_lt _ _) Hsize). reflexivity.
Qed.

End RoundTrip.

End ProtocolProps.

(** The payload of the sample message, character for character. *)
Example sample_payload :
  Protocol.json_payload sample_message
  = Ok (pyq "{'msg_id':'chat_1700000000_1234','msg_type':'chat','sender':'alice','content':'hi \'there\'\u00e9\n\ud83d\ude00','timestamp':1700000000.5,'checksum':'7f9e21569f42b431','priority':1,'sequence_number':-7}").
Proof. vm_compute. reflexivity. Qed.

Lemma from_bytes_to_bytes_witness :
  exists payload,
    Protocol.json_payload sample_message = Ok payload /\
    Protocol.from_bytes sample_float_of_literal payload
    = Ok (decoded sample_message) /\
    (m' <- Protocol.from_bytes sample_float_of_literal payload ;;
     Protocol.is_valid m') = Ok true /\
    (is_nan (Protocol.timestamp sample_message) = false ->
     decoded sample_message = sample_message) /\
    (forall tuples : bool,
       Protocol.message_eq tuples (decoded sample_message) sample_message
       = negb (is_nan (Protocol.timestamp sample_message))
         || tuples && same_nan (NaNObject 0)
                        (Protocol.timestamp sample_message)) /\
    ((N.of_nat (length payload) < 2 ^ 32)%N ->
     Protocol.to_bytes sample_message
     = Ok (Sha256.be_bytes 4 (N.of_nat (length payload)) ++ payload)).
Proof.
  apply (ProtocolProps.from_bytes_to_bytes sample_float_of_literal
           sample_message).
  - vm_compute. reflexivity.
  - vm_compute. reflexivity.
  - vm_compute. reflexivity.
  - vm_compute. split; reflexivity.
Defined.

(** A valid message with a NaN timestamp: the payload is decoded to a valid
    message that is not equal to it, however the fields are compared. *)
Lemma nan_round_trip_differs :
  Protocol.is_valid nan_message = Ok true /\
  Protocol.json_payload nan_message
  = Ok (pyq "{'msg_id':'chat_1700000000_1234','msg_type':'chat','sender':'alice','content':'hello','timestamp':NaN,'checksum':'ef742b480a6ce047','priority':1,'sequence_number':0}") /\
  (payload <- Protocol.json_payload nan_message ;;
   Protocol.from_bytes sample_float_of_literal payload)
  = Ok (decoded nan_message) /\
  Protocol.is_valid (decoded nan_message) = Ok true /\
  Protocol.message_eq true (decoded nan_message) nan_message = false /\
  Protocol.message_eq false (decoded nan_message) nan_message = false.
Proof. vm_compute. repeat split; reflexivity. Qed.

(** ** The two checksum functions *)

Lemma hex_digit_lower (d : N) :
  (d < 16)%N -> is_lower_hex (Sha256.hex_digit d) = true.
Proof.
  intros H. unfold Sha256.hex_digit, is_lower_hex.
  destruct (N.ltb_spec d 10); apply orb_true_iff; [left | right];
    apply andb_true_iff; split; apply N.leb_le; lia.
Qed.

Lemma hexdigest_lower (msg : bytes) :
  forallb is_lower_hex (Sha256.hexdigest msg) = true.
Proof.
  unfold Sha256.hexdigest. induction (Sha256.digest msg) as [|b bs IH];
    [reflexivity|].
  cbn [flat_map]. rewrite forallb_app, IH. unfold Sha256.hex_byte.
  cbn [forallb]. rewrite !hex_digit_lower by (apply N.mod_lt; discriminate).
  reflexivity.
Qed.

Lemma str_of_int_nonempty (z : Z) : str_of_int z <> [].
Proof. apply str_of_int_token. Qed.

(** C1 (amended): the protocol module's [calculate_checksum] returns the
    first 16 hexadecimal digits of the SHA-256 digest of the UTF-8 encoding
    of msg_id, type value, sender, content, timestamp, priority and
    sequence_number written one after the other; the server's class, which
    has no priority and no sequence_number, hashes the first five only, so
    the text it hashes is a proper prefix of the protocol's and the two
    functions are not the same. *)
Theorem checksum_of_both_classes
  (id : pystr) (t : Server.MessageType) (snd cnt : pystr) (ts : pyfloat)
  (chk : pystr) (prio seq : Z) :
  let mp := {| Protocol.msg_id := id; Protocol.msg_type := shared_type t;
               Protocol.sender := snd; Protocol.content := cnt;
               Protocol.timestamp := ts; Protocol.checksum := chk;
               Protocol.priority := prio; Protocol.sequence_number := seq |} in
  let ms := {| Server.msg_id := id; Server.msg_type := t;
               Server.sender := snd; Server.content := cnt;
               Server.timestamp := ts; Server.checksum := chk |} in
  Protocol.calculate_checksum mp
  = (data <- encode_utf8 (id ++ Server.value t ++ snd ++ cnt ++ float_repr ts
                          ++ str_of_int prio ++ str_of_int seq) ;;
     Ok (firstn 16 (Sha256.hexdigest data))) /\
  Server.calculate_checksum ms
  = (data <- encode_utf8 (id ++ Server.value t ++ snd ++ cnt ++ float_repr ts) ;;
     Ok (firstn 16 (Sha256.hexdigest data))) /\
  (forall c, Protocol.calculate_checksum mp = Ok c \/
             Server.calculate_checksum ms = Ok c ->
             length c = 16%nat /\ forallb is_lower_hex c = true) /\
  Protocol.checksum_data mp
  = Server.checksum_data ms ++ str_of_int prio ++ str_of_int seq /\
  str_of_int prio ++ str_of_int seq <> [].
Proof.
  intros mp ms.
  assert (Hval : Protocol.value (shared_type t) = Server.value t)
    by (destruct t; reflexivity).
  assert (Hshape : forall data,
            length (firstn 16 (Sha256.hexdigest data)) = 16%nat /\
            forallb is_lower_hex (firstn 16 (Sha256.hexdigest data)) = true).
  { intros data. split.
    - rewrite length_firstn, hexdigest_length. reflexivity.
    - apply ProtocolProps.forallb_firstn, hexdigest_lower. }
  split; [|split; [|split; [|split]]].
  - unfold Protocol.calculate_checksum, Protocol.checksum_data, mp.
    cbn [Protocol.msg_id Protocol.msg_type Protocol.sender Protocol.content
         Protocol.timestamp Protocol.priority Protocol.sequence_number].
    rewrite Hval. reflexivity.
  - reflexivity.
  - intros c [H|H].
    + unfold Protocol.calculate_checksum in H.
      destruct (encode_utf8 (Protocol.checksum_data mp)); [|discriminate].
      cbn [bind] in H. injection H as <-. apply Hshape.
    + unfold Server.calculate_checksum in H.
      destruct (encode_utf8 (Server.checksum_data ms)); [|discriminate].
      cbn [bind] in H. injection H as <-. apply Hshape.
  - unfold Protocol.checksum_data, Server.checksum_data, mp, ms.
    cbn [Protocol.msg_id Protocol.msg_type Protocol.sender Protocol.content
         Protocol.timestamp Protocol.priority Protocol.sequence_number
         Server.msg_id Server.msg_type Server.sender Server.content
         Server.timestamp].
    rewrite Hval, <- !app_assoc. reflexivity.
  - intros H. apply app_eq_nil in H. apply (str_of_int_nonempty prio), H.
Qed.

(** C1, as stated, fails: on the same chat message the protocol module's
    checksum is 7f9e21569f42b431 and the server's is 548d3f4215338eb5. *)
Lemma checksums_differ :
  Protocol.calculate_checksum sample_message = Ok (py "7f9e21569f42b431") /\
  Server.calculate_checksum sample_message_on_server
  = Ok (py "548d3f4215338eb5") /\
  Protocol.calculate_checksum sample_message
  <> Server.calculate_checksum sample_message_on_server.
Proof.
  split; [vm_compute; reflexivity|].
  split; [vm_compute; reflexivity|].
  vm_compute. discriminate.
Qed.

Module ServerProps.
Import Server.

(** Frames and digests are never unfolded in the proofs about connections. *)
#[local] Opaque to_bytes new_Message.

Lemma send_raw_control (m : Message) (c : ClientConnection) :
  congestion_control (_send_raw m c) = congestion_control c /\
  expected_ack (_send_raw m c) = expected_ack c /\
  pending_messages (_send_raw m c) = pending_messages c /\
  send_queue (_send_raw m c) = send_queue c.
Proof.
  unfold _send_raw. destruct (to_bytes m); [destruct (sock_open c)|];
    simpl; auto.
Qed.

Lemma retransmit_one_ok (t : Q) (c : ClientConnection) (id : pystr) :
  conn_ok c -> conn_ok (retransmit_one t c id).
Proof.
  unfold conn_ok, retransmit_one. intros H.
  destruct (dict_get id (pending_messages c)) as [[m t0]|]; [|exact H].
  simpl. destruct (send_raw_control m c) as (Hcc & He & _).
  rewrite Hcc, He. apply ack_inv_timeout. exact H.
Qed.

Lemma retransmit_all_ok (t : Q) (ids : list pystr) :
  forall c, conn_ok c -> conn_ok (fold_left (retransmit_one t) ids c).
Proof.
  induction ids as [|id ids IH]; intros c H; simpl; [exact H|].
  apply IH. apply retransmit_one_ok. exact H.
Qed.

Lemma send_new_control (n : nat) (t : Q) :
  forall c,
    congestion_control (send_new n t c) = congestion_control c /\
    expected_ack (send_new n t c) = expected_ack c.
Proof.
  induction n as [|n IH]; intros c; simpl; [auto|].
  destruct (send_queue c) as [|m q]; [auto|].
  destruct (send_raw_control m (with_queue q c)) as (Hcc & He & _).
  destruct (is_ack (msg_type m)).
  - destruct (IH (_send_raw m (with_queue q c))) as (H1 & H2).
    rewrite H1, H2, Hcc, He. auto.
  - match goal with |- context [send_new n t ?x] =>
      destruct (IH x) as (H1 & H2) end.
    rewrite H1, H2. simpl. rewrite Hcc, He. auto.
Qed.

Lemma sender_worker_ok (t : Q) (c : ClientConnection) :
  conn_ok c -> conn_ok (_sender_worker t c).
Proof.
  intros H. unfold _sender_worker. destruct (running c); [|exact H].
  unfold sender_pass, conn_ok.
  match goal with |- context [send_new ?n t ?x] =>
    destruct (send_new_control n t x) as (H1 & H2) end.
  rewrite H1, H2. apply retransmit_all_ok. exact H.
Qed.

Section WithFloats.
Variable float_of_literal : pystr -> option pyfloat.

Lemma handle_ack_ok (now : Q) (m : Message) (c : ClientConnection) :
  conn_ok c -> conn_ok (handle_ack float_of_literal now m c).
Proof.
  intros H. unfold handle_ack.
  destruct (ack_for float_of_literal (content m)) as [id|]; [|exact H].
  destruct (dict_get id (pending_messages c)) as [[m0 t0]|]; [|exact H].
  destruct (ack_inv_expected (expected_ack c) (now - t0) _ H)
    as (cc' & Hret & Hinv).
  rewrite Hret. unfold conn_ok. simpl. exact Hinv.
Qed.

Lemma conn_step_ok (c : ClientConnection) (e : conn_event) :
  conn_ok c -> conn_ok (conn_step float_of_literal c e).
Proof.
  intros H. destruct e as [m|t|now m|]; simpl.
  - unfold send_message. destruct (running c); exact H.
  - apply sender_worker_ok. exact H.
  - apply handle_ack_ok. exact H.
  - exact H.
Qed.

Lemma conn_run_ok (es : list conn_event) :
  forall c, conn_ok c -> conn_ok (conn_run float_of_literal es c).
Proof.
  induction es as [|e es IH]; intros c H; simpl; [exact H|].
  apply IH. apply conn_step_ok. exact H.
Qed.

(** C10: on a connection that starts fresh, whatever messages are queued,
    whatever turns the sender loop takes (with their timeouts), whatever ACKs
    are handled and whenever the peer goes away, the controller's duplicate
    counter never exceeds 1 and the controller is never in FAST_RECOVERY;
    every ACK that matches a pending message hands the controller the
    connection's own [expected_ack] and increments it. *)
Theorem server_never_fast_recovers
  (id : pystr) (t0 : Q) (es : list conn_event) :
  (duplicate_acks
     (congestion_control
        (conn_run float_of_literal es (ClientConnection_init id t0))) <= 1)%Z /\
  state (congestion_control
           (conn_run float_of_literal es (ClientConnection_init id t0)))
  <> FAST_RECOVERY /\
  (forall (now : Q) (ack_message : Message) (ack_id : pystr)
          (m : Message) (send_time : Q),
     let c := conn_run float_of_literal es (ClientConnection_init id t0) in
     ack_for float_of_literal (content ack_message) = Some ack_id ->
     dict_get ack_id (pending_messages c) = Some (m, send_time) ->
     on_ack_received (expected_ack c) (now - send_time) (congestion_control c)
     = Returned
         (congestion_control (handle_ack float_of_literal now ack_message c)) /\
     expected_ack (handle_ack float_of_literal now ack_message c)
     = (expected_ack c + 1)%Z).
Proof.
  assert (H : conn_ok (conn_run float_of_literal es (ClientConnection_init id t0))).
  { apply conn_run_ok. unfold conn_ok. simpl. apply ack_inv_init. }
  split; [|split].
  - destruct H as (Hd & _). lia.
  - destruct H as (_ & Hs & _). exact Hs.
  - intros now ack_message ack_id m send_time.
    set (c := conn_run float_of_literal es (ClientConnection_init id t0)) in *.
    cbv zeta. intros Hid Hp.
    destruct (ack_inv_expected (expected_ack c) (now - send_time) _ H)
      as (cc' & Hret & _).
    unfold handle_ack. rewrite Hid, Hp, Hret.
    split; reflexivity.
Qed.

End WithFloats.

(** *** Retransmission *)

Lemma transmissions_one_pending (id : pystr) (m : Message) (k : nat) (t : Q)
                                (cc : CongestionControl) :
  transmissions (msg_id m) (one_pending id m k t cc) = k.
Proof.
  unfold transmissions. simpl wire.
  induction k as [|k IH]; [reflexivity|].
  simpl. rewrite pystr_eqb_refl. simpl. rewrite IH. reflexivity.
Qed.

(** The first turn sends the queued message and records it as pending. *)
Lemma first_turn (id : pystr) (m : Message) (frame : bytes) (t : Q) :
  is_ack (msg_type m) = false ->
  to_bytes m = Ok frame ->
  _sender_worker t (send_message m (ClientConnection_init id 0))
  = one_pending id m 1 t CongestionControl_init.
Proof.
  intros Hna Hfr. unfold _sender_worker, send_message. simpl running.
  cbv iota. unfold sender_pass, to_retransmit. simpl pending_messages.
  simpl filter. simpl map. simpl fold_left. simpl pending_messages.
  simpl length. simpl congestion_control.
  change (Z.to_nat (Z.max 0 (int_of_Q (cwnd CongestionControl_init) - Z.of_nat 0)))
    with 1%nat.
  simpl send_new. unfold _send_raw. rewrite Hfr, Hna. reflexivity.
Qed.

Lemma retransmit_one_pending (id : pystr) (m : Message) (frame : bytes)
                             (k : nat) (t now : Q) (cc : CongestionControl) :
  to_bytes m = Ok frame ->
  retransmit_one now (one_pending id m k t cc) (msg_id m)
  = one_pending id m (S k) now (on_timeout cc).
Proof.
  intros Hfr. unfold retransmit_one, one_pending.
  cbn [pending_messages dict_get]. rewrite pystr_eqb_refl.
  unfold _send_raw. rewrite Hfr. cbn [sock_open].
  unfold with_wire, with_pending, with_cc.
  cbn [pending_messages dict_set congestion_control client_id username
       send_queue last_heartbeat sequence_number expected_ack running
       sock_open wire].
  rewrite pystr_eqb_refl. f_equal.
  symmetry. apply (repeat_cons k m).
Qed.

(** A later turn, once the timer of the pending message has expired, sends it
    again, keeps it pending and resets the window. *)
Lemma expired_turn (id : pystr) (m : Message) (frame : bytes) (k : nat) (t : Q)
                   (cc : CongestionControl) :
  to_bytes m = Ok frame ->
  _sender_worker (t + rto cc + 1) (one_pending id m k t cc)
  = one_pending id m (S k) (t + rto cc + 1) (on_timeout cc).
Proof.
  intros Hfr. unfold _sender_worker.
  change (running (one_pending id m k t cc)) with true. cbv iota.
  unfold sender_pass.
  assert (Hids : to_retransmit (t + rto cc + 1) (one_pending id m k t cc)
                 = [msg_id m]).
  { unfold to_retransmit, one_pending.
    cbn [pending_messages congestion_control filter snd].
    assert (Hexp : Qgtb (t + rto cc + 1 - t) (rto cc) = true)
      by (apply Qgtb_true; lra).
    rewrite Hexp. reflexivity. }
  rewrite Hids. cbn [fold_left].
  rewrite (retransmit_one_pending id m frame k t _ cc Hfr).
  reflexivity.
Qed.

Lemma expired_turns (id : pystr) (m : Message) (frame : bytes) (n : nat) :
  to_bytes m = Ok frame ->
  forall (k : nat) (t : Q) (cc : CongestionControl),
  exists t' cc',
    run_turns (backoff_from (t + rto cc + 1) (rto cc * 2) n)
              (one_pending id m k t cc)
    = one_pending id m (n + k) t' cc'.
Proof.
  intros Hfr. induction n as [|n IH]; intros k t cc.
  - exists t, cc. reflexivity.
  - simpl backoff_from. unfold run_turns. simpl fold_left.
    rewrite (expired_turn id m frame k t cc Hfr).
    destruct (IH (S k) (t + rto cc + 1) (on_timeout cc)) as (t' & cc' & H).
    exists t', cc'. unfold run_turns in H. simpl rto in H. rewrite H.
    f_equal. lia.
Qed.

(** C3 (amended): the server has no retransmission cap.  For every number
    [n], a non-ACK message (one that [to_bytes] can frame) that stays
    unacknowledged while the sender loop takes [n + 1] turns, each of the
    later ones after the timer has expired, is transmitted [n + 1] times and
    is still pending. *)
Theorem no_retransmission_cap
  (id : pystr) (m : Message) (frame : bytes) (n : nat) :
  is_ack (msg_type m) = false ->
  to_bytes m = Ok frame ->
  transmissions (msg_id m)
    (run_turns (backoff_times (S n))
               (send_message m (ClientConnection_init id 0))) = S n /\
  dict_mem (msg_id m)
    (pending_messages
       (run_turns (backoff_times (S n))
                  (send_message m (ClientConnection_init id 0)))) = true.
Proof.
  intros Hna Hfr. unfold backoff_times. simpl backoff_from.
  unfold run_turns. simpl fold_left.
  rewrite (first_turn id m frame 0 Hna Hfr).
  destruct (expired_turns id m frame n Hfr 1%nat 0 CongestionControl_init)
    as (t' & cc' & H).
  unfold run_turns in H. simpl rto in H. rewrite H.
  rewrite transmissions_one_pending. split; [lia|].
  unfold dict_mem. simpl. rewrite pystr_eqb_refl. reflexivity.
Qed.

Lemma no_retransmission_cap_witness :
  transmissions (msg_id sample_notice)
    (run_turns (backoff_times 5)
       (send_message sample_notice
          (ClientConnection_init (py "client_1700000000_1000") 0))) = 5%nat /\
  dict_mem (msg_id sample_notice)
    (pending_messages
       (run_turns (backoff_times 5)
          (send_message sample_notice
             (ClientConnection_init (py "client_1700000000_1000") 0)))) = true.
Proof.
  apply (no_retransmission_cap (py "client_1700000000_1000") sample_notice
           sample_frame 4);
    [reflexivity | vm_compute; reflexivity].
Defined.

(** C3, as stated, fails: sender turns at 0, 4, 11, 24 and 49 seconds put the
    same unacknowledged notice on the wire five times, one more than
    MAX_RETRANSMISSIONS + 1, and it is still pending. *)
Lemma fifth_transmission :
  transmissions (msg_id sample_notice)
    (run_turns [0; 4; 11; 24; 49]
       (send_message sample_notice
          (ClientConnection_init (py "client_1700000000_1000") 0))) = 5%nat /\
  (Z.of_nat 5 > Protocol.MAX_RETRANSMISSIONS + 1)%Z /\
  dict_mem (msg_id sample_notice)
    (pending_messages
       (run_turns [0; 4; 11; 24; 49]
          (send_message sample_notice
             (ClientConnection_init (py "client_1700000000_1000") 0)))) = true.
Proof. vm_compute. repeat split. Qed.

(** *** The estimator and retransmitted messages *)

Lemma on_ack_received_estimator (a : Z) (r : Q) (cc : CongestionControl) :
  srtt (state_of (on_ack_received a r cc)) = fst (jacobson r cc) /\
  rttvar (state_of (on_ack_received a r cc)) = snd (jacobson r cc).
Proof.
  unfold on_ack_received.
  change (last_ack (update_rtt r cc)) with (last_ack cc).
  destruct (a >? last_ack cc)%Z.
  - change (state (note_new_ack a (update_rtt r cc))) with (state cc).
    destruct (state cc).
    + match goal with |- context [if ?b then _ else _] => destruct b end;
        split; reflexivity.
    + match goal with |- context [if ?b then _ else _] => destruct b end;
        split; reflexivity.
    + split; reflexivity.
  - destruct (a =? last_ack cc)%Z; [|split; reflexivity].
    match goal with |- context [if ?b then _ else _] => destruct b end;
      [split; reflexivity|].
    change (state (note_dup_ack (update_rtt r cc))) with (state cc).
    destruct (state cc); split; reflexivity.
Qed.

(** C2 (amended): handling the ACK of a pending message always feeds the
    estimator the sample [now - send_time], where [send_time] is the time of
    the message's latest transmission, whether or not the message was
    retransmitted: the first sample sets srtt to it and rttvar to half of it,
    a later one moves them by the Jacobson rule. *)
Theorem ack_always_feeds_estimator
  (float_of_literal : pystr -> option pyfloat)
  (now : Q) (ack_message : Message) (c : ClientConnection)
  (id : pystr) (m : Message) (send_time : Q) :
  ack_for float_of_literal (content ack_message) = Some id ->
  dict_get id (pending_messages c) = Some (m, send_time) ->
  let cc := congestion_control c in
  let cc' := congestion_control (handle_ack float_of_literal now ack_message c) in
  let rtt := now - send_time in
  (rtt_samples cc = [] -> srtt cc' == rtt /\ rttvar cc' == rtt / 2) /\
  (rtt_samples cc <> [] ->
     srtt cc' == (7 # 8) * srtt cc + (1 # 8) * rtt /\
     rttvar cc' == (3 # 4) * rttvar cc + (1 # 4) * Qabs (srtt cc - rtt)).
Proof.
  intros Hid Hp cc cc' rtt.
  assert (Hest : srtt cc' = fst (jacobson rtt cc) /\
                 rttvar cc' = snd (jacobson rtt cc)).
  { unfold cc', handle_ack. rewrite Hid, Hp.
    pose proof (on_ack_received_estimator (expected_ack c) (now - send_time)
                  (congestion_control c)) as H.
    destruct (on_ack_received (expected_ack c) (now - send_time)
                (congestion_control c)); exact H. }
  destruct Hest as (Hs & Hv). rewrite Hs, Hv. unfold jacobson.
  split.
  - intros Hnil. rewrite Hnil. simpl. split; reflexivity.
  - intros Hne. destruct (rtt_samples cc) as [|r0 rs]; [congruence|].
    cbn [fst snd]. generalize (Qabs (srtt cc - rtt)). intros dev.
    split; field.
Qed.

Lemma ack_always_feeds_estimator_witness :
  rtt_samples (congestion_control retransmitted_once) = [] /\
  srtt (congestion_control
          (handle_ack (fun _ => None) 5 sample_ack retransmitted_once))
  == 5 - 4.
Proof.
  split; [reflexivity|].
  apply (ack_always_feeds_estimator (fun _ => None) 5 sample_ack
           retransmitted_once (msg_id sample_notice) sample_notice 4);
    [vm_compute; reflexivity | vm_compute; reflexivity | reflexivity].
Defined.

(** C2, as stated, fails: the notice was put on the wire twice (at 0 and at
    4), and handling its ACK at 5 moves srtt from 0 to 1 and rttvar from 0
    to 1/2. *)
Lemma karn_rule_violated :
  transmissions (msg_id sample_notice) retransmitted_once = 2%nat /\
  ~ (srtt (congestion_control
             (handle_ack (fun _ => None) 5 sample_ack retransmitted_once))
     == srtt (congestion_control retransmitted_once)) /\
  ~ (rttvar (congestion_control
               (handle_ack (fun _ => None) 5 sample_ack retransmitted_once))
     == rttvar (congestion_control retransmitted_once)).
Proof.
  split; [vm_compute; reflexivity|].
  split; vm_compute; discriminate.
Qed.

(** *** JOIN and the username *)

Lemma on_client_get (id : pystr) (f : ClientConnection -> ClientConnection)
                    (s : ChatServer) (c : ClientConnection) :
  dict_get id (clients s) = Some c ->
  dict_get id (clients (on_client id f s)) = Some (f c).
Proof.
  intros H. unfold on_client. rewrite H. cbn [clients with_clients].
  apply dict_get_set_eq.
Qed.

Lemma broadcast_skips_origin (st : stamp) (text id : pystr) (s : ChatServer) :
  dict_get id (clients (state_of (_broadcast_message st text (Some id) s)))
  = dict_get id (clients s).
Proof.
  unfold _broadcast_message.
  destruct (new_Message _ _ _ _ _) as [message|e]; [|reflexivity].
  cbn [state_of clients with_clients].
  induction (clients s) as [|[k c] d IH]; [reflexivity|].
  cbn [map fst snd dict_get]. rewrite (pystr_eqb_sym k id).
  destruct (pystr_eqb id k) eqn:E.
  - cbn [negb andb dict_get]. rewrite E. reflexivity.
  - cbn [negb andb]. destruct (running c); cbn [dict_get fst]; rewrite E;
      exact IH.
Qed.

Lemma allowed_chars_spec (c : N) :
  existsb (N.eqb c) Protocol.allowed_chars = name_char c.
Proof.
  destruct (N.lt_ge_cases c 123) as [Hlt|Hge].
  - assert (Hall : forallb
                     (fun n => Bool.eqb
                                 (existsb (N.eqb (N.of_nat n))
                                          Protocol.allowed_chars)
                                 (name_char (N.of_nat n)))
                     (seq 0 123) = true) by (vm_compute; reflexivity).
    rewrite forallb_forall in Hall.
    specialize (Hall (N.to_nat c)).
    rewrite N2Nat.id in Hall. apply Bool.eqb_prop, Hall.
    apply in_seq. lia.
  - assert (Hn : name_char c = false).
    { unfold name_char.
      repeat match goal with
             | |- context [(?a <=? ?b)%N] =>
                 destruct (N.leb_spec a b); try lia
             | |- context [(?a =? ?b)%N] =>
                 destruct (N.eqb_spec a b); try lia
             end; reflexivity. }
    rewrite Hn. apply not_true_is_false. intros H.
    apply existsb_exists in H. destruct H as (x & Hin & Hx).
    apply N.eqb_eq in Hx. subst x.
    assert (Hsmall : forallb (fun x => N.ltb x 123) Protocol.allowed_chars = true)
      by (vm_compute; reflexivity).
    rewrite forallb_forall in Hsmall. specialize (Hsmall c Hin).
    apply N.ltb_lt in Hsmall. lia.
Qed.

Lemma validate_username_spec (u : pystr) :
  Protocol.validate_username u = true <-> username_rule u.
Proof.
  unfold Protocol.validate_username, username_rule.
  destruct u as [|c u]; [simpl; split; [discriminate | lia]|].
  set (name := c :: u).
  destruct (Nat.ltb_spec (length name) 1) as [E1|E1];
    [unfold name in E1; simpl in E1; lia|].
  destruct (Nat.ltb_spec 32 (length name)) as [E2|E2];
    [cbn [orb]; split; [discriminate | intros (H & _); lia]|].
  cbn [orb].
  destruct (forallb (fun c0 => existsb (N.eqb c0) Protocol.allowed_chars) name)
    eqn:E3; cbn [negb].
  - rewrite forallb_forall in E3.
    assert (Hall : Forall (fun c0 => name_char c0 = true) name).
    { apply Forall_forall. intros x Hx. rewrite <- allowed_chars_spec.
      apply E3, Hx. }
    unfold name at 1. cbn [Protocol.startswith_hyphen].
    destruct (N.eqb_spec c 45) as [H45|H45].
    + split; [discriminate|]. intros (_ & _ & Hhd). simpl in Hhd. congruence.
    + split; [|reflexivity]. intros _. repeat split; try lia; assumption.
  - split; [discriminate|]. intros (_ & Hall & _).
    rewrite Forall_forall in Hall.
    assert (E3' : forallb (fun c0 => existsb (N.eqb c0) Protocol.allowed_chars)
                          name = true).
    { apply forallb_forall. intros x Hx. rewrite allowed_chars_spec.
      apply Hall, Hx. }
    congruence.
Qed.

(** C7 (amended): the server does not consult the username validator.  For
    every JOIN received from a registered connection, [_process_message]
    sets that connection's username to the content of the message, whatever
    it is, and leaves the connection registered, running and open (the clock
    reading stamped on the ACK prints, as every float does, in ASCII).  The
    validator of the protocol module accepts exactly the names of 1 to 32
    characters among letters, digits, underscore and hyphen that do not
    start with a hyphen. *)
Theorem join_sets_username_unchecked
  (float_of_literal : pystr -> option pyfloat)
  (env : readings) (id : pystr) (message : Message)
  (s : ChatServer) (c : ClientConnection) :
  msg_type message = JOIN ->
  dict_get id (clients s) = Some c ->
  ascii_only (float_repr (clock_ts (ack_stamp env))) = true ->
  (exists c',
     dict_get id
       (clients (state_of (_process_message float_of_literal env id message s)))
     = Some c' /\
     username c' = content message /\
     running c' = running c /\
     sock_open c' = sock_open c) /\
  (forall u : pystr, Protocol.validate_username u = true <-> username_rule u).
Proof.
  intros Hjoin Hreg Hts. split; [|apply validate_username_spec].
  unfold _process_message. rewrite Hjoin. cbn [is_ack].
  destruct (new_Message_ascii (fresh_id (py "ack") (ack_stamp env)) ACK
              (py "server")
              (Json.dumps (py ", ") (py ": ")
                 (JObj [(py "ack_for", JStr (msg_id message))]))
              (clock_ts (ack_stamp env)))
    as (ack_message & Hack);
    [apply fresh_id_ascii; reflexivity | reflexivity
     | apply ack_content_ascii | exact Hts |].
  rewrite Hack.
  rewrite broadcast_skips_origin.
  pose proof (on_client_get id (with_heartbeat (now env)) s c Hreg) as H1.
  pose proof (on_client_get id (send_message ack_message) _ _ H1) as H2.
  pose proof (on_client_get id (with_username (content message)) _ _ H2) as H3.
  eexists. split; [exact H3|].
  unfold send_message. cbn [with_heartbeat running].
  destruct (running c) eqn:Er;
    (split; [reflexivity|]); (split; [simpl; exact Er | reflexivity]).
Qed.

Lemma join_sets_username_unchecked_witness :
  exists c',
    dict_get (py "client_1700000000_1000")
      (clients (state_of (_process_message (fun _ => None) sample_readings
                            (py "client_1700000000_1000") bad_join lone_client)))
    = Some c' /\
    username c' = py "-bad" /\
    running c' = true /\
    sock_open c' = true.
Proof.
  apply (join_sets_username_unchecked (fun _ => None) sample_readings
           (py "client_1700000000_1000") bad_join lone_client
           (ClientConnection_init (py "client_1700000000_1000") 0));
    reflexivity.
Defined.

(** C7, as stated, fails: a JOIN under the name [-bad], which the validator
    rejects, leaves the connection registered and running with that name. *)
Lemma hyphen_name_accepted :
  Protocol.validate_username (py "-bad") = false /\
  is_valid bad_join = Ok true /\
  exists c',
    _process_message (fun _ => None) sample_readings
      (py "client_1700000000_1000") bad_join lone_client
    = Returned {| clients := [(py "client_1700000000_1000", c')];
                  server_running := true; packet_loss_rate := 0;
                  artificial_delay := 0 |} /\
    username c' = py "-bad" /\
    running c' = true /\
    sock_open c' = true.
Proof.
  split; [reflexivity|]. split; [vm_compute; reflexivity|].
  eexists. split; [vm_compute; reflexivity|]. repeat split.
Qed.

End ServerProps.

(** * The receive path, the registry and the statistics *)

(** ** The controller: additive increase, the estimator, back-off *)

Lemma new_ack_avoidance (a : Z) (r : Q) (c : CongestionControl) :
  (last_ack c < a)%Z ->
  state c = CONGESTION_AVOIDANCE ->
  0 < cwnd c ->
  on_ack_received a r c
  = Returned (set_window (cwnd c + 1 / cwnd c) CONGESTION_AVOIDANCE
                (note_new_ack a (update_rtt r c))).
Proof.
  intros Hlt Hs Hw. unfold on_ack_received.
  change (last_ack (update_rtt r c)) with (last_ack c).
  replace (a >? last_ack c)%Z with true by (symmetry; apply Z.gtb_lt; lia).
  change (state (note_new_ack a (update_rtt r c))) with (state c).
  rewrite Hs.
  change (cwnd (note_new_ack a (update_rtt r c))) with (cwnd c).
  destruct (Qeq_bool (cwnd c) 0) eqn:E; [|reflexivity].
  apply Qeq_bool_iff in E. rewrite E in Hw. discriminate Hw.
Qed.

Lemma last_cons_default {A : Type} (l : list A) :
  forall a d : A, last (a :: l) d = last l a.
Proof.
  induction l as [|x l IH]; intros a d; [reflexivity|].
  change (last (a :: x :: l) d) with (last (x :: l) d).
  rewrite (IH x d), (IH x a). reflexivity.
Qed.

Lemma additive_step (w : Q) : 0 < w -> w <= w + 1 / w.
Proof.
  intros Hw.
  assert (Hi : 0 < / w) by (apply Qinv_lt_0_compat; exact Hw).
  unfold Qdiv. rewrite Qmult_1_l. lra.
Qed.

(** X1: in CONGESTION_AVOIDANCE with a positive window, no ACK of a run of
    new ACKs raises (the division by the window is never one by zero), and
    the run keeps the state and ssthresh, never shrinks the window, leaves
    [last_ack] at the last number acknowledged and the duplicate counter
    at 0. *)
Theorem congestion_avoidance_growth (acks : list (Z * Q)) :
  forall c : CongestionControl,
    fresh_acks (last_ack c) acks ->
    state c = CONGESTION_AVOIDANCE ->
    0 < cwnd c ->
    state (cc_run (ack_events acks) c) = CONGESTION_AVOIDANCE /\
    ssthresh (cc_run (ack_events acks) c) = ssthresh c /\
    cwnd c <= cwnd (cc_run (ack_events acks) c) /\
    last_ack (cc_run (ack_events acks) c) = last (map fst acks) (last_ack c) /\
    (acks <> [] -> duplicate_acks (cc_run (ack_events acks) c) = 0%Z) /\
    (forall (n : nat) (a : Z) (r : Q),
       nth_error acks n = Some (a, r) ->
       exists c',
         on_ack_received a r (cc_run (ack_events (firstn n acks)) c)
         = Returned c').
Proof.
  induction acks as [|[a r] acks IH]; intros c Hfresh Hs Hw.
  - cbn [ack_events map cc_run fold_left last].
    split; [exact Hs|]. split; [reflexivity|]. split; [lra|].
    split; [reflexivity|]. split; [intros H; congruence|].
    intros [|n] a r H; discriminate H.
  - destruct Hfresh as [Hlt Hfresh].
    pose proof (new_ack_avoidance a r c Hlt Hs Hw) as Hstep.
    set (c1 := set_window (cwnd c + 1 / cwnd c) CONGESTION_AVOIDANCE
                 (note_new_ack a (update_rtt r c))) in *.
    assert (Hrun : forall l, cc_run (ack_events ((a, r) :: l)) c
                             = cc_run (ack_events l) c1).
    { intros l. cbn [ack_events map fst snd]. unfold cc_run.
      cbn [fold_left cc_step]. rewrite Hstep. reflexivity. }
    pose proof (additive_step (cwnd c) Hw) as Hup.
    assert (Hc1 : cwnd c1 = cwnd c + 1 / cwnd c) by reflexivity.
    destruct (IH c1) as (Hs' & Hss' & Hmono & Hla & Hdup & Hret);
      [exact Hfresh | reflexivity | rewrite Hc1; lra |].
    rewrite Hrun.
    split; [exact Hs'|]. split; [exact Hss'|].
    split; [rewrite Hc1 in Hmono; lra|].
    split; [|split].
    + rewrite Hla. change (last_ack c1) with a.
      cbn [map fst]. symmetry. apply last_cons_default.
    + intros _. destruct acks as [|p acks]; [reflexivity|].
      apply Hdup. discriminate.
    + intros [|n] a' r' H.
      * cbn [nth_error] in H. injection H as <- <-.
        cbn [firstn ack_events map cc_run fold_left].
        exists c1. exact Hstep.
      * cbn [nth_error] in H. cbn [firstn]. rewrite Hrun.
        exact (Hret n a' r' H).
Qed.

Lemma congestion_avoidance_growth_witness :
  cwnd (set_window 4 CONGESTION_AVOIDANCE CongestionControl_init)
  <= cwnd (cc_run (ack_events [(1%Z, 1 # 10); (2%Z, 1 # 10)])
             (set_window 4 CONGESTION_AVOIDANCE CongestionControl_init)).
Proof.
  apply (congestion_avoidance_growth [(1%Z, 1 # 10); (2%Z, 1 # 10)]
           (set_window 4 CONGESTION_AVOIDANCE CongestionControl_init)).
  - simpl. lia.
  - reflexivity.
  - reflexivity.
Defined.

Lemma jacobson_bounds (lo hi r : Q) (c : CongestionControl) :
  0 <= lo -> lo <= r <= hi ->
  (rtt_samples c <> [] -> lo <= srtt c <= hi /\ 0 <= rttvar c <= hi) ->
  lo <= fst (jacobson r c) <= hi /\ 0 <= snd (jacobson r c) <= hi.
Proof.
  intros Hlo Hr Hc. unfold jacobson.
  destruct (rtt_samples c) as [|x l].
  - cbn [fst snd]. unfold Qdiv.
    setoid_replace (r * / 2) with ((1 # 2) * r) by field. lra.
  - destruct Hc as (Hs & Hv); [discriminate|]. cbn [fst snd].
    assert (Ha : 0 <= Qabs (srtt c - r) <= hi - lo).
    { split; [apply Qabs_nonneg|]. apply Qabs_Qle_condition. lra. }
    set (d := Qabs (srtt c - r)) in *.
    setoid_replace (1 - (25 # 100)) with (3 # 4) by reflexivity.
    setoid_replace (1 - (125 # 1000)) with (7 # 8) by reflexivity.
    setoid_replace (25 # 100) with (1 # 4) by reflexivity.
    setoid_replace (125 # 1000) with (1 # 8) by reflexivity.
    lra.
Qed.

Lemma update_rtt_samples_nonempty (r : Q) (c : CongestionControl) :
  (length (rtt_samples c) <= 100)%nat -> rtt_samples (update_rtt r c) <> [].
Proof.
  intros Hl. unfold update_rtt. cbn [rtt_samples].
  destruct (100 <? length (rtt_samples c ++ [r]))%nat eqn:E.
  - apply Nat.ltb_lt in E. rewrite length_app in E. cbn [length] in E.
    destruct (rtt_samples c) as [|x [|y l]]; cbn [length] in *; try lia.
    cbn [app pop0 tl]. discriminate.
  - destruct (rtt_samples c); discriminate.
Qed.

Lemma on_ack_received_estimates (a : Z) (r : Q) (c : CongestionControl) :
  srtt (state_of (on_ack_received a r c)) = fst (jacobson r c) /\
  rttvar (state_of (on_ack_received a r c)) = snd (jacobson r c) /\
  rtt_samples (state_of (on_ack_received a r c)) = rtt_samples (update_rtt r c).
Proof.
  unfold on_ack_received.
  change (last_ack (update_rtt r c)) with (last_ack c).
  destruct (a >? last_ack c)%Z.
  - change (state (note_new_ack a (update_rtt r c))) with (state c).
    change (cwnd (note_new_ack a (update_rtt r c))) with (cwnd c).
    change (ssthresh (note_new_ack a (update_rtt r c))) with (ssthresh c).
    destruct (state c).
    + destruct (Qgeb (cwnd c + 1) (ssthresh c)); repeat split.
    + destruct (Qeq_bool (cwnd c) 0); repeat split.
    + repeat split.
  - destruct (a =? last_ack c)%Z; [|repeat split].
    change (duplicate_acks (note_dup_ack (update_rtt r c)))
      with (duplicate_acks c + 1)%Z.
    destruct (duplicate_acks c + 1 =? 3)%Z; [repeat split|].
    change (state (note_dup_ack (update_rtt r c))) with (state c).
    destruct (state c); repeat split.
Qed.

(** X2: whatever ACKs and timeouts a fresh controller has seen, once an ACK
    was among them the smoothed RTT lies between the smallest and the
    largest sample fed so far and the RTT variance between 0 and the largest
    sample (samples being non-negative). *)
Theorem srtt_within_samples (lo hi : Q) (es : list cc_event) :
  0 <= lo ->
  Forall (fun r => lo <= r <= hi) (samples_of es) ->
  samples_of es <> [] ->
  lo <= srtt (cc_run es CongestionControl_init) <= hi /\
  0 <= rttvar (cc_run es CongestionControl_init) <= hi.
Proof.
  intros Hlo Hall Hne.
  assert (H : (samples_of es = [] ->
               rtt_samples (cc_run es CongestionControl_init) = []) /\
              (samples_of es <> [] ->
               rtt_samples (cc_run es CongestionControl_init) <> [] /\
               (lo <= srtt (cc_run es CongestionControl_init) <= hi /\
                0 <= rttvar (cc_run es CongestionControl_init) <= hi))).
  { clear Hne. induction es as [|e es IH] using rev_ind.
    - split; [reflexivity|]. intros H. exfalso. apply H. reflexivity.
    - rewrite samples_of_app in Hall. apply Forall_app in Hall.
      destruct Hall as (Hall & He). specialize (IH Hall).
      rewrite cc_run_snoc, samples_of_app.
      destruct (cc_run_invariant es) as ((_ & _ & _ & Hlen) & _).
      set (c := cc_run es CongestionControl_init) in *.
      destruct e as [a r|].
      + cbn [samples_of] in *. apply Forall_inv in He. split.
        * intros E. apply app_eq_nil in E. destruct E as (_ & E). discriminate E.
        * intros _. unfold cc_step.
          destruct (on_ack_received_estimates a r c) as (-> & -> & ->).
          split; [apply update_rtt_samples_nonempty; exact Hlen|].
          apply jacobson_bounds; [exact Hlo | exact He |].
          intros Hc. destruct (samples_of es) as [|x l] eqn:Es.
          -- exfalso. apply Hc. apply (proj1 IH). reflexivity.
          -- apply (proj2 IH). discriminate.
      + cbn [samples_of]. rewrite app_nil_r. unfold cc_step.
        change (rtt_samples (on_timeout c)) with (rtt_samples c).
        change (srtt (on_timeout c)) with (srtt c).
        change (rttvar (on_timeout c)) with (rttvar c).
        exact IH. }
  apply (proj2 H Hne).
Qed.

Lemma srtt_within_samples_witness :
  (1 # 10) <= srtt (cc_run [EvAck 0 (1 # 10); EvTimeout; EvAck 1 (3 # 10)]
                      CongestionControl_init) <= (3 # 10) /\
  0 <= rttvar (cc_run [EvAck 0 (1 # 10); EvTimeout; EvAck 1 (3 # 10)]
                 CongestionControl_init) <= (3 # 10).
Proof.
  apply (srtt_within_samples (1 # 10) (3 # 10)
           [EvAck 0 (1 # 10); EvTimeout; EvAck 1 (3 # 10)]).
  - discriminate.
  - repeat constructor; discriminate.
  - discriminate.
Defined.

Lemma timeouts_run (k : nat) (c : CongestionControl) :
  rto (cc_run (repeat EvTimeout k) c) == rto c * inject_Z (2 ^ Z.of_nat k) /\
  last_ack (cc_run (repeat EvTimeout k) c) = last_ack c /\
  ((1 <= k)%nat ->
   cwnd (cc_run (repeat EvTimeout k) c) = 1 /\
   state (cc_run (repeat EvTimeout k) c) = SLOW_START /\
   duplicate_acks (cc_run (repeat EvTimeout k) c) = 0%Z) /\
  ((2 <= k)%nat -> ssthresh (cc_run (repeat EvTimeout k) c) = 2).
Proof.
  induction k as [|k IH].
  - cbn [repeat cc_run fold_left]. change (inject_Z (2 ^ Z.of_nat 0)) with 1.
    split; [ring|]. split; [reflexivity|]. split; intros H; lia.
  - replace (repeat EvTimeout (S k)) with (repeat EvTimeout k ++ [EvTimeout])
      by (rewrite <- repeat_cons; reflexivity).
    rewrite cc_run_snoc. unfold cc_step.
    destruct IH as (Hrto & Hla & Hone & Htwo).
    set (c' := cc_run (repeat EvTimeout k) c) in *.
    split; [|split; [exact Hla|split]].
    + change (rto (on_timeout c')) with (rto c' * 2). rewrite Hrto.
      rewrite Nat2Z.inj_succ, Z.pow_succ_r by lia. rewrite inject_Z_mult.
      change (inject_Z 2) with 2. ring.
    + intros _. repeat split.
    + intros Hk. change (ssthresh (on_timeout c')) with (pymax (cwnd c' / 2) 2).
      destruct Hone as (Hw & _); [lia|]. rewrite Hw. reflexivity.
Qed.

(** X3: after k timeouts in a row a non-negative rto is at least 2^k times
    what it was, and never below what it was after fewer of them: the code
    doubles it and sets no cap.  From the first timeout on cwnd is 1, the
    state SLOW_START and the duplicate counter 0, and from the second one on
    ssthresh is at its floor 2; [last_ack] is not touched. *)
Theorem timeouts_double_rto (k : nat) (c : CongestionControl) :
  0 <= rto c ->
  rto c * inject_Z (2 ^ Z.of_nat k) <= rto (cc_run (repeat EvTimeout k) c) /\
  (forall j : nat,
     (j <= k)%nat ->
     rto (cc_run (repeat EvTimeout j) c) <= rto (cc_run (repeat EvTimeout k) c)) /\
  last_ack (cc_run (repeat EvTimeout k) c) = last_ack c /\
  ((1 <= k)%nat ->
   cwnd (cc_run (repeat EvTimeout k) c) = 1 /\
   state (cc_run (repeat EvTimeout k) c) = SLOW_START /\
   duplicate_acks (cc_run (repeat EvTimeout k) c) = 0%Z) /\
  ((2 <= k)%nat -> ssthresh (cc_run (repeat EvTimeout k) c) = 2).
Proof.
  intros Hrto.
  destruct (timeouts_run k c) as (H1 & Hla & H2 & H3).
  split; [rewrite H1; lra|]. split; [|auto].
  intros j Hj. destruct (timeouts_run j c) as (Hj1 & _).
  rewrite H1, Hj1.
  assert (Hpow : (2 ^ Z.of_nat j <= 2 ^ Z.of_nat k)%Z)
    by (apply Z.pow_le_mono_r; lia).
  rewrite Zle_Qle in Hpow.
  rewrite !(Qmult_comm (rto c)).
  apply Qmult_le_compat_r; assumption.
Qed.

(** ** Messages built without a checksum *)

Lemma Ok_inj {A : Type} (a b : A) : Ok a = Ok b -> a = b.
Proof. intros H. injection H as H. exact H. Qed.

Lemma encode_char_total (c : N) :
  encodable c = true -> exists b, Utf8.encode_char c = Ok b.
Proof.
  unfold Utf8.encode_char, encodable.
  split_tests; cbn [andb orb]; intros Hb;
    first [discriminate | eexists; reflexivity | lia].
Qed.

Lemma encode_total (s : pystr) :
  forallb encodable s = true -> exists b, encode_utf8 s = Ok b.
Proof.
  unfold encode_utf8. induction s as [|c s IH]; intros H.
  - exists []. reflexivity.
  - cbn [forallb] in H. apply andb_true_iff in H. destruct H as (Hc & Hs).
    destruct (encode_char_total c Hc) as (bc & Ebc).
    destruct (IH Hs) as (bs & Ebs).
    exists (bc ++ bs). cbn [Utf8.encode]. rewrite Ebc. cbn [bind].
    rewrite Ebs. reflexivity.
Qed.

Lemma server_post_init_valid (m m' : Server.Message) :
  Server.checksum m = [] ->
  Server.post_init m = Ok m' ->
  Server.is_valid m' = Ok true /\
  (exists c, Server.calculate_checksum m = Ok c /\ m' = Server.set_checksum c m) /\
  length (Server.checksum m') = 16%nat /\
  forallb is_lower_hex (Server.checksum m') = true.
Proof.
  intros He H. unfold Server.post_init in H. rewrite He in H.
  unfold Server.is_valid.
  destruct (Server.calculate_checksum m) as [c|e] eqn:Ec; [|discriminate H].
  cbn [bind] in H. injection H as <-.
  change (Server.calculate_checksum (Server.set_checksum c m))
    with (Server.calculate_checksum m).
  rewrite Ec. cbn [bind Server.checksum Server.set_checksum].
  rewrite pystr_eqb_refl. split; [reflexivity|].
  split; [exists c; split; reflexivity|].
  unfold Server.calculate_checksum in Ec.
  destruct (encode_utf8 (Server.checksum_data m)) as [data|e]; [|discriminate Ec].
  cbn [bind] in Ec.
  assert (Hc : c = firstn 16 (Sha256.hexdigest data)) by congruence.
  rewrite Hc. split.
  - rewrite length_firstn, hexdigest_length. reflexivity.
  - apply ProtocolProps.forallb_firstn, hexdigest_lower.
Qed.

(** X4: the server's [Message(...)] called without a checksum returns a
    message exactly when the identifier, the sender, the content and the
    printed timestamp can be encoded in UTF-8 (no lone surrogate); the
    message it returns holds the given fields, carries 16 lowercase
    hexadecimal digits as checksum and passes [is_valid]. *)
Theorem server_new_message_is_valid
  (id : pystr) (t : Server.MessageType) (snd cnt : pystr) (ts : pyfloat) :
  (forallb encodable (id ++ snd ++ cnt ++ float_repr ts) = true <->
   exists m, Server.new_Message id t snd cnt ts = Ok m) /\
  (forall m,
     Server.new_Message id t snd cnt ts = Ok m ->
     Server.is_valid m = Ok true /\
     Server.msg_id m = id /\ Server.msg_type m = t /\ Server.sender m = snd /\
     Server.content m = cnt /\ Server.timestamp m = ts /\
     length (Server.checksum m) = 16%nat /\
     forallb is_lower_hex (Server.checksum m) = true).
Proof.
  set (m0 := {| Server.msg_id := id; Server.msg_type := t; Server.sender := snd;
                Server.content := cnt; Server.timestamp := ts;
                Server.checksum := [] |}).
  assert (Hnew : Server.new_Message id t snd cnt ts = Server.post_init m0)
    by reflexivity.
  rewrite Hnew. split.
  - unfold Server.post_init, Server.calculate_checksum.
    change (Server.checksum m0) with (@nil N). cbv iota.
    change (Server.checksum_data m0)
      with (id ++ Server.value t ++ snd ++ cnt ++ float_repr ts).
    split.
    + intros H. rewrite !forallb_app, !andb_true_iff in H.
      destruct H as (Hid & Hsnd & Hcnt & Hts).
      destruct (encode_total (id ++ Server.value t ++ snd ++ cnt ++ float_repr ts))
        as (b & Eb).
      { rewrite !forallb_app, Hid, Hsnd, Hcnt, Hts.
        rewrite (ascii_encodable _ (server_value_ascii t)). reflexivity. }
      rewrite Eb. cbn [bind]. eexists. reflexivity.
    + intros (m & H).
      destruct (encode_utf8 (id ++ Server.value t ++ snd ++ cnt ++ float_repr ts))
        as [b|e] eqn:Eb; [|discriminate H].
      apply encode_encodable in Eb.
      rewrite !forallb_app, !andb_true_iff in Eb.
      destruct Eb as (Hid & _ & Hsnd & Hcnt & Hts).
      rewrite !forallb_app, Hid, Hsnd, Hcnt, Hts. reflexivity.
  - intros m H.
    destruct (server_post_init_valid m0 m eq_refl H)
      as (Hv & (c & _ & ->) & Hlen & Hhex).
    repeat split; assumption.
Qed.

(** ** The server's message on the wire *)

Lemma server_MessageType_of_value (t : Server.MessageType) :
  Server.MessageType_of (JStr (Server.value t)) = Ok t.
Proof. destruct t; vm_compute; reflexivity. Qed.

Lemma server_valid_checksum (m : Server.Message) :
  Server.is_valid m = Ok true ->
  exists data,
    encode_utf8 (Server.checksum_data m) = Ok data /\
    Server.checksum m = firstn 16 (Sha256.hexdigest data).
Proof.
  unfold Server.is_valid, Server.calculate_checksum.
  destruct (encode_utf8 (Server.checksum_data m)) as [data|e]; [|discriminate].
  cbn [bind]. intros H. injection H as H. apply pystr_eqb_eq in H.
  exists data. split; [reflexivity | exact H].
Qed.

(** The text fields of a message that [calculate_checksum] accepts. *)
Lemma server_checksum_fields (m : Server.Message) (c : pystr) :
  Server.calculate_checksum m = Ok c ->
  forallb encodable (Server.msg_id m) = true /\
  forallb encodable (Server.sender m) = true /\
  forallb encodable (Server.content m) = true.
Proof.
  unfold Server.calculate_checksum.
  destruct (encode_utf8 (Server.checksum_data m)) as [data|e] eqn:E;
    [|discriminate].
  intros _. apply encode_encodable in E. unfold Server.checksum_data in E.
  rewrite !forallb_app, !andb_true_iff in E. tauto.
Qed.

Section ServerWire.
Variable float_of_literal : pystr -> option pyfloat.

Lemma server_construct (id : pystr) (t : Server.MessageType) (snd cnt : pystr)
                       (ts : pyfloat) (chk : pystr) :
  Server.construct t
    [(py "msg_id", JStr id); (py "msg_type", JStr (Server.value t));
     (py "sender", JStr snd); (py "content", JStr cnt);
     (py "timestamp", JFloat ts); (py "checksum", JStr chk)]
  = Server.post_init
      {| Server.msg_id := id; Server.msg_type := t; Server.sender := snd;
         Server.content := cnt; Server.timestamp := ts;
         Server.checksum := chk |}.
Proof. reflexivity. Qed.

Lemma server_payload_read (m : Server.Message) :
  forallb encodable (Server.msg_id m) = true ->
  forallb encodable (Server.sender m) = true ->
  forallb encodable (Server.content m) = true ->
  forallb encodable (Server.checksum m) = true ->
  float_token (float_repr (Server.timestamp m)) = true ->
  float_of_literal (float_repr (Server.timestamp m)) = Some (Server.timestamp m) ->
  ascii_only (Json.dumps (py ", ") (py ": ") (Server.to_dict m)) = true /\
  Server.from_bytes float_of_literal
    (Json.dumps (py ", ") (py ": ") (Server.to_dict m))
  = Server.post_init m.
Proof.
  intros Hid Hsnd Hcnt Hchk Htok Hback.
  destruct m as [id t sndr cnt ts chk].
  cbn [Server.msg_id Server.sender Server.content Server.checksum
       Server.timestamp] in *.
  set (kvs := [(py "msg_id", JStr id); (py "msg_type", JStr (Server.value t));
               (py "sender", JStr sndr); (py "content", JStr cnt);
               (py "timestamp", JFloat ts); (py "checksum", JStr chk)]).
  change (Server.to_dict (Server.mkMessage id t sndr cnt ts chk)) with (JObj kvs).
  assert (Hall : Forall (fun kv => forallb encodable (fst kv) = true /\
                                   simple_value float_of_literal (snd kv)) kvs).
  { unfold kvs.
    repeat (apply Forall_cons; [split; [reflexivity|]|]); try apply Forall_nil;
      cbn [snd]; try (apply finite_simple; assumption);
      cbn [simple_value]; auto.
    destruct t; reflexivity. }
  assert (Hascii : ascii_only (Json.dumps (py ", ") (py ": ") (JObj kvs)) = true).
  { apply (dumps_object_ascii float_of_literal); [reflexivity | reflexivity |].
    eapply Forall_impl; [|exact Hall]. intros kv H. exact (proj2 H). }
  split; [exact Hascii|].
  unfold Server.from_bytes. rewrite (decode_ascii _ Hascii). cbn [bind].
  change (py ", ") with (44%N :: [32%N]). change (py ": ") with (58%N :: [32%N]).
  rewrite (loads_dumps_object float_of_literal [32%N] [32%N] kvs eq_refl eq_refl
             ltac:(discriminate) Hall).
  cbn [bind].
  replace (dict_of kvs []) with kvs by (vm_compute; reflexivity).
  change (dict_get (py "msg_type") kvs) with (Some (JStr (Server.value t))).
  cbv beta iota. rewrite server_MessageType_of_value. cbn [bind].
  apply server_construct.
Qed.

End ServerWire.

(** ** Framing *)

Lemma lor_octet (a b : N) :
  (b < 256)%N -> N.lor (N.shiftl a 8) b = (a * 256 + b)%N.
Proof.
  intros Hb.
  assert (H0 : N.land (N.shiftl a 8) b = 0%N).
  { apply N.bits_inj. intros i. rewrite N.land_spec, N.bits_0.
    destruct (N.lt_ge_cases i 8) as [Hi|Hi].
    - rewrite N.shiftl_spec_low by exact Hi. reflexivity.
    - destruct (N.eq_dec b 0) as [->|Hne]; [rewrite N.bits_0; apply andb_false_r|].
      rewrite (N.bits_above_log2 b i), andb_false_r; [reflexivity|].
      apply N.lt_le_trans with 8%N; [|exact Hi].
      apply N.log2_lt_pow2; [lia | exact Hb]. }
  rewrite <- N.lxor_lor by exact H0.
  rewrite <- N.add_nocarry_lxor by exact H0.
  rewrite N.shiftl_mul_pow2. reflexivity.
Qed.

Lemma octet_lt (x k : N) : (N.land (N.shiftr x k) 0xFF < 256)%N.
Proof.
  change 0xFF%N with (N.ones 8). rewrite N.land_ones.
  apply N.mod_lt. discriminate.
Qed.

(** [struct.unpack('!I', struct.pack('!I', n))[0] == n] *)
Lemma unpack_pack (n : N) :
  (n < 2 ^ 32)%N -> Server.unpack_u32 (Sha256.be_bytes 4 n) = n.
Proof.
  intros Hn. unfold Server.unpack_u32, Sha256.be_word.
  cbn [Sha256.be_bytes fold_left].
  rewrite !lor_octet by apply octet_lt.
  change 0xFF%N with (N.ones 8). rewrite !N.land_ones, !N.shiftr_div_pow2.
  change (N.shiftl 0 8) with 0%N.
  change (8 * N.of_nat 3)%N with 24%N. change (8 * N.of_nat 2)%N with 16%N.
  change (8 * N.of_nat 1)%N with 8%N. change (8 * N.of_nat 0)%N with 0%N.
  change (2 ^ 24)%N with 16777216%N. change (2 ^ 16)%N with 65536%N.
  change (2 ^ 8)%N with 256%N. change (2 ^ 0)%N with 1%N.
  change (2 ^ 32)%N with 4294967296%N in Hn.
  zify. Z.to_euclidean_division_equations. lia.
Qed.

Lemma take_frames_fuel_enough (f1 : nat) :
  forall (f2 : nat) (b : bytes),
    (length b <= f1)%nat -> (length b <= f2)%nat ->
    Server.take_frames_fuel f1 b = Server.take_frames_fuel f2 b.
Proof.
  induction f1 as [|f1 IH]; intros f2 b H1 H2.
  - destruct b; [|cbn [length] in H1; lia]. destruct f2; reflexivity.
  - destruct f2 as [|f2].
    + destruct b; [reflexivity | cbn [length] in H2; lia].
    + cbn [Server.take_frames_fuel].
      destruct (4 <=? length b)%nat eqn:E4; [|reflexivity].
      set (n := N.to_nat (Server.unpack_u32 (firstn 4 b))).
      destruct (4 + n <=? length b)%nat eqn:En; [|reflexivity].
      apply Nat.leb_le in En.
      rewrite (IH f2 (skipn (4 + n) b)); [reflexivity | |];
        rewrite length_skipn; lia.
Qed.

(** One turn of the loop. *)
Lemma take_frames_eq (b : bytes) :
  Server.take_frames b
  = if (4 <=? length b)%nat then
      if (4 + N.to_nat (Server.unpack_u32 (firstn 4 b)) <=? length b)%nat then
        (firstn (N.to_nat (Server.unpack_u32 (firstn 4 b))) (skipn 4 b)
           :: fst (Server.take_frames
                     (skipn (4 + N.to_nat (Server.unpack_u32 (firstn 4 b))) b)),
         snd (Server.take_frames
                (skipn (4 + N.to_nat (Server.unpack_u32 (firstn 4 b))) b)))
      else ([], b)
    else ([], b).
Proof.
  unfold Server.take_frames at 1.
  destruct (length b) as [|k] eqn:El.
  - destruct b; [reflexivity | discriminate El].
  - cbn [Server.take_frames_fuel]. rewrite El.
    destruct (4 <=? S k)%nat eqn:E4; [|reflexivity].
    set (n := N.to_nat (Server.unpack_u32 (firstn 4 b))).
    destruct (4 + n <=? S k)%nat eqn:En; [|reflexivity].
    apply Nat.leb_le in En. unfold Server.take_frames.
    rewrite (take_frames_fuel_enough k (length (skipn (4 + n) b))
               (skipn (4 + n) b)); [| rewrite length_skipn; lia | lia].
    destruct (Server.take_frames_fuel _ _). reflexivity.
Qed.

Lemma take_frames_incomplete (tail : bytes) :
  incomplete tail -> Server.take_frames tail = ([], tail).
Proof.
  intros H. rewrite take_frames_eq.
  destruct (4 <=? length tail)%nat eqn:E4; [|reflexivity].
  apply Nat.leb_le in E4. destruct H as [H|H]; [lia|].
  destruct (_ <=? length tail)%nat eqn:En; [|reflexivity].
  apply Nat.leb_le in En. lia.
Qed.

Lemma be_bytes_length (n : nat) (x : N) : length (Sha256.be_bytes n x) = n.
Proof. induction n as [|n IH]; cbn [Sha256.be_bytes length]; congruence. Qed.

Lemma take_frames_framed (p rest : bytes) :
  (N.of_nat (length p) < 2 ^ 32)%N ->
  Server.take_frames (framed p ++ rest)
  = (p :: fst (Server.take_frames rest), snd (Server.take_frames rest)).
Proof.
  intros Hp. rewrite take_frames_eq. unfold framed. rewrite <- app_assoc.
  set (h := Sha256.be_bytes 4 (N.of_nat (length p))).
  assert (Hh : length h = 4%nat) by apply be_bytes_length.
  assert (H4 : firstn 4 (h ++ p ++ rest) = h).
  { rewrite firstn_app, Hh, Nat.sub_diag, firstn_O, app_nil_r.
    rewrite <- Hh. apply firstn_all. }
  assert (Hn : N.to_nat (Server.unpack_u32 h) = length p)
    by (unfold h; rewrite (unpack_pack _ Hp); apply Nat2N.id).
  rewrite H4, Hn.
  rewrite !length_app, Hh.
  replace (4 <=? 4 + (length p + length rest))%nat with true
    by (symmetry; apply Nat.leb_le; lia).
  replace (4 + length p <=? 4 + (length p + length rest))%nat with true
    by (symmetry; apply Nat.leb_le; lia).
  assert (Hs4 : skipn 4 (h ++ p ++ rest) = p ++ rest).
  { rewrite <- Hh. rewrite skipn_app, Nat.sub_diag, skipn_all. reflexivity. }
  assert (Hs : skipn (4 + length p) (h ++ p ++ rest) = rest).
  { rewrite Nat.add_comm, <- skipn_skipn, Hs4.
    rewrite skipn_app, Nat.sub_diag, skipn_all. reflexivity. }
  rewrite Hs4, Hs.
  rewrite firstn_app, Nat.sub_diag, firstn_O, app_nil_r, firstn_all.
  reflexivity.
Qed.

(** X5: the framing loop of [_handle_client] takes the payloads out of a
    run of frames in order, each intact, and then goes on with what follows
    them; if what follows holds no complete frame it is left in the buffer
    as it is. *)
Theorem take_frames_of_frames (ps : list bytes) (tail : bytes) :
  Forall (fun p => (N.of_nat (length p) < 2 ^ 32)%N) ps ->
  Server.take_frames (concat (map framed ps) ++ tail)
  = (ps ++ fst (Server.take_frames tail), snd (Server.take_frames tail)) /\
  (incomplete tail ->
   Server.take_frames (concat (map framed ps) ++ tail) = (ps, tail)).
Proof.
  intros Hall.
  assert (H : Server.take_frames (concat (map framed ps) ++ tail)
              = (ps ++ fst (Server.take_frames tail),
                 snd (Server.take_frames tail))).
  { induction Hall as [|p ps Hp Hps IH].
    - cbn [map concat app]. destruct (Server.take_frames tail). reflexivity.
    - cbn [map concat]. rewrite <- app_assoc.
      rewrite (take_frames_framed p _ Hp), IH. reflexivity. }
  split; [exact H|]. intros Hinc. rewrite H.
  rewrite (take_frames_incomplete tail Hinc). cbn [fst snd].
  rewrite app_nil_r. reflexivity.
Qed.

Lemma take_frames_of_frames_witness :
  Server.take_frames (concat (map framed [[1; 2; 3]; []; [7]]%N) ++ [0; 0; 0]%N)
  = ([[1; 2; 3]; []; [7]]%N, [0; 0; 0]%N).
Proof.
  apply (take_frames_of_frames [[1; 2; 3]; []; [7]]%N [0; 0; 0]%N).
  - repeat constructor.
  - left. cbn [length]. lia.
Defined.

(** X6: what the framing loop extracts does not depend on how [recv] cut
    the stream: taking the frames of a buffer, then those of the rest with
    more data appended, gives the frames and the rest of the whole. *)
Theorem take_frames_chunked (d : bytes) (b : bytes) :
  Server.take_frames (b ++ d)
  = (fst (Server.take_frames b)
       ++ fst (Server.take_frames (snd (Server.take_frames b) ++ d)),
     snd (Server.take_frames (snd (Server.take_frames b) ++ d))).
Proof.
  remember (length b) as k eqn:Ek. revert b Ek.
  induction k as [k IH] using lt_wf_ind. intros b Ek.
  rewrite (take_frames_eq b).
  destruct (4 <=? length b)%nat eqn:E4;
    [|cbn [fst snd app]; destruct (Server.take_frames (b ++ d)); reflexivity].
  set (n := N.to_nat (Server.unpack_u32 (firstn 4 b))).
  destruct (4 + n <=? length b)%nat eqn:En;
    [|cbn [fst snd app]; destruct (Server.take_frames (b ++ d)); reflexivity].
  apply Nat.leb_le in E4. apply Nat.leb_le in En.
  cbn [fst snd]. rewrite (take_frames_eq (b ++ d)).
  assert (H4 : firstn 4 (b ++ d) = firstn 4 b).
  { rewrite firstn_app.
    replace (4 - length b)%nat with 0%nat by lia.
    rewrite firstn_O, app_nil_r. reflexivity. }
  rewrite H4. fold n. rewrite length_app.
  replace (4 <=? length b + length d)%nat with true
    by (symmetry; apply Nat.leb_le; lia).
  replace (4 + n <=? length b + length d)%nat with true
    by (symmetry; apply Nat.leb_le; lia).
  assert (Hs : skipn (4 + n) (b ++ d) = skipn (4 + n) b ++ d).
  { rewrite skipn_app.
    replace (4 + n - length b)%nat with 0%nat by lia.
    change (skipn 0 d) with d. reflexivity. }
  assert (Hf : firstn n (skipn 4 (b ++ d)) = firstn n (skipn 4 b)).
  { rewrite skipn_app. replace (4 - length b)%nat with 0%nat by lia.
    change (skipn 0 d) with d. rewrite firstn_app, length_skipn.
    replace (n - (length b - 4))%nat with 0%nat by lia.
    rewrite firstn_O, app_nil_r. reflexivity. }
  rewrite Hs, Hf.
  assert (Hlt : (length (skipn (4 + n) b) < k)%nat)
    by (rewrite length_skipn; lia).
  rewrite (IH _ Hlt (skipn (4 + n) b) eq_refl).
  cbn [fst snd app]. reflexivity.
Qed.

(** ** A frame of the server read back by the server *)

Section ServerRoundTrip.
Variable float_of_literal : pystr -> option pyfloat.

Lemma server_frame_read (m : Server.Message) (frame : bytes) :
  Server.is_valid m = Ok true ->
  float_token (float_repr (Server.timestamp m)) = true ->
  float_of_literal (float_repr (Server.timestamp m)) = Some (Server.timestamp m) ->
  Server.to_bytes m = Ok frame ->
  exists payload,
    frame = framed payload /\ (N.of_nat (length payload) < 2 ^ 32)%N /\
    Server.from_bytes float_of_literal payload = Ok m.
Proof.
  intros Hvalid Htok Hback Hframe.
  destruct (server_valid_checksum m Hvalid) as (data & Henc & Hchk).
  destruct (ProtocolProps.checksum_shape data) as (Hlen & Hhex).
  rewrite <- Hchk in Hlen, Hhex.
  assert (Hfields : exists c, Server.calculate_checksum m = Ok c).
  { unfold Server.calculate_checksum. rewrite Henc. eexists. reflexivity. }
  destruct Hfields as (c & Hc).
  destruct (server_checksum_fields m c Hc) as (Hid & Hsnd & Hcnt).
  destruct (server_payload_read float_of_literal m Hid Hsnd Hcnt
              (ascii_encodable _ Hhex) Htok Hback) as (Hascii & Hread).
  set (text := Json.dumps (py ", ") (py ": ") (Server.to_dict m)) in *.
  assert (Hto : Server.to_bytes m
                = if (N.of_nat (length text) <? 2 ^ 32)%N
                  then Ok (framed text) else Err StructError).
  { unfold Server.to_bytes. fold text. rewrite (encode_ascii text Hascii).
    cbn [bind]. unfold Protocol.pack_u32, framed.
    destruct (N.of_nat (length text) <? 2 ^ 32)%N; reflexivity. }
  rewrite Hto in Hframe.
  destruct (N.of_nat (length text) <? 2 ^ 32)%N eqn:Esize;
    [|discriminate Hframe].
  apply Ok_inj in Hframe. subst frame.
  exists text. split; [reflexivity|]. split; [apply N.ltb_lt; exact Esize|].
  rewrite Hread. unfold Server.post_init.
  destruct (Server.checksum m); [discriminate Hlen | reflexivity].
Qed.

Lemma skipn_framed (p : bytes) : skipn 4 (framed p) = p.
Proof.
  unfold framed.
  rewrite <- (be_bytes_length 4 (N.of_nat (length p))) at 1.
  rewrite skipn_app, Nat.sub_diag, skipn_all. reflexivity.
Qed.

(** X7: a frame that the server's [to_bytes] returns for a message whose
    checksum verifies (its timestamp being a finite float) holds exactly one
    complete frame for the framing loop, nothing is left in the buffer, and
    the server's [from_bytes] reads the extracted payload back as the
    message itself. *)
Theorem server_frame_round_trip (m : Server.Message) (frame : bytes) :
  Server.is_valid m = Ok true ->
  float_token (float_repr (Server.timestamp m)) = true ->
  float_of_literal (float_repr (Server.timestamp m)) = Some (Server.timestamp m) ->
  Server.to_bytes m = Ok frame ->
  Server.take_frames frame = ([skipn 4 frame], []) /\
  Server.from_bytes float_of_literal (skipn 4 frame) = Ok m.
Proof.
  intros Hvalid Htok Hback Hframe.
  destruct (server_frame_read m frame Hvalid Htok Hback Hframe)
    as (payload & -> & Hsize & Hread).
  rewrite skipn_framed. split; [|exact Hread].
  rewrite <- (app_nil_r (framed payload)).
  rewrite (take_frames_framed payload [] Hsize). reflexivity.
Qed.


End ServerRoundTrip.

Lemma server_frame_round_trip_witness :
  Server.from_bytes sample_float_of_literal (skipn 4 sample_frame)
  = Ok sample_notice.
Proof.
  apply (server_frame_round_trip sample_float_of_literal sample_notice
           sample_frame); vm_compute; reflexivity.
Defined.


(** ** Frames without a checksum, and frames of the other class *)

Section Interop.
Variable float_of_literal : pystr -> option pyfloat.




End Interop.



Section Defaults.
Variable float_of_literal : pystr -> option pyfloat.



End Defaults.


(** ** The factories of the protocol module *)

Lemma protocol_post_init_valid (m m' : Protocol.Message) :
  Protocol.checksum m = [] ->
  Protocol.post_init m = Ok m' ->
  Protocol.is_valid m' = Ok true /\
  exists c, Protocol.calculate_checksum m = Ok c /\ m' = Protocol.set_checksum c m.
Proof.
  intros He H. unfold Protocol.post_init in H. rewrite He in H.
  unfold Protocol.is_valid.
  destruct (Protocol.calculate_checksum m) as [c|e] eqn:Ec; [|discriminate H].
  cbn [bind] in H. apply Ok_inj in H. subst m'.
  change (Protocol.calculate_checksum (Protocol.set_checksum c m))
    with (Protocol.calculate_checksum m).
  rewrite Ec. cbn [bind Protocol.checksum Protocol.set_checksum].
  rewrite pystr_eqb_refl. split; [reflexivity|].
  exists c. split; reflexivity.
Qed.

Section AckContent.
Variable float_of_literal : pystr -> option pyfloat.

(** [json.loads(json.dumps({"ack_for": id}))] *)
Lemma ack_content_read (id : pystr) :
  forallb encodable id = true ->
  Json.loads float_of_literal
    (Json.dumps (py ", ") (py ": ") (JObj [(py "ack_for", JStr id)]))
  = Ok (JObj [(py "ack_for", JStr id)]).
Proof.
  intros Hid.
  change (py ", ") with (44%N :: [32%N]). change (py ": ") with (58%N :: [32%N]).
  rewrite (loads_dumps_object float_of_literal [32%N] [32%N]
             [(py "ack_for", JStr id)] eq_refl eq_refl ltac:(discriminate)).
  - reflexivity.
  - apply Forall_cons; [|apply Forall_nil]. split; [reflexivity | exact Hid].
Qed.

Lemma ack_for_content (id : pystr) :
  forallb encodable id = true ->
  Server.ack_for float_of_literal
    (Json.dumps (py ", ") (py ": ") (JObj [(py "ack_for", JStr id)]))
  = Some id.
Proof.
  intros Hid. unfold Server.ack_for. rewrite (ack_content_read id Hid).
  reflexivity.
Qed.

(** X12: whatever a factory of the protocol module returns passes
    [is_valid] and has the type, sender, priority and sequence number of
    its kind: ACK with priority 2, HEARTBEAT with priority 2 and sequence
    number 0, CHAT with priority 1; the content of an ACK for an
    identifier without lone surrogates is a JSON object that holds the
    identifier under the key ack_for and nothing else. *)
Theorem factories_build_valid_messages
  (st : Protocol.stamp) (sender0 content0 id : pystr) (seq : Z) :
  (forall m,
     Protocol.create_ack_message st sender0 id seq = Ok m ->
     Protocol.is_valid m = Ok true /\
     Protocol.msg_id m = Protocol.fresh_id (py "ack") st /\
     Protocol.msg_type m = Protocol.ACK /\ Protocol.sender m = sender0 /\
     Protocol.priority m = 2%Z /\ Protocol.sequence_number m = seq /\
     (forallb encodable id = true ->
      Json.loads float_of_literal (Protocol.content m)
      = Ok (JObj [(py "ack_for", JStr id)]))) /\
  (forall m,
     Protocol.create_heartbeat_message st sender0 content0 = Ok m ->
     Protocol.is_valid m = Ok true /\
     Protocol.msg_id m = Protocol.fresh_id (py "heartbeat") st /\
     Protocol.msg_type m = Protocol.HEARTBEAT /\ Protocol.sender m = sender0 /\
     Protocol.content m = content0 /\
     Protocol.priority m = 2%Z /\ Protocol.sequence_number m = 0%Z) /\
  (forall m,
     Protocol.create_chat_message st sender0 content0 seq = Ok m ->
     Protocol.is_valid m = Ok true /\
     Protocol.msg_id m = Protocol.fresh_id (py "chat") st /\
     Protocol.msg_type m = Protocol.CHAT /\ Protocol.sender m = sender0 /\
     Protocol.content m = content0 /\
     Protocol.priority m = 1%Z /\ Protocol.sequence_number m = seq).
Proof.
  split; [|split]; intros m H;
    unfold Protocol.create_ack_message, Protocol.create_heartbeat_message,
           Protocol.create_chat_message, Protocol.new_Message in H;
    pose proof (fun E => protocol_post_init_valid _ m E H) as HH;
    destruct (HH eq_refl) as (Hv & c & _ & ->); clear HH;
    (split; [exact Hv|]); repeat split.
  intros Hid. cbn [Protocol.content Protocol.set_checksum].
  apply ack_content_read. exact Hid.
Qed.

End AckContent.

Lemma factories_build_valid_messages_witness :
  Protocol.is_valid
    {| Protocol.msg_id := py "chat_1700000000_1234";
       Protocol.msg_type := Protocol.CHAT;
       Protocol.sender := py "alice";
       Protocol.content := py "hello";
       Protocol.timestamp := sample_ts;
       Protocol.checksum := py "d30fe8ec9fba287b";
       Protocol.priority := 1;
       Protocol.sequence_number := 3 |} = Ok true.
Proof.
  apply (factories_build_valid_messages sample_float_of_literal
           {| Protocol.clock_id := 1700000000; Protocol.rand := 1234;
              Protocol.clock_ts := sample_ts |}
           (py "alice") (py "hello") [] 3).
  vm_compute. reflexivity.
Defined.

(** ** Dictionaries, continued *)

Lemma pystr_eqb_neq (a b : pystr) : pystr_eqb a b = false <-> a <> b.
Proof.
  split.
  - intros H E. apply pystr_eqb_eq in E. congruence.
  - intros H. destruct (pystr_eqb a b) eqn:E; [|reflexivity].
    apply pystr_eqb_eq in E. contradiction.
Qed.

Lemma dict_get_set_neq {V : Type} (k k' : pystr) (v : V) (d : list (pystr * V)) :
  k <> k' -> dict_get k (dict_set k' v d) = dict_get k d.
Proof.
  intros Hne. induction d as [|[k0 v0] d IH]; cbn [dict_set dict_get].
  - rewrite (proj2 (pystr_eqb_neq k k') Hne). reflexivity.
  - destruct (pystr_eqb k' k0) eqn:E; cbn [dict_get].
    + apply pystr_eqb_eq in E. subst k0.
      rewrite (proj2 (pystr_eqb_neq k k') Hne). reflexivity.
    + rewrite IH. reflexivity.
Qed.

Lemma dict_get_none {V : Type} (k : pystr) (d : list (pystr * V)) :
  dict_get k d = None <-> ~ In k (dict_keys d).
Proof.
  induction d as [|[k0 v0] d IH]; cbn [dict_get dict_keys map fst In].
  - split; [intros _ H; exact H | reflexivity].
  - destruct (pystr_eqb k k0) eqn:E.
    + apply pystr_eqb_eq in E. subst k0. split; [discriminate|].
      intros H. exfalso. apply H. left. reflexivity.
    + apply pystr_eqb_neq in E. rewrite IH. unfold dict_keys.
      split; intros H; [intros [H1|H1]; [congruence | exact (H H1)]|].
      intros H1. apply H. right. exact H1.
Qed.

Lemma dict_keys_set {V : Type} (k : pystr) (v : V) (d : list (pystr * V)) :
  dict_keys (dict_set k v d)
  = if dict_mem k d then dict_keys d else dict_keys d ++ [k].
Proof.
  unfold dict_mem. induction d as [|[k0 v0] d IH]; [reflexivity|].
  cbn [dict_set dict_get]. destruct (pystr_eqb k k0) eqn:E.
  - apply pystr_eqb_eq in E. subst k0. reflexivity.
  - unfold dict_keys in *. cbn [map fst]. rewrite IH.
    destruct (dict_get k d); reflexivity.
Qed.

Lemma dict_set_unique {V : Type} (k : pystr) (v : V) (d : list (pystr * V)) :
  unique_keys d -> unique_keys (dict_set k v d).
Proof.
  unfold unique_keys. intros H. rewrite dict_keys_set. unfold dict_mem.
  destruct (dict_get k d) eqn:E; [exact H|].
  apply dict_get_none in E.
  apply NoDup_rev in H. rewrite <- (rev_involutive (dict_keys d ++ [k])).
  apply NoDup_rev. rewrite rev_app_distr. cbn [rev app].
  apply NoDup_cons; [|exact H]. rewrite <- in_rev. exact E.
Qed.

Lemma dict_set_length {V : Type} (k : pystr) (v : V) (d : list (pystr * V)) :
  length (dict_set k v d)
  = if dict_mem k d then length d else S (length d).
Proof.
  unfold dict_mem. induction d as [|[k0 v0] d IH]; [reflexivity|].
  cbn [dict_set dict_get]. destruct (pystr_eqb k k0); [reflexivity|].
  cbn [length]. rewrite IH. destruct (dict_get k d); reflexivity.
Qed.

Lemma dict_keys_del_incl {V : Type} (k x : pystr) (d : list (pystr * V)) :
  In x (dict_keys (dict_del k d)) -> In x (dict_keys d).
Proof.
  unfold dict_keys. induction d as [|[k0 v0] d IH]; [intros H; exact H|].
  cbn [dict_del]. destruct (pystr_eqb k k0); cbn [map fst In].
  - intros H. right. exact H.
  - intros [H|H]; [left; exact H | right; exact (IH H)].
Qed.

Lemma dict_del_unique {V : Type} (k : pystr) (d : list (pystr * V)) :
  unique_keys d -> unique_keys (dict_del k d).
Proof.
  unfold unique_keys, dict_keys.
  induction d as [|[k0 v0] d IH]; intros H; [exact H|].
  cbn [map fst] in H. apply NoDup_cons_iff in H. destruct H as (Hin & Hd).
  cbn [dict_del]. destruct (pystr_eqb k k0); [exact Hd|].
  cbn [map fst]. apply NoDup_cons; [|exact (IH Hd)].
  intros Hx. apply Hin. exact (dict_keys_del_incl k k0 d Hx).
Qed.

Lemma dict_get_del_eq {V : Type} (k : pystr) (d : list (pystr * V)) :
  unique_keys d -> dict_get k (dict_del k d) = None.
Proof.
  unfold unique_keys, dict_keys.
  induction d as [|[k0 v0] d IH]; intros H; [reflexivity|].
  cbn [map fst] in H. apply NoDup_cons_iff in H. destruct H as (Hin & Hd).
  cbn [dict_del]. destruct (pystr_eqb k k0) eqn:E.
  - apply pystr_eqb_eq in E. subst k0. apply dict_get_none. exact Hin.
  - cbn [dict_get]. rewrite E. exact (IH Hd).
Qed.

Lemma dict_get_del_neq {V : Type} (k k' : pystr) (d : list (pystr * V)) :
  k <> k' -> dict_get k (dict_del k' d) = dict_get k d.
Proof.
  intros Hne. induction d as [|[k0 v0] d IH]; [reflexivity|].
  cbn [dict_del dict_get]. destruct (pystr_eqb k' k0) eqn:E.
  - apply pystr_eqb_eq in E. subst k0.
    rewrite (proj2 (pystr_eqb_neq k k') Hne). reflexivity.
  - cbn [dict_get]. rewrite IH. reflexivity.
Qed.

Lemma dict_del_length {V : Type} (k : pystr) (v : V) (d : list (pystr * V)) :
  dict_get k d = Some v -> length d = S (length (dict_del k d)).
Proof.
  induction d as [|[k0 v0] d IH]; [discriminate|].
  cbn [dict_get dict_del]. destruct (pystr_eqb k k0); [reflexivity|].
  intros H. cbn [length]. rewrite (IH H). reflexivity.
Qed.

Lemma dict_get_in {V : Type} (k : pystr) (v : V) (d : list (pystr * V)) :
  dict_get k d = Some v -> In (k, v) d.
Proof.
  induction d as [|[k0 v0] d IH]; [discriminate|].
  cbn [dict_get In]. destruct (pystr_eqb k k0) eqn:E.
  - apply pystr_eqb_eq in E. subst k0. intros H. injection H as ->.
    left. reflexivity.
  - intros H. right. exact (IH H).
Qed.

Lemma in_dict_get {V : Type} (k : pystr) (v : V) (d : list (pystr * V)) :
  unique_keys d -> In (k, v) d -> dict_get k d = Some v.
Proof.
  unfold unique_keys, dict_keys.
  induction d as [|[k0 v0] d IH]; intros Hu Hin; [destruct Hin|].
  cbn [map fst] in Hu. apply NoDup_cons_iff in Hu. destruct Hu as (Hnot & Hd).
  cbn [dict_get]. destruct Hin as [Hin|Hin].
  - injection Hin as -> ->. rewrite pystr_eqb_refl. reflexivity.
  - destruct (pystr_eqb k k0) eqn:E; [|exact (IH Hd Hin)].
    apply pystr_eqb_eq in E. subst k0. exfalso. apply Hnot.
    apply (in_map fst) in Hin. exact Hin.
Qed.

(** ** The sender loop and the pending table *)

Module ConnectionProps.
Import Server.

#[local] Opaque to_bytes new_Message.

Lemma retransmit_one_table (t : Q) (c : ClientConnection) (id : pystr) :
  length (pending_messages (retransmit_one t c id))
  = length (pending_messages c) /\
  (unique_keys (pending_messages c) ->
   unique_keys (pending_messages (retransmit_one t c id))) /\
  pending_values (retransmit_one t c id) = pending_values c /\
  send_queue (retransmit_one t c id) = send_queue c.
Proof.
  unfold retransmit_one.
  destruct (dict_get id (pending_messages c)) as [[m t0]|] eqn:E;
    [|repeat split; auto].
  destruct (ServerProps.send_raw_control m c) as (_ & _ & Hp & Hq).
  cbn [pending_messages with_cc with_pending send_queue]. rewrite Hp, Hq.
  split; [|split; [|split; [|reflexivity]]].
  - rewrite dict_set_length. unfold dict_mem. rewrite E. reflexivity.
  - apply dict_set_unique.
  - unfold pending_values. cbn [pending_messages with_cc with_pending].
    rewrite ?Hp. clear Hp Hq. revert E.
    induction (pending_messages c) as [|[k [m1 t1]] d IH]; [discriminate|].
    cbn [dict_get dict_set]. destruct (pystr_eqb id k).
    + intros H. injection H as -> ->. reflexivity.
    + intros H. cbn [map fst snd]. rewrite (IH H). reflexivity.
Qed.

Lemma retransmit_all_pending (t : Q) (ids : list pystr) :
  forall c,
    length (pending_messages (fold_left (retransmit_one t) ids c))
    = length (pending_messages c) /\
    (unique_keys (pending_messages c) ->
     unique_keys (pending_messages (fold_left (retransmit_one t) ids c))) /\
    pending_values (fold_left (retransmit_one t) ids c) = pending_values c /\
    send_queue (fold_left (retransmit_one t) ids c) = send_queue c.
Proof.
  induction ids as [|id ids IH]; intros c; cbn [fold_left];
    [repeat split; auto|].
  destruct (retransmit_one_table t c id) as (H1 & H2 & H3 & H4).
  destruct (IH (retransmit_one t c id)) as (G1 & G2 & G3 & G4).
  rewrite G1, G3, G4. repeat split; auto.
Qed.

Lemma send_new_pending (n : nat) (t : Q) :
  forall c,
    (length (pending_messages (send_new n t c))
     <= length (pending_messages c) + n)%nat /\
    (unique_keys (pending_messages c) ->
     unique_keys (pending_messages (send_new n t c))).
Proof.
  induction n as [|n IH]; intros c; cbn [send_new]; [split; [lia | auto]|].
  destruct (send_queue c) as [|m q]; [split; [lia | auto]|].
  destruct (ServerProps.send_raw_control m (with_queue q c)) as (_ & _ & Hp & _).
  cbn [pending_messages with_queue] in Hp.
  destruct (is_ack (msg_type m)).
  - destruct (IH (_send_raw m (with_queue q c))) as (H1 & H2).
    rewrite Hp in H1, H2. split; [lia | exact H2].
  - match goal with |- context [send_new n t ?x] =>
      destruct (IH x) as (H1 & H2) end.
    cbn [pending_messages with_pending] in H1, H2. rewrite Hp in H1, H2.
    rewrite ?Hp. rewrite dict_set_length in H1. split.
    + destruct (dict_mem (msg_id m) (pending_messages c)); lia.
    + intros Hu. apply H2. apply dict_set_unique. exact Hu.
Qed.

Lemma sender_worker_unique (t : Q) (c : ClientConnection) :
  unique_keys (pending_messages c) ->
  unique_keys (pending_messages (_sender_worker t c)).
Proof.
  intros H. unfold _sender_worker. destruct (running c); [|exact H].
  unfold sender_pass. cbv zeta. apply send_new_pending.
  apply retransmit_all_pending. exact H.
Qed.

(** X13: one turn of the sender loop never leaves more messages in flight
    than the larger of what was in flight before it and the whole part of
    the window it ends with: new messages are taken from the queue only
    while the pending table is shorter than int(cwnd). *)
Theorem sender_respects_window (t : Q) (c : ClientConnection) :
  (Z.of_nat (length (pending_messages (_sender_worker t c)))
   <= Z.max (Z.of_nat (length (pending_messages c)))
            (int_of_Q (cwnd (congestion_control (_sender_worker t c)))))%Z.
Proof.
  unfold _sender_worker. destruct (running c); [|lia].
  unfold sender_pass. cbv zeta.
  set (c1 := fold_left (retransmit_one t) (to_retransmit t c) c).
  destruct (retransmit_all_pending t (to_retransmit t c) c) as (Hlen & _).
  fold c1 in Hlen.
  set (n := Z.to_nat (Z.max 0 (int_of_Q (cwnd (congestion_control c1))
                               - Z.of_nat (length (pending_messages c1))))).
  destruct (send_new_pending n t c1) as (Hnew & _).
  destruct (ServerProps.send_new_control n t c1) as (Hcc & _).
  rewrite Hcc. subst n. lia.
Qed.

Lemma send_raw_open (m : Message) (c : ClientConnection) :
  sock_open c = true -> framable m ->
  _send_raw m c = with_wire (wire c ++ [m]) c.
Proof.
  intros Ho (frame & Hf). unfold _send_raw. rewrite Hf, Ho. reflexivity.
Qed.

Lemma dict_get_value (id : pystr) (m : Message) (t0 : Q) (c : ClientConnection) :
  dict_get id (pending_messages c) = Some (m, t0) -> In m (pending_values c).
Proof.
  unfold pending_values.
  induction (pending_messages c) as [|[k [m1 t1]] d IH]; [discriminate|].
  cbn [dict_get map fst snd In]. destruct (pystr_eqb id k).
  - intros H. injection H as -> _. left. reflexivity.
  - intros H. right. exact (IH H).
Qed.

Lemma retransmit_entries_wire (t : Q) (es : list (pystr * (Message * Q))) :
  forall c,
    sock_open c = true ->
    Forall framable (pending_values c) ->
    (forall k m t0,
       In (k, (m, t0)) es ->
       exists t', dict_get k (pending_messages c) = Some (m, t')) ->
    wire (fold_left (retransmit_one t) (map fst es) c)
    = wire c ++ map (fun e => fst (snd e)) es /\
    sock_open (fold_left (retransmit_one t) (map fst es) c) = true /\
    running (fold_left (retransmit_one t) (map fst es) c) = running c.
Proof.
  induction es as [|[k [m t0]] es IH]; intros c Ho Hf Hes; cbn [map fold_left fst].
  - rewrite app_nil_r. auto.
  - destruct (Hes k m t0 (or_introl eq_refl)) as (t' & Hk).
    destruct (retransmit_one_table t c k) as (_ & _ & Hv & _).
    assert (Hm : framable m).
    { apply (proj1 (Forall_forall _ _) Hf). exact (dict_get_value k m t' c Hk). }
    assert (Hone : retransmit_one t c k
                   = with_cc (on_timeout (congestion_control c))
                       (with_pending (dict_set k (m, t) (pending_messages c))
                          (with_wire (wire c ++ [m]) c))).
    { unfold retransmit_one. rewrite Hk, (send_raw_open m c Ho Hm). reflexivity. }
    destruct (IH (retransmit_one t c k)) as (Hw & Ho' & Hr').
    + rewrite Hone. exact Ho.
    + rewrite Hv. exact Hf.
    + intros k2 m2 t2 Hin.
      destruct (Hes k2 m2 t2 (or_intror Hin)) as (t2' & Hk2).
      rewrite Hone. cbn [pending_messages with_cc with_pending].
      destruct (list_eq_dec N.eq_dec k2 k) as [->|Hne].
      * rewrite dict_get_set_eq. rewrite Hk in Hk2. injection Hk2 as -> _.
        eexists. reflexivity.
      * rewrite (dict_get_set_neq k2 k _ _ Hne). eexists. exact Hk2.
    + rewrite Hw, Ho', Hr', Hone.
      cbn [wire running with_cc with_pending with_wire snd fst].
      rewrite <- app_assoc. auto.
Qed.

Lemma send_new_fifo (n : nat) (t : Q) :
  forall c,
    sock_open c = true ->
    Forall framable (send_queue c) ->
    send_queue (send_new n t c)
    = skipn (Nat.min n (length (send_queue c))) (send_queue c) /\
    wire (send_new n t c)
    = wire c ++ firstn (Nat.min n (length (send_queue c))) (send_queue c) /\
    running (send_new n t c) = running c.
Proof.
  induction n as [|n IH]; intros c Ho Hf; cbn [send_new].
  - cbn [Nat.min skipn firstn]. rewrite app_nil_r. auto.
  - destruct (send_queue c) as [|m q] eqn:Eq.
    + cbn [length Nat.min skipn firstn]. rewrite app_nil_r. auto.
    + apply Forall_cons_iff in Hf. destruct Hf as (Hm & Hq).
      rewrite (send_raw_open m (with_queue q c) Ho Hm).
      cbn [wire with_queue].
      match goal with |- context [send_new n t ?x] =>
        destruct (IH x) as (H1 & H2 & H3);
          [destruct (is_ack (msg_type m)); exact Ho
          |destruct (is_ack (msg_type m)); exact Hq|] end.
      rewrite H1, H2, H3. cbn [length Nat.min skipn firstn].
      destruct (is_ack (msg_type m));
        cbn [send_queue wire running with_wire with_queue with_pending];
        rewrite <- app_assoc; auto.
Qed.

(** X14: on a running connection whose socket takes every frame, one turn
    of the sender loop writes first the pending messages whose last
    transmission is more than rto old, in the order of the pending table,
    and then the first k messages of the queue, in queue order, where k is
    the smaller of the queue's length and the room left in the window,
    max(0, int(cwnd) - in flight), cwnd being taken after the timeouts; it
    removes exactly those k messages from the queue.  Nothing queued is
    skipped or reordered. *)
Theorem sender_sends_in_queue_order (t : Q) (c : ClientConnection) :
  running c = true ->
  sock_open c = true ->
  unique_keys (pending_messages c) ->
  Forall framable (pending_values c) ->
  Forall framable (send_queue c) ->
  let k :=
    Nat.min
      (Z.to_nat
         (Z.max 0 (int_of_Q (cwnd (congestion_control (_sender_worker t c)))
                   - Z.of_nat (length (pending_messages c)))))
      (length (send_queue c)) in
  wire (_sender_worker t c)
  = wire c
    ++ map (fun e => fst (snd e))
         (filter (fun e => Qgtb (t - snd (snd e)) (rto (congestion_control c)))
                 (pending_messages c))
    ++ firstn k (send_queue c) /\
  send_queue (_sender_worker t c) = skipn k (send_queue c) /\
  running (_sender_worker t c) = true.
Proof.
  intros Er Ho Hu Hp Hq. unfold _sender_worker. rewrite Er.
  unfold sender_pass, to_retransmit. cbv zeta.
  set (old := filter (fun e => Qgtb (t - snd (snd e))
                                    (rto (congestion_control c)))
                     (pending_messages c)).
  destruct (retransmit_entries_wire t old c Ho Hp) as (Hw & Ho1 & Hr1).
  { intros k m t0 Hin. unfold old in Hin. apply filter_In in Hin.
    exists t0. apply in_dict_get; [exact Hu | exact (proj1 Hin)]. }
  destruct (retransmit_all_pending t (map fst old) c) as (Hlen & _ & _ & Hq1).
  set (c1 := fold_left (retransmit_one t) (map fst old) c) in *.
  set (n := Z.to_nat (Z.max 0 (int_of_Q (cwnd (congestion_control c1))
                               - Z.of_nat (length (pending_messages c1))))).
  destruct (send_new_fifo n t c1 Ho1) as (H1 & H2 & H3);
    [rewrite Hq1; exact Hq|].
  destruct (ServerProps.send_new_control n t c1) as (Hcc & _).
  rewrite Hq1 in H1, H2. rewrite Hcc.
  replace (Z.to_nat (Z.max 0 (int_of_Q (cwnd (congestion_control c1))
                              - Z.of_nat (length (pending_messages c)))))
    with n by (unfold n; rewrite Hlen; reflexivity).
  rewrite H1, H2, H3, Hw, Hr1, Er, <- app_assoc. auto.
Qed.

Section Acknowledged.
Variable float_of_literal : pystr -> option pyfloat.

Lemma handle_ack_unique (now : Q) (m : Message) (c : ClientConnection) :
  unique_keys (pending_messages c) ->
  unique_keys (pending_messages (handle_ack float_of_literal now m c)).
Proof.
  intros H. unfold handle_ack.
  destruct (ack_for float_of_literal (content m)) as [id|]; [|exact H].
  destruct (dict_get id (pending_messages c)) as [[m0 t0]|]; [|exact H].
  destruct (on_ack_received _ _ _); [|exact H].
  cbn [pending_messages with_pending with_cc]. apply dict_del_unique. exact H.
Qed.

Lemma conn_run_unique (es : list conn_event) :
  forall c,
    unique_keys (pending_messages c) ->
    unique_keys (pending_messages (conn_run float_of_literal es c)).
Proof.
  induction es as [|e es IH]; intros c H; [exact H|].
  unfold conn_run. cbn [fold_left].
  apply IH. destruct e as [m|t|now m|]; cbn [conn_step].
  - unfold send_message. destruct (running c); exact H.
  - apply sender_worker_unique. exact H.
  - apply handle_ack_unique. exact H.
  - exact H.
Qed.

(** X15: on a connection that started fresh, handling the ACK of a pending
    message removes that message from the pending table and nothing else:
    every other entry, the queue and the wire stay as they were, and the
    same ACK handled again, at any time, changes nothing. *)
Theorem ack_is_honoured_once
  (id0 : pystr) (t0 : Q) (es : list conn_event)
  (now : Q) (ack_message : Message) (id : pystr) (m : Message) (send_time : Q) :
  let c := conn_run float_of_literal es (ClientConnection_init id0 t0) in
  let c' := handle_ack float_of_literal now ack_message c in
  ack_for float_of_literal (content ack_message) = Some id ->
  dict_get id (pending_messages c) = Some (m, send_time) ->
  dict_get id (pending_messages c') = None /\
  (forall id', id' <> id ->
     dict_get id' (pending_messages c') = dict_get id' (pending_messages c)) /\
  length (pending_messages c) = S (length (pending_messages c')) /\
  send_queue c' = send_queue c /\ wire c' = wire c /\
  (forall now', handle_ack float_of_literal now' ack_message c' = c').
Proof.
  intros c c' Hid Hp.
  assert (Hok : conn_ok c).
  { apply ServerProps.conn_run_ok. unfold conn_ok. apply ack_inv_init. }
  assert (Hu : unique_keys (pending_messages c)).
  { apply conn_run_unique. apply NoDup_nil. }
  destruct (ack_inv_expected (expected_ack c) (now - send_time) _ Hok)
    as (cc' & Hret & _).
  assert (Hc' : pending_messages c' = dict_del id (pending_messages c) /\
                send_queue c' = send_queue c /\ wire c' = wire c).
  { unfold c', handle_ack. rewrite Hid, Hp, Hret. repeat split. }
  destruct Hc' as (Hpend & Hqueue & Hwire).
  assert (Hgone : dict_get id (pending_messages c') = None).
  { rewrite Hpend. apply dict_get_del_eq. exact Hu. }
  split; [exact Hgone|]. split; [|split; [|split; [exact Hqueue|split]]].
  - intros id' Hne. rewrite Hpend. apply dict_get_del_neq. exact Hne.
  - rewrite Hpend. apply (dict_del_length id (m, send_time)). exact Hp.
  - exact Hwire.
  - intros now'. unfold handle_ack at 1. rewrite Hid, Hgone. reflexivity.
Qed.

Lemma retransmit_all_last_ack (t : Q) (ids : list pystr) :
  forall c,
    last_ack (congestion_control (fold_left (retransmit_one t) ids c))
    = last_ack (congestion_control c) /\
    expected_ack (fold_left (retransmit_one t) ids c) = expected_ack c.
Proof.
  induction ids as [|id ids IH]; intros c; cbn [fold_left]; [auto|].
  destruct (IH (retransmit_one t c id)) as (H1 & H2). rewrite H1, H2.
  unfold retransmit_one.
  destruct (dict_get id (pending_messages c)) as [[m t0]|]; [|auto].
  destruct (ServerProps.send_raw_control m c) as (Hcc & He & _).
  cbn [congestion_control with_cc with_pending expected_ack on_timeout last_ack].
  rewrite Hcc, He. auto.
Qed.

(** The controller has acknowledged one number less than the connection
    will hand it next, nothing before the first ACK. *)
Lemma conn_run_numbering (es : list conn_event) :
  forall c,
    (0 <= expected_ack c)%Z ->
    last_ack (congestion_control c) = Z.max 0 (expected_ack c - 1) ->
    conn_ok c ->
    (0 <= expected_ack (conn_run float_of_literal es c))%Z /\
    last_ack (congestion_control (conn_run float_of_literal es c))
    = Z.max 0 (expected_ack (conn_run float_of_literal es c) - 1).
Proof.
  induction es as [|e es IH]; intros c H0 Hl Hok; [auto|].
  unfold conn_run. cbn [fold_left].
  fold (conn_run float_of_literal es (conn_step float_of_literal c e)).
  pose proof (ServerProps.conn_step_ok float_of_literal c e Hok) as Hok'.
  assert (H : (0 <= expected_ack (conn_step float_of_literal c e))%Z /\
              last_ack (congestion_control (conn_step float_of_literal c e))
              = Z.max 0 (expected_ack (conn_step float_of_literal c e) - 1)).
  { destruct e as [m|t|now m|]; cbn [conn_step].
    - unfold send_message. destruct (running c); auto.
    - unfold _sender_worker. destruct (running c); [|auto].
      unfold sender_pass. cbv zeta.
      match goal with |- context [send_new ?n t ?x] =>
        destruct (ServerProps.send_new_control n t x) as (H1 & H2) end.
      rewrite H1, H2.
      destruct (retransmit_all_last_ack t (to_retransmit t c) c) as (G1 & G2).
      rewrite G1, G2. auto.
    - unfold handle_ack.
      destruct (ack_for float_of_literal (content m)) as [id|]; [|auto].
      destruct (dict_get id (pending_messages c)) as [[m0 t0]|]; [|auto].
      destruct (ack_inv_expected (expected_ack c) (now - t0) _ Hok)
        as (cc' & Hret & _).
      rewrite Hret.
      cbn [expected_ack congestion_control with_cc with_pending].
      split; [lia|].
      assert (Hcc : cc' = state_of (on_ack_received (expected_ack c) (now - t0)
                                      (congestion_control c)))
        by (rewrite Hret; reflexivity).
      rewrite Hcc. unfold on_ack_received.
      change (last_ack (update_rtt (now - t0) (congestion_control c)))
        with (last_ack (congestion_control c)).
      rewrite Hl.
      destruct (Z.eq_dec (expected_ack c) 0) as [E0|E0].
      + replace (expected_ack c >? Z.max 0 (expected_ack c - 1))%Z with false
          by (symmetry; rewrite Z.gtb_ltb; apply Z.ltb_ge; lia).
        replace (expected_ack c =? Z.max 0 (expected_ack c - 1))%Z with true
          by (symmetry; apply Z.eqb_eq; lia).
        change (duplicate_acks (note_dup_ack (update_rtt (now - t0)
                                                (congestion_control c))))
          with (duplicate_acks (congestion_control c) + 1)%Z.
        destruct (duplicate_acks (congestion_control c) + 1 =? 3)%Z;
          [cbn [state_of fast_retransmit note_dup_ack update_rtt last_ack]; lia|].
        change (state (note_dup_ack (update_rtt (now - t0) (congestion_control c))))
          with (state (congestion_control c)).
        destruct (state (congestion_control c));
          cbn [state_of set_window note_dup_ack last_ack update_rtt]; lia.
      + replace (expected_ack c >? Z.max 0 (expected_ack c - 1))%Z with true
          by (symmetry; apply Z.gtb_lt; lia).
        change (state (note_new_ack (expected_ack c)
                         (update_rtt (now - t0) (congestion_control c))))
          with (state (congestion_control c)).
        destruct (state (congestion_control c)).
        * destruct (Qgeb _ _); cbn [state_of set_window note_new_ack last_ack]; lia.
        * destruct (Qeq_bool _ _);
            cbn [state_of set_window note_new_ack last_ack]; lia.
        * cbn [state_of set_window note_new_ack last_ack]. lia.
    - auto. }
  destruct H as (H0' & Hl'). apply IH; assumption.
Qed.

(** X24: on a connection that started fresh, the first ACK that matches a
    pending message is handed to the controller with the number 0, which
    the controller takes for a duplicate of its initial [last_ack]: the
    window, the threshold and the state stay as they were.  Every later
    matching ACK is a new one: in SLOW_START it adds exactly 1 to cwnd, in
    CONGESTION_AVOIDANCE exactly 1 / cwnd. *)
Theorem first_ack_does_not_grow_window
  (id0 : pystr) (t0 : Q) (es : list conn_event)
  (now : Q) (ack_message : Message) (id : pystr) (m : Message) (send_time : Q) :
  let c := conn_run float_of_literal es (ClientConnection_init id0 t0) in
  let c' := handle_ack float_of_literal now ack_message c in
  ack_for float_of_literal (content ack_message) = Some id ->
  dict_get id (pending_messages c) = Some (m, send_time) ->
  (expected_ack c = 0%Z ->
   cwnd (congestion_control c') = cwnd (congestion_control c) /\
   ssthresh (congestion_control c') = ssthresh (congestion_control c) /\
   state (congestion_control c') = state (congestion_control c)) /\
  ((1 <= expected_ack c)%Z ->
   (state (congestion_control c) = SLOW_START ->
    cwnd (congestion_control c') = cwnd (congestion_control c) + 1) /\
   (state (congestion_control c) = CONGESTION_AVOIDANCE ->
    cwnd (congestion_control c')
    = cwnd (congestion_control c) + 1 / cwnd (congestion_control c))).
Proof.
  intros c c' Hid Hp.
  assert (Hok : conn_ok c).
  { apply ServerProps.conn_run_ok. unfold conn_ok. apply ack_inv_init. }
  destruct (conn_run_numbering es (ClientConnection_init id0 t0))
    as (H0 & Hl); [cbn; lia | reflexivity | unfold conn_ok; apply ack_inv_init |].
  fold c in H0, Hl.
  destruct (ack_inv_expected (expected_ack c) (now - send_time) _ Hok)
    as (cc' & Hret & _).
  assert (Hc' : congestion_control c'
                = state_of (on_ack_received (expected_ack c) (now - send_time)
                              (congestion_control c))).
  { unfold c', handle_ack. rewrite Hid, Hp, Hret. reflexivity. }
  destruct Hok as (Hdup & Hnfr & _ & Hzero & Hw & _).
  rewrite Hc'. unfold on_ack_received.
  change (last_ack (update_rtt (now - send_time) (congestion_control c)))
    with (last_ack (congestion_control c)).
  rewrite Hl. split.
  - intros E0.
    replace (expected_ack c >? Z.max 0 (expected_ack c - 1))%Z with false
      by (symmetry; rewrite Z.gtb_ltb; apply Z.ltb_ge; lia).
    replace (expected_ack c =? Z.max 0 (expected_ack c - 1))%Z with true
      by (symmetry; apply Z.eqb_eq; lia).
    change (duplicate_acks (note_dup_ack (update_rtt (now - send_time)
                                            (congestion_control c))))
      with (duplicate_acks (congestion_control c) + 1)%Z.
    replace (duplicate_acks (congestion_control c) + 1 =? 3)%Z with false
      by (symmetry; apply Z.eqb_neq; lia).
    change (state (note_dup_ack (update_rtt (now - send_time)
                                   (congestion_control c))))
      with (state (congestion_control c)).
    destruct (state (congestion_control c)) eqn:Es;
      [repeat split; exact Es | repeat split; exact Es | congruence].
  - intros H1.
    replace (expected_ack c >? Z.max 0 (expected_ack c - 1))%Z with true
      by (symmetry; apply Z.gtb_lt; lia).
    change (state (note_new_ack (expected_ack c)
                     (update_rtt (now - send_time) (congestion_control c))))
      with (state (congestion_control c)).
    split; intros Es; rewrite Es.
    + destruct (Qgeb _ _); reflexivity.
    + change (cwnd (note_new_ack (expected_ack c)
                      (update_rtt (now - send_time) (congestion_control c))))
        with (cwnd (congestion_control c)).
      destruct (Qeq_bool (cwnd (congestion_control c)) 0) eqn:E; [|reflexivity].
      apply Qeq_bool_iff in E. exfalso. lra.
Qed.

End Acknowledged.

End ConnectionProps.

(** ** The registry of clients *)

Lemma server_new_message_fields
  (id : pystr) (t : Server.MessageType) (sndr cnt : pystr) (ts : pyfloat)
  (m : Server.Message) :
  Server.new_Message id t sndr cnt ts = Ok m ->
  Server.is_valid m = Ok true /\
  Server.msg_id m = id /\ Server.msg_type m = t /\ Server.sender m = sndr /\
  Server.content m = cnt /\ Server.timestamp m = ts.
Proof.
  intros H. unfold Server.new_Message in H.
  pose proof (fun E => server_post_init_valid _ m E H) as HH.
  destruct (HH eq_refl) as (Hv & (c & _ & ->) & _).
  repeat split; assumption.
Qed.

Lemma dict_get_map {V : Type} (f : pystr -> V -> V) (id : pystr)
                   (d : list (pystr * V)) :
  dict_get id (map (fun kv => (fst kv, f (fst kv) (snd kv))) d)
  = match dict_get id d with
    | Some v => Some (f id v)
    | None => None
    end.
Proof.
  induction d as [|[k v] d IH]; [reflexivity|].
  cbn [map fst snd dict_get]. destruct (pystr_eqb id k) eqn:E; [|exact IH].
  apply pystr_eqb_eq in E. subst k. reflexivity.
Qed.

Lemma dict_keys_map {V : Type} (f : pystr -> V -> V) (d : list (pystr * V)) :
  dict_keys (map (fun kv => (fst kv, f (fst kv) (snd kv))) d) = dict_keys d.
Proof.
  unfold dict_keys. rewrite map_map. reflexivity.
Qed.

Lemma dict_keys_set_mem {V : Type} (k : pystr) (v v0 : V) (d : list (pystr * V)) :
  dict_get k d = Some v0 -> dict_keys (dict_set k v d) = dict_keys d.
Proof.
  intros H. rewrite dict_keys_set. unfold dict_mem. rewrite H. reflexivity.
Qed.

Lemma dict_keys_del {V : Type} (k : pystr) (d : list (pystr * V)) :
  unique_keys d ->
  dict_keys (dict_del k d) = filter (fun x => negb (pystr_eqb x k)) (dict_keys d).
Proof.
  unfold unique_keys, dict_keys.
  induction d as [|[k0 v0] d IH]; intros H; [reflexivity|].
  cbn [map fst] in H. apply NoDup_cons_iff in H. destruct H as (Hin & Hd).
  cbn [dict_del map fst filter]. rewrite (pystr_eqb_sym k0 k).
  destruct (pystr_eqb k k0) eqn:E; cbn [negb].
  - apply pystr_eqb_eq in E. subst k0. symmetry.
    apply forallb_filter_id. apply forallb_forall.
    intros x Hx. apply negb_true_iff, pystr_eqb_neq. intros ->.
    exact (Hin Hx).
  - cbn [map fst]. rewrite (IH Hd). reflexivity.
Qed.

Lemma queue_extended_refl (c : Server.ClientConnection) : queue_extended c c.
Proof. exists []. rewrite app_nil_r. destruct c; reflexivity. Qed.

Lemma queue_extended_trans (a b c : Server.ClientConnection) :
  queue_extended a b -> queue_extended b c -> queue_extended a c.
Proof.
  intros (x & ->) (y & ->). exists (x ++ y).
  cbn [Server.send_queue Server.with_queue]. rewrite app_assoc. reflexivity.
Qed.

Lemma send_message_extends (m : Server.Message) (c : Server.ClientConnection) :
  queue_extended c (Server.send_message m c).
Proof.
  unfold Server.send_message. destruct (Server.running c).
  - exists [m]. reflexivity.
  - apply queue_extended_refl.
Qed.

Lemma server_new_message_total
  (id : pystr) (t : Server.MessageType) (sndr cnt : pystr) (ts : pyfloat) :
  forallb encodable (id ++ sndr ++ cnt ++ float_repr ts) = true <->
  exists m, Server.new_Message id t sndr cnt ts = Ok m.
Proof.
  unfold Server.new_Message, Server.post_init, Server.calculate_checksum.
  cbn [Server.checksum]. unfold Server.checksum_data.
  cbn [Server.msg_id Server.msg_type Server.sender Server.content
       Server.timestamp].
  split.
  - intros H. rewrite !forallb_app, !andb_true_iff in H.
    destruct H as (Hid & Hsnd & Hcnt & Hts).
    destruct (encode_total (id ++ Server.value t ++ sndr ++ cnt ++ float_repr ts))
      as (b & Eb).
    { rewrite !forallb_app, Hid, Hsnd, Hcnt, Hts.
      rewrite (ascii_encodable _ (server_value_ascii t)). reflexivity. }
    rewrite Eb. cbn [bind]. eexists. reflexivity.
  - intros (m & H).
    destruct (encode_utf8 (id ++ Server.value t ++ sndr ++ cnt ++ float_repr ts))
      as [b|e] eqn:Eb; [|discriminate H].
    apply encode_encodable in Eb.
    rewrite !forallb_app, !andb_true_iff in Eb.
    destruct Eb as (Hid & _ & Hsnd & Hcnt & Hts).
    rewrite !forallb_app, Hid, Hsnd, Hcnt, Hts. reflexivity.
Qed.

Module RegistryProps.
Import Server.

#[local] Opaque to_bytes new_Message.

(** What [_broadcast_message] does to one entry of the registry. *)
Lemma broadcast_returned (st : stamp) (text : pystr) (ex : option pystr)
                         (s s' : ChatServer) :
  _broadcast_message st text ex s = Returned s' ->
  exists message,
    new_Message (fresh_id (py "broadcast") st) CHAT (py "server") text
                (clock_ts st) = Ok message /\
    clients s'
    = map (fun kv =>
             (fst kv,
              if negb (excluded ex (fst kv)) && running (snd kv)
              then send_message message (snd kv) else snd kv))
          (clients s) /\
    server_running s' = server_running s /\
    packet_loss_rate s' = packet_loss_rate s /\
    artificial_delay s' = artificial_delay s.
Proof.
  unfold _broadcast_message.
  destruct (new_Message _ _ _ _ _) as [message|e]; [|discriminate].
  intros H. injection H as <-. exists message. split; [reflexivity|].
  cbn [clients with_clients server_running packet_loss_rate artificial_delay].
  split; [|auto]. apply map_ext. intros [k c]. unfold excluded.
  cbn [fst snd]. destruct (negb _ && running c); reflexivity.
Qed.

Lemma broadcast_delivery (st : stamp) (text : pystr) (ex : option pystr)
                         (s s' : ChatServer) :
  _broadcast_message st text ex s = Returned s' ->
  exists message,
    is_valid message = Ok true /\
    msg_id message = fresh_id (py "broadcast") st /\
    msg_type message = CHAT /\ sender message = py "server" /\
    content message = text /\
    dict_keys (clients s') = dict_keys (clients s) /\
    forall id c,
      dict_get id (clients s) = Some c ->
      dict_get id (clients s')
      = Some (if negb (excluded ex id) && running c
              then with_queue (send_queue c ++ [message]) c else c).
Proof.
  intros H.
  destruct (broadcast_returned st text ex s s' H)
    as (message & Hnew & Hcl & _).
  destruct (server_new_message_fields _ _ _ _ _ _ Hnew)
    as (Hv & Hid & Ht & Hs & Hc & _).
  exists message. repeat (split; [assumption|]). rewrite Hcl. split.
  - apply (dict_keys_map
             (fun k c => if negb (excluded ex k) && running c
                         then send_message message c else c)).
  - intros id c Hget.
    rewrite (dict_get_map
               (fun k c => if negb (excluded ex k) && running c
                           then send_message message c else c)).
    rewrite Hget. unfold send_message.
    destruct (negb (excluded ex id)); cbn [andb]; [|reflexivity].
    destruct (running c); reflexivity.
Qed.

(** X16: [_broadcast_message] either raises before it touches anything,
    which happens exactly when the text or the printed timestamp cannot be
    encoded, or builds one CHAT message from the sender server with the
    given text, whose checksum verifies, and appends that one message to
    the queue of every registered connection that is running and is not
    the excluded one; the excluded and the stopped connections, and the set
    of registered identifiers, stay as they were. *)
Theorem broadcast_reaches_everyone_else
  (st : stamp) (text : pystr) (ex : option pystr) (s : ChatServer) :
  (forall e s',
     _broadcast_message st text ex s = Raised e s' ->
     s' = s /\ forallb encodable (text ++ float_repr (clock_ts st)) = false) /\
  (forall s',
     _broadcast_message st text ex s = Returned s' ->
     forallb encodable (text ++ float_repr (clock_ts st)) = true /\
     exists message,
       is_valid message = Ok true /\
       msg_id message = fresh_id (py "broadcast") st /\
       msg_type message = CHAT /\ sender message = py "server" /\
       content message = text /\
       dict_keys (clients s') = dict_keys (clients s) /\
       forall id c,
         dict_get id (clients s) = Some c ->
         dict_get id (clients s')
         = Some (if negb (excluded ex id) && running c
                 then with_queue (send_queue c ++ [message]) c else c)).
Proof.
  split.
  - intros e s' H. unfold _broadcast_message in H.
    destruct (new_Message (fresh_id (py "broadcast") st) CHAT (py "server") text
                (clock_ts st)) as [message|e0] eqn:E; [discriminate H|].
    injection H as _ <-. split; [reflexivity|].
    destruct (forallb encodable (text ++ float_repr (clock_ts st))) eqn:Enc;
      [|reflexivity].
    exfalso.
    destruct (proj1 (server_new_message_total (fresh_id (py "broadcast") st)
                       CHAT (py "server") text (clock_ts st))) as (m & Hm).
    + rewrite forallb_app in Enc. apply andb_true_iff in Enc.
      rewrite !forallb_app, (proj1 Enc), (proj2 Enc).
      rewrite (ascii_encodable _ (fresh_id_ascii (py "broadcast") st eq_refl)).
      reflexivity.
    + rewrite E in Hm. discriminate Hm.
  - intros s' H. split; [|exact (broadcast_delivery st text ex s s' H)].
    destruct (broadcast_returned st text ex s s' H) as (message & Hnew & _).
    pose proof (proj2 (server_new_message_total _ _ _ _ _)
                  (ex_intro _ message Hnew)) as Henc.
    rewrite !forallb_app, !andb_true_iff in Henc.
    destruct Henc as (_ & _ & Htext & Hts).
    rewrite forallb_app, Htext, Hts. reflexivity.
Qed.

Lemma filter_absent (k : pystr) (l : list pystr) :
  ~ In k l -> filter (fun x => negb (pystr_eqb x k)) l = l.
Proof.
  intros H. apply forallb_filter_id. apply forallb_forall.
  intros x Hx. apply negb_true_iff, pystr_eqb_neq. intros ->. exact (H Hx).
Qed.

(** The notices a disconnection sends: one when the client had a name. *)
Lemma disconnect_returned (st : stamp) (id : pystr) (s s' : ChatServer)
                          (conn : ClientConnection) :
  unique_keys (clients s) ->
  dict_get id (clients s) = Some conn ->
  _disconnect_client st id s = Returned s' ->
  exists notices,
    match username conn with
    | [] => notices = []
    | _ :: _ =>
        exists notice,
          notices = [notice] /\
          new_Message (fresh_id (py "broadcast") st) CHAT (py "server")
            (py "*** " ++ username conn ++ py " left the chat ***")
            (clock_ts st) = Ok notice
    end /\
    clients s'
    = dict_del id
        (map (fun kv =>
                (fst kv,
                 if negb (pystr_eqb (fst kv) id) && running (snd kv)
                 then with_queue (send_queue (snd kv) ++ notices) (snd kv)
                 else snd kv))
             (clients s)) /\
    server_running s' = server_running s /\
    packet_loss_rate s' = packet_loss_rate s /\
    artificial_delay s' = artificial_delay s.
Proof.
  intros Hu Hget H. unfold _disconnect_client in H. rewrite Hget in H.
  assert (Hdel : forall (d : list (pystr * ClientConnection)) (c0 : ClientConnection),
             dict_del id (dict_set id c0 d) = dict_del id d).
  { intros d c0. induction d as [|[k v] d IH]; cbn [dict_set dict_del].
    - rewrite pystr_eqb_refl. reflexivity.
    - destruct (pystr_eqb id k) eqn:E; cbn [dict_del]; rewrite ?pystr_eqb_refl, ?E;
        [reflexivity | rewrite IH; reflexivity]. }
  destruct (username conn) as [|u0 name] eqn:Eu.
  - injection H as <-. exists []. split; [reflexivity|].
    unfold on_client. rewrite Hget.
    cbn [clients with_clients server_running packet_loss_rate artificial_delay].
    rewrite Hdel. split; [|auto]. f_equal.
    rewrite <- (map_id (clients s)) at 1. apply map_ext.
    intros [k c]. cbn [fst snd]. rewrite app_nil_r.
    destruct (negb (pystr_eqb k id) && running c); [|reflexivity].
    destruct c; reflexivity.
  - destruct (_broadcast_message st _ (Some id) s) as [s1|e s1] eqn:Eb;
      [|discriminate H].
    injection H as <-.
    destruct (broadcast_returned _ _ _ _ _ Eb) as (notice & Hnew & Hcl & Hr).
    exists [notice]. split; [exists notice; split; [reflexivity | exact Hnew]|].
    unfold on_client.
    destruct (dict_get id (clients s1)) as [conn1|];
      cbn [clients with_clients server_running packet_loss_rate artificial_delay];
      rewrite ?Hdel, Hcl; (split; [|exact Hr]); f_equal; apply map_ext;
      intros [k c]; unfold excluded, send_message; cbn [fst snd];
      destruct (negb (pystr_eqb k id)); cbn [andb]; try reflexivity;
      destruct (running c); reflexivity.
Qed.

Lemma disconnect_unknown (st : stamp) (id : pystr) (s : ChatServer) :
  dict_get id (clients s) = None -> _disconnect_client st id s = Returned s.
Proof. intros H. unfold _disconnect_client. rewrite H. reflexivity. Qed.

Lemma disconnect_registry (st : stamp) (id : pystr) (s s' : ChatServer) :
  unique_keys (clients s) ->
  _disconnect_client st id s = Returned s' ->
  unique_keys (clients s') /\
  dict_get id (clients s') = None /\
  dict_keys (clients s')
  = filter (fun x => negb (pystr_eqb x id)) (dict_keys (clients s)) /\
  (forall j c,
     j <> id -> dict_get j (clients s) = Some c ->
     exists c', dict_get j (clients s') = Some c' /\ queue_extended c c') /\
  server_running s' = server_running s.
Proof.
  intros Hu H. destruct (dict_get id (clients s)) as [conn|] eqn:Hget.
  - destruct (disconnect_returned st id s s' conn Hu Hget H)
      as (notices & _ & Hcl & Hrun & _).
    set (g := fun (k : pystr) (c : ClientConnection) =>
                if negb (pystr_eqb k id) && running c
                then with_queue (send_queue c ++ notices) c else c).
    change (clients s' = dict_del id (map (fun kv => (fst kv, g (fst kv) (snd kv)))
                                          (clients s))) in Hcl.
    assert (Hu1 : unique_keys (map (fun kv => (fst kv, g (fst kv) (snd kv)))
                                   (clients s))).
    { unfold unique_keys. rewrite dict_keys_map. exact Hu. }
    rewrite Hcl. split; [apply dict_del_unique; exact Hu1|].
    split; [apply dict_get_del_eq; exact Hu1|].
    split; [rewrite (dict_keys_del id _ Hu1), dict_keys_map; reflexivity|].
    split; [|exact Hrun].
    intros j c Hne Hj. rewrite (dict_get_del_neq j id _ Hne).
    rewrite (dict_get_map g), Hj. eexists. split; [reflexivity|].
    unfold g. destruct (negb (pystr_eqb j id) && running c).
    + exists notices. reflexivity.
    + apply queue_extended_refl.
  - rewrite (disconnect_unknown st id s Hget) in H. injection H as <-.
    split; [exact Hu|]. split; [exact Hget|].
    split; [symmetry; apply filter_absent, dict_get_none; exact Hget|].
    split; [|reflexivity].
    intros j c _ Hj. exists c. split; [exact Hj | apply queue_extended_refl].
Qed.

(** X17: when [_disconnect_client] returns, the identifier is no longer
    registered and every other registration is still there, in the same
    order; if the client had a name, every other running connection has
    exactly one notice more in its queue, the same for all, saying that
    this name left the chat, and nothing else about it changed; if it had
    none, no queue changed.  Disconnecting the same identifier again
    changes nothing. *)
Theorem disconnect_removes_client
  (st : stamp) (id : pystr) (s s' : ChatServer) (conn : ClientConnection) :
  unique_keys (clients s) ->
  dict_get id (clients s) = Some conn ->
  _disconnect_client st id s = Returned s' ->
  dict_get id (clients s') = None /\
  dict_keys (clients s')
  = filter (fun x => negb (pystr_eqb x id)) (dict_keys (clients s)) /\
  (exists notices,
     match username conn with
     | [] => notices = []
     | _ :: _ =>
         exists notice,
           notices = [notice] /\ is_valid notice = Ok true /\
           msg_type notice = CHAT /\ sender notice = py "server" /\
           content notice
           = py "*** " ++ username conn ++ py " left the chat ***"
     end /\
     forall j c,
       j <> id -> dict_get j (clients s) = Some c ->
       dict_get j (clients s')
       = Some (if running c then with_queue (send_queue c ++ notices) c
               else c)) /\
  (forall st', _disconnect_client st' id s' = Returned s').
Proof.
  intros Hu Hget H.
  destruct (disconnect_registry st id s s' Hu H) as (_ & Hgone & Hkeys & _).
  split; [exact Hgone|]. split; [exact Hkeys|].
  split; [|intros st'; apply disconnect_unknown; exact Hgone].
  destruct (disconnect_returned st id s s' conn Hu Hget H)
    as (notices & Hn & Hcl & _).
  exists notices. split.
  - destruct (username conn) as [|u0 name]; [exact Hn|].
    destruct Hn as (notice & -> & Hnew).
    destruct (server_new_message_fields _ _ _ _ _ _ Hnew)
      as (Hv & _ & Ht & Hs & Hc & _).
    exists notice. repeat split; assumption.
  - intros j c Hne Hj. rewrite Hcl, (dict_get_del_neq j id _ Hne).
    rewrite (dict_get_map
               (fun k c => if negb (pystr_eqb k id) && running c
                           then with_queue (send_queue c ++ notices) c else c)).
    rewrite Hj, (proj2 (pystr_eqb_neq j id) Hne). reflexivity.
Qed.

Section Acknowledging.
Variable float_of_literal : pystr -> option pyfloat.

Lemma handle_ack_queue (now : Q) (m : Message) (c : ClientConnection) :
  send_queue (handle_ack float_of_literal now m c) = send_queue c /\
  last_heartbeat (handle_ack float_of_literal now m c) = last_heartbeat c.
Proof.
  unfold handle_ack.
  destruct (ack_for float_of_literal (content m)) as [id|]; [|auto].
  destruct (dict_get id (pending_messages c)) as [[m0 t0]|]; [|auto].
  destruct (on_ack_received _ _ _); auto.
Qed.

(** X18: for every message other than an ACK or a LEAVE that
    [_process_message] handles for a registered, running connection, the
    connection's queue gains exactly one message: an ACK from the sender
    server whose checksum verifies and whose content names the identifier
    of the handled message, as [handle_ack] reads it; the connection's
    [last_heartbeat] becomes the current time.  An ACK is handled without
    anything being queued in return. *)
Theorem every_message_is_acknowledged
  (env : readings) (id : pystr) (message : Message) (s : ChatServer)
  (c : ClientConnection) :
  dict_get id (clients s) = Some c ->
  (running c = true ->
   msg_type message <> ACK -> msg_type message <> LEAVE ->
   forallb encodable (msg_id message) = true ->
   ascii_only (float_repr (clock_ts (ack_stamp env))) = true ->
   exists ack c',
     dict_get id
       (clients (state_of (_process_message float_of_literal env id message s)))
     = Some c' /\
     send_queue c' = send_queue c ++ [ack] /\
     last_heartbeat c' = now env /\
     is_valid ack = Ok true /\ msg_type ack = ACK /\
     sender ack = py "server" /\
     ack_for float_of_literal (content ack) = Some (msg_id message)) /\
  (msg_type message = ACK ->
   exists c',
     dict_get id
       (clients (state_of (_process_message float_of_literal env id message s)))
     = Some c' /\
     send_queue c' = send_queue c /\ last_heartbeat c' = now env).
Proof.
  intros Hreg.
  pose proof (ServerProps.on_client_get id (with_heartbeat (now env)) s c Hreg)
    as H1.
  split.
  - intros Hrun Hnack Hnleave Hid Hts.
    destruct (new_Message_ascii (fresh_id (py "ack") (ack_stamp env)) ACK
                (py "server")
                (Json.dumps (py ", ") (py ": ")
                   (JObj [(py "ack_for", JStr (msg_id message))]))
                (clock_ts (ack_stamp env)))
      as (ack & Hack);
      [apply fresh_id_ascii; reflexivity | reflexivity
       | apply ack_content_ascii | exact Hts |].
    destruct (server_new_message_fields _ _ _ _ _ _ Hack)
      as (Hv & _ & Ht & Hs & Hc & _).
    pose proof (ServerProps.on_client_get id (send_message ack) _ _ H1) as H2.
    assert (Hq : send_queue (send_message ack (with_heartbeat (now env) c))
                 = send_queue c ++ [ack] /\
                 last_heartbeat (send_message ack (with_heartbeat (now env) c))
                 = now env).
    { unfold send_message. cbn [running with_heartbeat]. rewrite Hrun.
      split; reflexivity. }
    exists ack.
    assert (Hfor : ack_for float_of_literal (content ack) = Some (msg_id message))
      by (rewrite Hc; apply ack_for_content; exact Hid).
    unfold _process_message.
    destruct (msg_type message) eqn:Et; try congruence;
      cbn [is_ack]; rewrite Hack.
    + rewrite ServerProps.broadcast_skips_origin.
      eexists. split; [exact H2|]. repeat split; try tauto.
    + cbn [state_of]. eexists. split; [exact H2|]. repeat split; try tauto.
    + rewrite ServerProps.broadcast_skips_origin.
      pose proof (ServerProps.on_client_get id
                    (with_username (content message)) _ _ H2) as H3.
      eexists. split; [exact H3|].
      cbn [send_queue last_heartbeat with_username].
      repeat split; try tauto.
    + cbn [state_of]. eexists. split; [exact H2|]. repeat split; try tauto.
  - intros Et. unfold _process_message. rewrite Et. cbn [is_ack state_of].
    pose proof (ServerProps.on_client_get id
                  (handle_ack float_of_literal (rtt_clock env) message) _ _ H1) as H2.
    eexists. split; [exact H2|].
    destruct (handle_ack_queue (rtt_clock env) message
                (with_heartbeat (now env) c))
      as (Hq & Hh).
    rewrite Hq, Hh. split; reflexivity.
Qed.

End Acknowledging.

Lemma filter_all {A : Type} (l : list A) : filter (fun _ => true) l = l.
Proof. apply forallb_filter_id. apply forallb_forall. reflexivity. Qed.

Lemma filter_twice {A : Type} (f g : A -> bool) (l : list A) :
  filter f (filter g l) = filter (fun x => g x && f x) l.
Proof.
  induction l as [|x l IH]; [reflexivity|].
  cbn [filter]. destruct (g x); cbn [filter andb]; rewrite IH; reflexivity.
Qed.

Lemma disconnect_all_registry (stamps : pystr -> stamp) (ids : list pystr) :
  forall s s',
    unique_keys (clients s) ->
    disconnect_all stamps ids s = Returned s' ->
    unique_keys (clients s') /\
    dict_keys (clients s')
    = filter (fun x => negb (existsb (pystr_eqb x) ids)) (dict_keys (clients s)) /\
    (forall j c,
       ~ In j ids -> dict_get j (clients s) = Some c ->
       exists c', dict_get j (clients s') = Some c' /\ queue_extended c c') /\
    server_running s' = server_running s.
Proof.
  induction ids as [|id ids IH]; intros s s' Hu H; cbn [disconnect_all] in H.
  - injection H as <-. split; [exact Hu|]. cbn [existsb negb].
    rewrite filter_all. split; [reflexivity|]. split; [|reflexivity].
    intros j c _ Hj. exists c. split; [exact Hj | apply queue_extended_refl].
  - destruct (_disconnect_client (stamps id) id s) as [s1|e s1] eqn:E1;
      [|discriminate H].
    destruct (disconnect_registry _ _ _ _ Hu E1) as (Hu1 & _ & Hk1 & He1 & Hr1).
    destruct (IH s1 s' Hu1 H) as (Hu' & Hk' & He' & Hr').
    split; [exact Hu'|]. split; [|split; [|congruence]].
    + rewrite Hk', Hk1, filter_twice. apply filter_ext. intros x.
      cbn [existsb]. rewrite negb_orb. reflexivity.
    + intros j c Hnot Hj.
      destruct (He1 j c) as (c1 & Hj1 & Hq1);
        [intros ->; apply Hnot; left; reflexivity | exact Hj |].
      destruct (He' j c1) as (c' & Hj' & Hq');
        [intros Hin; apply Hnot; right; exact Hin | exact Hj1 |].
      exists c'. split; [exact Hj' | exact (queue_extended_trans _ _ _ Hq1 Hq')].
Qed.

(** What the first loop of the heartbeat worker does to one connection. *)
Lemma heartbeat_pass_returned (t : Q) (stamps : pystr -> stamp)
                              (items : list (pystr * ClientConnection)) :
  forall dead items',
    heartbeat_pass t stamps items = Returned (dead, items') ->
    dead = dict_keys (filter (fun kv => silent t (snd kv)) items) /\
    dict_keys items' = dict_keys items /\
    (forall j c,
       dict_get j items = Some c ->
       exists c',
         dict_get j items' = Some c' /\ queue_extended c c' /\
         (silent t c = false -> running c = true ->
          Qgtb (t - last_heartbeat c) 10 = true ->
          exists ping,
            new_Message (fresh_id (py "heartbeat") (stamps j)) HEARTBEAT
              (py "server") (py "ping") (clock_ts (stamps j)) = Ok ping /\
            c' = with_queue (send_queue c ++ [ping]) c)).
Proof.
  induction items as [|[id c0] rest IH]; intros dead items' H;
    cbn [heartbeat_pass] in H.
  - injection H as <- <-. split; [reflexivity|]. split; [reflexivity|].
    intros j c Hj. discriminate Hj.
  - fold (silent t c0) in H. cbn [filter snd].
    destruct (silent t c0) eqn:Es.
    + destruct (heartbeat_pass t stamps rest) as [[d r]|e [d r]];
        [|discriminate H].
      injection H as <- <-. destruct (IH d r eq_refl) as (Hd & Hk & He).
      split; [unfold dict_keys in *; cbn [map fst]; rewrite Hd; reflexivity|].
      split; [unfold dict_keys in *; cbn [map fst]; rewrite Hk; reflexivity|].
      intros j c Hj. cbn [dict_get] in *.
      destruct (pystr_eqb j id); [|exact (He j c Hj)].
      injection Hj as <-. exists c0. split; [reflexivity|].
      split; [apply queue_extended_refl|]. intros Hf. congruence.
    + destruct (Qgtb (t - last_heartbeat c0) 10) eqn:E10.
      * destruct (new_Message (fresh_id (py "heartbeat") (stamps id)) HEARTBEAT
                    (py "server") (py "ping") (clock_ts (stamps id)))
          as [ping|e] eqn:Ep; [|discriminate H].
        destruct (heartbeat_pass t stamps rest) as [[d r]|e [d r]];
          [|discriminate H].
        injection H as <- <-. destruct (IH d r eq_refl) as (Hd & Hk & He).
        split; [exact Hd|].
        split; [unfold dict_keys in *; cbn [map fst]; rewrite Hk; reflexivity|].
        intros j c Hj. cbn [dict_get] in *.
        destruct (pystr_eqb j id) eqn:Ej; [|exact (He j c Hj)].
        apply pystr_eqb_eq in Ej. subst j. injection Hj as <-.
        exists (send_message ping c0). split; [reflexivity|].
        split; [apply send_message_extends|].
        intros _ Hrun _. exists ping. split; [exact Ep|].
        unfold send_message. rewrite Hrun. reflexivity.
      * destruct (heartbeat_pass t stamps rest) as [[d r]|e [d r]];
          [|discriminate H].
        injection H as <- <-. destruct (IH d r eq_refl) as (Hd & Hk & He).
        split; [exact Hd|].
        split; [unfold dict_keys in *; cbn [map fst]; rewrite Hk; reflexivity|].
        intros j c Hj. cbn [dict_get] in *.
        destruct (pystr_eqb j id); [|exact (He j c Hj)].
        injection Hj as <-. exists c0. split; [reflexivity|].
        split; [apply queue_extended_refl|]. intros _ _ Hf. congruence.
Qed.

Lemma silent_keys_filter (p : pystr * ClientConnection -> bool)
                         (items : list (pystr * ClientConnection)) :
  unique_keys items ->
  filter (fun x => negb (existsb (pystr_eqb x) (dict_keys (filter p items))))
         (dict_keys items)
  = dict_keys (filter (fun kv => negb (p kv)) items).
Proof.
  unfold unique_keys, dict_keys.
  induction items as [|[k c] rest IH]; intros Hu; [reflexivity|].
  cbn [map fst] in Hu. apply NoDup_cons_iff in Hu. destruct Hu as (Hnot & Hd).
  assert (Hk : existsb (pystr_eqb k) (map fst (filter p rest)) = false).
  { destruct (existsb _ _) eqn:E; [|reflexivity].
    apply existsb_exists in E. destruct E as (x & Hx & Ex).
    apply pystr_eqb_eq in Ex. subst x. exfalso. apply Hnot.
    apply in_map_iff in Hx. destruct Hx as ([k1 c1] & Hf & Hin).
    cbn [fst] in Hf. subst k1. apply filter_In in Hin.
    destruct Hin as (Hin & _). apply (in_map fst) in Hin. exact Hin. }
  cbn [filter map fst]. destruct (p (k, c)) eqn:Ep; cbn [negb map fst existsb filter].
  - rewrite pystr_eqb_refl. cbn [orb negb]. rewrite <- (IH Hd).
    apply filter_ext_in. intros x Hx.
    assert (Hxk : pystr_eqb x k = false)
      by (apply pystr_eqb_neq; intros ->; exact (Hnot Hx)).
    rewrite Hxk. reflexivity.
  - rewrite Hk. cbn [negb]. rewrite (IH Hd). reflexivity.
Qed.

(** X19: when a turn of the heartbeat worker returns, the registered
    identifiers are those of the connections heard from within the last 30
    seconds, in their order, so that no connection still registered has
    been silent for longer; a connection that stays has changed in nothing
    but its queue, which was only appended to; and if it is running and was
    silent for more than 10 seconds, the first message appended is a
    HEARTBEAT from the sender server with content ping whose checksum
    verifies. *)
Theorem heartbeat_scan_drops_the_silent
  (t : Q) (pings notices : pystr -> stamp) (s s' : ChatServer) :
  server_running s = true ->
  unique_keys (clients s) ->
  _heartbeat_worker t pings notices s = Returned s' ->
  dict_keys (clients s')
  = dict_keys (filter (fun kv => negb (silent t (snd kv))) (clients s)) /\
  (forall j c',
     dict_get j (clients s') = Some c' -> t - last_heartbeat c' <= 30) /\
  (forall j c,
     dict_get j (clients s) = Some c -> silent t c = false ->
     exists c',
       dict_get j (clients s') = Some c' /\ queue_extended c c' /\
       (running c = true -> 10 < t - last_heartbeat c ->
        exists ping rest,
          send_queue c' = send_queue c ++ ping :: rest /\
          msg_type ping = HEARTBEAT /\ sender ping = py "server" /\
          content ping = py "ping" /\ is_valid ping = Ok true)).
Proof.
  intros Hrun Hu H. unfold _heartbeat_worker in H. rewrite Hrun in H.
  destruct (heartbeat_pass t pings (clients s)) as [[dead items]|e [dead items]]
    eqn:Epass; [|discriminate H].
  destruct (heartbeat_pass_returned t pings (clients s) dead items Epass)
    as (Hdead & Hkeys & Hitems).
  assert (Hu1 : unique_keys (clients (with_clients items s))).
  { unfold unique_keys. cbn [clients with_clients]. rewrite Hkeys. exact Hu. }
  destruct (disconnect_all_registry notices dead _ s' Hu1 H)
    as (_ & Hk' & He' & _).
  cbn [clients with_clients] in Hk', He'.
  assert (K : dict_keys (clients s')
              = dict_keys (filter (fun kv => negb (silent t (snd kv)))
                                  (clients s))).
  { rewrite Hk', Hkeys, Hdead. apply silent_keys_filter. exact Hu. }
  assert (Hstay : forall j c,
             dict_get j (clients s) = Some c -> silent t c = false ->
             exists c',
               dict_get j (clients s') = Some c' /\ queue_extended c c' /\
               (running c = true -> 10 < t - last_heartbeat c ->
                exists ping rest,
                  send_queue c' = send_queue c ++ ping :: rest /\
                  msg_type ping = HEARTBEAT /\ sender ping = py "server" /\
                  content ping = py "ping" /\ is_valid ping = Ok true)).
  { intros j c Hj Hs.
    destruct (Hitems j c Hj) as (c1 & Hj1 & Hq1 & Hping).
    destruct (He' j c1) as (c' & Hj' & Hq'); [|exact Hj1|].
    - rewrite Hdead. intros Hin. unfold dict_keys in Hin.
      apply in_map_iff in Hin. destruct Hin as ([k c2] & Hk & Hin).
      cbn [fst] in Hk. subst k. apply filter_In in Hin.
      destruct Hin as (Hin & Hs2). cbn [snd] in Hs2.
      rewrite (in_dict_get j c2 _ Hu Hin) in Hj. congruence.
    - exists c'. split; [exact Hj'|].
      split; [exact (queue_extended_trans _ _ _ Hq1 Hq')|].
      intros Hr H10.
      destruct (Hping Hs Hr (proj2 (Qgtb_true _ _) H10)) as (ping & Hnew & ->).
      destruct Hq' as (extra & ->).
      destruct (server_new_message_fields _ _ _ _ _ _ Hnew)
        as (Hv & _ & Ht & Hsn & Hc & _).
      exists ping, extra. cbn [send_queue with_queue].
      rewrite <- app_assoc. repeat split; assumption. }
  split; [exact K|]. split; [|exact Hstay].
  intros j c' Hj'.
  assert (Hin : In j (dict_keys (clients s'))).
  { apply dict_get_in in Hj'. apply (in_map fst) in Hj'. exact Hj'. }
  rewrite K in Hin. unfold dict_keys in Hin. apply in_map_iff in Hin.
  destruct Hin as ([k c] & Hk & Hin). cbn [fst] in Hk. subst k.
  apply filter_In in Hin. destruct Hin as (Hin & Hs). cbn [snd] in Hs.
  apply negb_true_iff in Hs.
  destruct (Hstay j c (in_dict_get j c _ Hu Hin) Hs) as (c'' & Hj'' & (x & ->) & _).
  rewrite Hj' in Hj''. injection Hj'' as ->.
  cbn [last_heartbeat with_queue]. apply Qgtb_false. exact Hs.
Qed.

Lemma filter_none {A : Type} (f : A -> bool) (l : list A) :
  (forall x, In x l -> f x = false) -> filter f l = [].
Proof.
  induction l as [|x l IH]; intros H; [reflexivity|].
  cbn [filter]. rewrite (H x (or_introl eq_refl)).
  apply IH. intros y Hy. apply H. right. exact Hy.
Qed.

Lemma broadcast_total (st : stamp) (text : pystr) (ex : option pystr)
                      (s : ChatServer) :
  forallb encodable text = true ->
  forallb encodable (float_repr (clock_ts st)) = true ->
  exists s', _broadcast_message st text ex s = Returned s'.
Proof.
  intros Ht Hts. unfold _broadcast_message.
  destruct (proj1 (server_new_message_total (fresh_id (py "broadcast") st)
                     CHAT (py "server") text (clock_ts st))) as (m & Hm).
  - rewrite !forallb_app, Ht, Hts.
    rewrite (ascii_encodable _ (fresh_id_ascii (py "broadcast") st eq_refl)).
    reflexivity.
  - rewrite Hm. eexists. reflexivity.
Qed.

Lemma forall_dict_del {V : Type} (P : pystr * V -> Prop) (k : pystr)
                      (d : list (pystr * V)) :
  Forall P d -> Forall P (dict_del k d).
Proof.
  induction d as [|[k0 v0] d IH]; intros H; [exact H|].
  apply Forall_cons_iff in H. destruct H as (H0 & Hd).
  cbn [dict_del]. destruct (pystr_eqb k k0); [exact Hd|].
  apply Forall_cons; [exact H0 | exact (IH Hd)].
Qed.

Lemma disconnect_all_total (stamps : pystr -> stamp) (ids : list pystr) :
  (forall id, forallb encodable (float_repr (clock_ts (stamps id))) = true) ->
  forall s,
    unique_keys (clients s) ->
    Forall (fun kv => forallb encodable (username (snd kv)) = true) (clients s) ->
    exists s', disconnect_all stamps ids s = Returned s'.
Proof.
  intros Hst. induction ids as [|id ids IH]; intros s Hu Hnames;
    cbn [disconnect_all]; [eexists; reflexivity|].
  assert (H1 : exists s1, _disconnect_client (stamps id) id s = Returned s1).
  { unfold _disconnect_client.
    destruct (dict_get id (clients s)) as [conn|] eqn:Hget;
      [|eexists; reflexivity].
    destruct (username conn) as [|u0 name] eqn:Eu; [eexists; reflexivity|].
    destruct (broadcast_total (stamps id)
                (py "*** " ++ (u0 :: name) ++ py " left the chat ***")
                (Some id) s) as (s1 & Hs1); [|apply Hst|].
    - apply dict_get_in in Hget.
      pose proof (proj1 (Forall_forall _ _) Hnames _ Hget) as Hn.
      cbn [snd] in Hn. rewrite Eu in Hn.
      rewrite !forallb_app, Hn. reflexivity.
    - rewrite Hs1. eexists. reflexivity. }
  destruct H1 as (s1 & Hs1). rewrite Hs1.
  destruct (disconnect_registry _ _ _ _ Hu Hs1) as (Hu1 & _).
  apply IH; [exact Hu1|].
  destruct (dict_get id (clients s)) as [conn|] eqn:Hget.
  - destruct (disconnect_returned _ _ _ _ conn Hu Hget Hs1)
      as (notices0 & _ & -> & _).
    apply forall_dict_del. apply Forall_map.
    eapply Forall_impl; [|exact Hnames]. intros [k c] H. cbn [fst snd] in *.
    destruct (negb (pystr_eqb k id) && running c); exact H.
  - rewrite (disconnect_unknown _ _ _ Hget) in Hs1. injection Hs1 as <-.
    exact Hnames.
Qed.

(** X20: whenever [shutdown] returns, no client is registered any more and
    the server is marked as not running, the network settings being kept;
    and it does return if no registered username and no printed timestamp
    of a notice holds a lone surrogate. *)
Theorem shutdown_empties_registry (notices : pystr -> stamp) (s : ChatServer) :
  unique_keys (clients s) ->
  (forall s',
     shutdown notices s = Returned s' ->
     clients s' = [] /\ server_running s' = false) /\
  (Forall (fun kv => forallb encodable (username (snd kv)) = true) (clients s) ->
   (forall id, forallb encodable (float_repr (clock_ts (notices id))) = true) ->
   exists s', shutdown notices s = Returned s').
Proof.
  intros Hu. unfold shutdown.
  set (s0 := {| clients := clients s; server_running := false;
                packet_loss_rate := packet_loss_rate s;
                artificial_delay := artificial_delay s |}).
  assert (Hu0 : unique_keys (clients s0)) by exact Hu.
  split.
  - intros s' H.
    destruct (disconnect_all_registry notices _ s0 s' Hu0 H)
      as (_ & Hk & _ & Hr).
    cbn [clients server_running s0] in Hk, Hr. split; [|exact Hr].
    rewrite filter_none in Hk.
    + destruct (clients s'); [reflexivity | discriminate Hk].
    + intros x Hx. apply negb_false_iff, existsb_exists. exists x.
      split; [exact Hx | apply pystr_eqb_refl].
  - intros Hnames Hst. apply (disconnect_all_total notices _ Hst s0 Hu0).
    exact Hnames.
Qed.

Lemma pymin_spec (a b : Q) : pymin a b == Qmin a b.
Proof.
  unfold pymin. destruct (Qgtb a b) eqn:E.
  - apply Qgtb_true in E. symmetry. apply Q.min_r. apply Qlt_le_weak. exact E.
  - apply Qgtb_false in E. symmetry. apply Q.min_l. exact E.
Qed.

Section LossSimulation.
Variable float_of_literal : pystr -> option pyfloat.

(** X21: [set_network_conditions] stores the loss rate clamped to [0, 1]
    and the delay clamped to non-negative values, and touches nothing else;
    an argument already in range is stored with its value.  With the draws
    of [random.random()] being in [0, 1), a rate of 1 or more therefore
    makes [_handle_client] drop every frame, and a rate of 0 or less makes
    the loss simulation drop none. *)
Theorem network_conditions_are_clamped
  (rate delay : Q) (s : ChatServer) :
  packet_loss_rate (set_network_conditions rate delay s)
  == Qmax 0 (Qmin 1 rate) /\
  artificial_delay (set_network_conditions rate delay s) == Qmax 0 delay /\
  0 <= packet_loss_rate (set_network_conditions rate delay s) <= 1 /\
  0 <= artificial_delay (set_network_conditions rate delay s) /\
  clients (set_network_conditions rate delay s) = clients s /\
  server_running (set_network_conditions rate delay s) = server_running s /\
  (forall (env : frame_env) (id : pystr) (data : bytes),
     1 <= rate -> loss_sample env < 1 ->
     handle_frame float_of_literal env id data
       (set_network_conditions rate delay s)
     = Ok (set_network_conditions rate delay s)) /\
  (forall (env : frame_env),
     rate <= 0 -> 0 <= loss_sample env ->
     Qgtb (packet_loss_rate (set_network_conditions rate delay s))
          (loss_sample env) = false).
Proof.
  assert (Hr : packet_loss_rate (set_network_conditions rate delay s)
               == Qmax 0 (Qmin 1 rate)).
  { cbn [packet_loss_rate set_network_conditions].
    rewrite pymax_Qmax. apply Q.max_compat; [reflexivity | apply pymin_spec]. }
  assert (Hd : artificial_delay (set_network_conditions rate delay s)
               == Qmax 0 delay).
  { cbn [artificial_delay set_network_conditions]. apply pymax_Qmax. }
  assert (Hb : 0 <= Qmax 0 (Qmin 1 rate) <= 1).
  { split; [apply Q.le_max_l|].
    apply Q.max_lub; [discriminate | apply Q.le_min_l]. }
  split; [exact Hr|]. split; [exact Hd|].
  split; [rewrite Hr; exact Hb|].
  split; [rewrite Hd; apply Q.le_max_l|].
  split; [reflexivity|]. split; [reflexivity|]. split.
  - intros env id data H1 Hs. unfold handle_frame.
    replace (Qgtb (packet_loss_rate (set_network_conditions rate delay s))
                  (loss_sample env)) with true; [reflexivity|].
    symmetry. apply Qgtb_true. rewrite Hr.
    rewrite (Q.min_l 1 rate H1).
    apply Qlt_le_trans with 1; [exact Hs | apply Q.le_max_r].
  - intros env H0 Hs. apply Qgtb_false. rewrite Hr.
    apply Q.max_lub; [exact Hs|].
    apply Qle_trans with rate; [apply Q.le_min_r|].
    apply Qle_trans with 0; assumption.
Qed.

End LossSimulation.

Lemma on_client_other (id j : pystr) (f : ClientConnection -> ClientConnection)
                      (s : ChatServer) :
  j <> id -> dict_get j (clients (on_client id f s)) = dict_get j (clients s).
Proof.
  intros Hne. unfold on_client.
  destruct (dict_get id (clients s)); [|reflexivity].
  cbn [clients with_clients]. apply dict_get_set_neq. exact Hne.
Qed.

Lemma on_client_keys (id : pystr) (f : ClientConnection -> ClientConnection)
                     (s : ChatServer) :
  dict_keys (clients (on_client id f s)) = dict_keys (clients s).
Proof.
  unfold on_client. destruct (dict_get id (clients s)) as [c|] eqn:E;
    [|reflexivity].
  cbn [clients with_clients]. apply (dict_keys_set_mem id (f c) c). exact E.
Qed.

Lemma disconnect_total (st : stamp) (id : pystr) (s : ChatServer) :
  (forall conn, dict_get id (clients s) = Some conn ->
                forallb encodable (username conn) = true) ->
  forallb encodable (float_repr (clock_ts st)) = true ->
  exists s', _disconnect_client st id s = Returned s'.
Proof.
  intros Hname Hst. unfold _disconnect_client.
  destruct (dict_get id (clients s)) as [conn|] eqn:Hget;
    [|eexists; reflexivity].
  specialize (Hname conn eq_refl).
  destruct (username conn) as [|u0 name] eqn:Eu; [eexists; reflexivity|].
  destruct (broadcast_total st
              (py "*** " ++ (u0 :: name) ++ py " left the chat ***")
              (Some id) s) as (s1 & Hs1); [|exact Hst|].
  - rewrite !forallb_app, Hname. reflexivity.
  - rewrite Hs1. eexists. reflexivity.
Qed.

Section Relaying.
Variable float_of_literal : pystr -> option pyfloat.

(** X25: when [_process_message] returns for a CHAT or a JOIN of a
    registered connection, every other registered connection that is
    running has exactly one message more in its queue, the same for all: a
    CHAT from the sender server whose checksum verifies and whose content is
    the sender's username in brackets, a colon and the chat text, or the
    notice that the content of the JOIN joined the chat; stopped
    connections and the set of registered identifiers are unchanged. *)
Theorem chat_is_relayed_to_the_others
  (env : readings) (id : pystr) (message : Message) (s s' : ChatServer)
  (c : ClientConnection) :
  msg_type message = CHAT \/ msg_type message = JOIN ->
  dict_get id (clients s) = Some c ->
  _process_message float_of_literal env id message s = Returned s' ->
  exists relay,
    is_valid relay = Ok true /\ msg_type relay = CHAT /\
    sender relay = py "server" /\
    content relay
    = match msg_type message with
      | JOIN => py "*** " ++ content message ++ py " joined the chat ***"
      | _ => py "[" ++ username c ++ py "]: " ++ content message
      end /\
    dict_keys (clients s') = dict_keys (clients s) /\
    forall j cj,
      j <> id -> dict_get j (clients s) = Some cj ->
      dict_get j (clients s')
      = Some (if running cj then with_queue (send_queue cj ++ [relay]) cj
              else cj).
Proof.
  intros Ht Hreg H. unfold _process_message in H.
  assert (Hna : is_ack (msg_type message) = false)
    by (destruct Ht as [-> | ->]; reflexivity).
  rewrite Hna in H.
  destruct (new_Message (fresh_id (py "ack") (ack_stamp env)) ACK (py "server")
              _ (clock_ts (ack_stamp env))) as [ack|e]; [|discriminate H].
  set (s1 := on_client id (with_heartbeat (now env)) s) in *.
  set (s2 := on_client id (send_message ack) s1) in *.
  pose proof (ServerProps.on_client_get id (with_heartbeat (now env)) s c Hreg)
    as H1.
  pose proof (ServerProps.on_client_get id (send_message ack) _ _ H1) as H2.
  fold s1 in H1, H2. fold s2 in H2.
  assert (Hname : username (send_message ack (with_heartbeat (now env) c))
                  = username c).
  { unfold send_message. cbn [running with_heartbeat].
    destruct (running c); reflexivity. }
  assert (Hother : forall (f : ClientConnection -> ClientConnection) j,
             j <> id ->
             dict_get j (clients (on_client id f s2)) = dict_get j (clients s)).
  { intros f j Hne. rewrite (on_client_other id j f s2 Hne).
    unfold s2. rewrite (on_client_other id j _ s1 Hne).
    unfold s1. apply on_client_other. exact Hne. }
  assert (Hkeys : forall (f : ClientConnection -> ClientConnection),
             dict_keys (clients (on_client id f s2)) = dict_keys (clients s)).
  { intros f. rewrite on_client_keys. unfold s2. rewrite on_client_keys.
    unfold s1. apply on_client_keys. }
  assert (Hfinish : forall text s3,
             (forall j, j <> id -> dict_get j (clients s3) = dict_get j (clients s)) ->
             dict_keys (clients s3) = dict_keys (clients s) ->
             _broadcast_message (notice_stamp env) text (Some id) s3
             = Returned s' ->
             exists relay,
               is_valid relay = Ok true /\ msg_type relay = CHAT /\
               sender relay = py "server" /\ content relay = text /\
               dict_keys (clients s') = dict_keys (clients s) /\
               forall j cj,
                 j <> id -> dict_get j (clients s) = Some cj ->
                 dict_get j (clients s')
                 = Some (if running cj
                         then with_queue (send_queue cj ++ [relay]) cj else cj)).
  { intros text s3 Ho Hk Hb.
    destruct (broadcast_delivery (notice_stamp env) text (Some id) s3 s' Hb)
      as (relay & Hv & _ & Hty & Hs & Hc & Hk' & Hall).
    exists relay. repeat (split; [assumption|]).
    split; [rewrite Hk'; exact Hk|].
    intros j cj Hne Hj. rewrite <- (Ho j Hne) in Hj.
    rewrite (Hall j cj Hj). unfold excluded.
    rewrite (proj2 (pystr_eqb_neq j id) Hne). reflexivity. }
  destruct Ht as [Et|Et]; rewrite Et in H |- *.
  - rewrite H2, Hname in H.
    apply (Hfinish _ s2);
      [|unfold s2; rewrite on_client_keys; unfold s1; apply on_client_keys
       |exact H].
    intros j Hne. unfold s2. rewrite (on_client_other id j _ s1 Hne).
    unfold s1. apply on_client_other. exact Hne.
  - apply (Hfinish _ (on_client id (with_username (content message)) s2));
      [|apply Hkeys|exact H].
    intros j Hne. apply Hother. exact Hne.
Qed.

(** X26: a LEAVE of a registered connection whose username and whose
    notice timestamp can be encoded makes [_process_message] return with
    the connection no longer registered and every other registration kept
    in order. *)
Theorem leave_unregisters_client
  (env : readings) (id : pystr) (message : Message) (s : ChatServer)
  (c : ClientConnection) :
  msg_type message = LEAVE ->
  unique_keys (clients s) ->
  dict_get id (clients s) = Some c ->
  ascii_only (float_repr (clock_ts (ack_stamp env))) = true ->
  forallb encodable (username c) = true ->
  forallb encodable (float_repr (clock_ts (notice_stamp env))) = true ->
  exists s',
    _process_message float_of_literal env id message s = Returned s' /\
    dict_get id (clients s') = None /\
    dict_keys (clients s')
    = filter (fun x => negb (pystr_eqb x id)) (dict_keys (clients s)).
Proof.
  intros Et Hu Hreg Hack Hname Hst. unfold _process_message. rewrite Et.
  cbn [is_ack].
  destruct (new_Message_ascii (fresh_id (py "ack") (ack_stamp env)) ACK
              (py "server")
              (Json.dumps (py ", ") (py ": ")
                 (JObj [(py "ack_for", JStr (msg_id message))]))
              (clock_ts (ack_stamp env)))
    as (ack & Hnew);
    [apply fresh_id_ascii; reflexivity | reflexivity
     | apply ack_content_ascii | exact Hack |].
  rewrite Hnew.
  set (s1 := on_client id (with_heartbeat (now env)) s).
  set (s2 := on_client id (send_message ack) s1).
  pose proof (ServerProps.on_client_get id (with_heartbeat (now env)) s c Hreg)
    as H1.
  pose proof (ServerProps.on_client_get id (send_message ack) _ _ H1) as H2.
  fold s1 in H1, H2. fold s2 in H2.
  assert (Hk2 : dict_keys (clients s2) = dict_keys (clients s)).
  { unfold s2. rewrite on_client_keys. unfold s1. apply on_client_keys. }
  assert (Hu2 : unique_keys (clients s2)).
  { unfold unique_keys. rewrite Hk2. exact Hu. }
  destruct (disconnect_total (notice_stamp env) id s2) as (s' & Hs').
  - intros conn Hconn. rewrite H2 in Hconn. injection Hconn as <-.
    unfold send_message. cbn [running with_heartbeat].
    destruct (running c); exact Hname.
  - exact Hst.
  - exists s'. split; [exact Hs'|].
    destruct (disconnect_registry _ _ _ _ Hu2 Hs') as (_ & Hgone & Hkeys & _).
    split; [exact Hgone|]. rewrite Hkeys, Hk2. reflexivity.
Qed.

End Relaying.

End RegistryProps.

(** ** [NetworkStats] *)

Module StatsProps.
Import Protocol.

Lemma stats_run_counts (es : list stats_event) :
  forall (s : NetworkStats) (n : Z),
    (0 <= acks_sent s <= messages_sent s)%Z ->
    (0 <= acks_received s <= messages_received s)%Z ->
    (0 <= retransmissions s)%Z -> (0 <= checksum_errors s)%Z ->
    (messages_sent s + messages_received s + retransmissions s
     + checksum_errors s = n)%Z ->
    (0 <= acks_sent (stats_run es s) <= messages_sent (stats_run es s))%Z /\
    (0 <= acks_received (stats_run es s)
     <= messages_received (stats_run es s))%Z /\
    (0 <= retransmissions (stats_run es s))%Z /\
    (0 <= checksum_errors (stats_run es s))%Z /\
    (messages_sent (stats_run es s) + messages_received (stats_run es s)
     + retransmissions (stats_run es s) + checksum_errors (stats_run es s)
     = n + Z.of_nat (length es))%Z /\
    connection_time (stats_run es s) = connection_time s.
Proof.
  induction es as [|e es IH]; intros s n H1 H2 H3 H4 H5.
  - cbn [stats_run fold_left length Z.of_nat]. repeat split; try lia.
  - unfold stats_run. cbn [fold_left]. fold (stats_run es (stats_step s e)).
    destruct (IH (stats_step s e) (n + 1)%Z) as (G1 & G2 & G3 & G4 & G5 & G6).
    + destruct e as [t m k|t m k| |]; cbn [stats_step record_sent record_received
        record_retransmission record_checksum_error acks_sent messages_sent];
        try destruct (is_ack (msg_type m)); lia.
    + destruct e as [t m k|t m k| |]; cbn [stats_step record_sent record_received
        record_retransmission record_checksum_error acks_received
        messages_received]; try destruct (is_ack (msg_type m)); lia.
    + destruct e as [t m k|t m k| |]; cbn [stats_step record_sent record_received
        record_retransmission record_checksum_error retransmissions]; lia.
    + destruct e as [t m k|t m k| |]; cbn [stats_step record_sent record_received
        record_retransmission record_checksum_error checksum_errors]; lia.
    + destruct e as [t m k|t m k| |]; cbn [stats_step record_sent record_received
        record_retransmission record_checksum_error messages_sent
        messages_received retransmissions checksum_errors]; lia.
    + rewrite G6. cbn [length]. rewrite Nat2Z.inj_succ.
      repeat split; try lia.
      destruct e; reflexivity.
Qed.

Lemma stats_run_bytes (es : list stats_event) :
  forall s : NetworkStats,
    bytes_sent (stats_run es s) = (bytes_sent s + byte_total sent_bytes es)%Z /\
    bytes_received (stats_run es s)
    = (bytes_received s + byte_total received_bytes es)%Z.
Proof.
  unfold byte_total.
  induction es as [|e es IH]; intros s.
  - cbn [stats_run fold_left map fold_right]. split; lia.
  - unfold stats_run. cbn [fold_left]. fold (stats_run es (stats_step s e)).
    destruct (IH (stats_step s e)) as [H1 H2]. rewrite H1, H2.
    cbn [map fold_right].
    destruct e as [t m k|t m k| |];
      cbn [stats_step record_sent record_received record_retransmission
           record_checksum_error bytes_sent bytes_received sent_bytes
           received_bytes]; split; lia.
Qed.

Lemma byte_total_nonneg (f : stats_event -> Z) (es : list stats_event) :
  Forall (fun e => (0 <= f e)%Z) es -> (0 <= byte_total f es)%Z.
Proof.
  unfold byte_total. induction 1 as [|e es He _ IH]; cbn [map fold_right]; lia.
Qed.

(** X22: whatever is recorded on a fresh [NetworkStats] object, the ACK
    counters never exceed the message counters of their direction, no
    message, ACK, retransmission or error counter is negative, every
    recorded event is counted exactly once (the two message counters, the
    retransmissions and the checksum errors add up to the number of events),
    and the connection time is never changed.  The two byte counters are the
    sums of the byte counts recorded in their direction, which the code does
    not check: they are not negative when no byte count is, and can be
    otherwise. *)
Theorem stats_counters_are_consistent (t1 t2 : Q) (es : list stats_event) :
  (0 <= acks_sent (stats_run es (NetworkStats_init t1 t2))
   <= messages_sent (stats_run es (NetworkStats_init t1 t2)))%Z /\
  (0 <= acks_received (stats_run es (NetworkStats_init t1 t2))
   <= messages_received (stats_run es (NetworkStats_init t1 t2)))%Z /\
  (0 <= retransmissions (stats_run es (NetworkStats_init t1 t2)))%Z /\
  (0 <= checksum_errors (stats_run es (NetworkStats_init t1 t2)))%Z /\
  (messages_sent (stats_run es (NetworkStats_init t1 t2))
   + messages_received (stats_run es (NetworkStats_init t1 t2))
   + retransmissions (stats_run es (NetworkStats_init t1 t2))
   + checksum_errors (stats_run es (NetworkStats_init t1 t2))
   = Z.of_nat (length es))%Z /\
  connection_time (stats_run es (NetworkStats_init t1 t2)) = t1 /\
  bytes_sent (stats_run es (NetworkStats_init t1 t2))
  = byte_total sent_bytes es /\
  bytes_received (stats_run es (NetworkStats_init t1 t2))
  = byte_total received_bytes es /\
  (Forall (fun e => (0 <= sent_bytes e)%Z /\ (0 <= received_bytes e)%Z) es ->
   (0 <= bytes_sent (stats_run es (NetworkStats_init t1 t2)))%Z /\
   (0 <= bytes_received (stats_run es (NetworkStats_init t1 t2)))%Z) /\
  (forall (now : Q) (m : Message) (n : Z),
     (n < 0)%Z ->
     (bytes_sent (stats_run [Sent now m n] (NetworkStats_init t1 t2)) < 0)%Z /\
     (bytes_received (stats_run [Received now m n] (NetworkStats_init t1 t2))
      < 0)%Z).
Proof.
  destruct (stats_run_bytes es (NetworkStats_init t1 t2)) as [Hs Hr].
  cbn [NetworkStats_init bytes_sent bytes_received] in Hs, Hr.
  rewrite Z.add_0_l in Hs, Hr.
  assert (Hcounts := stats_run_counts es (NetworkStats_init t1 t2) 0).
  cbn [NetworkStats_init acks_sent messages_sent acks_received
       messages_received retransmissions checksum_errors connection_time]
    in Hcounts.
  destruct Hcounts as (G1 & G2 & G3 & G4 & G5 & G6); try lia.
  split; [exact G1|]. split; [exact G2|]. split; [exact G3|].
  split; [exact G4|]. split; [exact G5|]. split; [exact G6|].
  split; [exact Hs|]. split; [exact Hr|]. split.
  - intros Hall. rewrite Hs, Hr.
    split; apply byte_total_nonneg; eapply Forall_impl; try exact Hall;
      intros e He; apply He.
  - intros now m n Hn.
    cbn [stats_run fold_left stats_step record_sent record_received
         NetworkStats_init bytes_sent bytes_received]. lia.
Qed.

Lemma throughput_cases (now : Q) (s : NetworkStats) :
  let counters := [bytes_sent s; bytes_received s; messages_sent s;
                   messages_received s] in
  get_throughput now s
  = if Qeq_bool (get_uptime now s) 0
    then Ok {| sent_bps := 0; received_bps := 0; sent_mps := 0;
               received_mps := 0 |}
    else if forallb float_range counters
    then Ok {| sent_bps := inject_Z (bytes_sent s) / get_uptime now s;
               received_bps := inject_Z (bytes_received s) / get_uptime now s;
               sent_mps := inject_Z (messages_sent s) / get_uptime now s;
               received_mps := inject_Z (messages_received s) / get_uptime now s |}
    else Err OverflowError.
Proof.
  cbv zeta. unfold get_throughput, int_truediv, truediv.
  destruct (Qeq_bool (get_uptime now s) 0); [reflexivity|].
  cbn [forallb].
  destruct (float_range (bytes_sent s)); [|reflexivity].
  destruct (float_range (bytes_received s)); [|reflexivity].
  destruct (float_range (messages_sent s)); [|reflexivity].
  destruct (float_range (messages_received s)); reflexivity.
Qed.

(** X23: [get_throughput] never divides by zero.  When the uptime is zero it
    returns four zeros without dividing; otherwise it returns four rates if
    each of the four counters it divides has a float, and raises
    OverflowError if one of them has none.  On a fresh object it returns,
    whatever the clock reads. *)
Theorem throughput_never_divides_by_zero (now : Q) (s : NetworkStats) :
  get_throughput now s <> Err ZeroDivisionError /\
  (get_uptime now s == 0 ->
   get_throughput now s
   = Ok {| sent_bps := 0; received_bps := 0; sent_mps := 0;
           received_mps := 0 |}) /\
  (~ get_uptime now s == 0 ->
   forallb float_range [bytes_sent s; bytes_received s; messages_sent s;
                        messages_received s] = true ->
   exists t, get_throughput now s = Ok t) /\
  (~ get_uptime now s == 0 ->
   forallb float_range [bytes_sent s; bytes_received s; messages_sent s;
                        messages_received s] = false ->
   get_throughput now s = Err OverflowError) /\
  (forall t1 t2 : Q,
   exists t, get_throughput now (NetworkStats_init t1 t2) = Ok t).
Proof.
  pose proof (throughput_cases now s) as H. cbv zeta in H.
  split; [|split; [|split; [|split]]].
  - rewrite H. destruct (Qeq_bool (get_uptime now s) 0); [discriminate|].
    destruct (forallb float_range _); discriminate.
  - intros E. apply Qeq_bool_iff in E. rewrite H, E. reflexivity.
  - intros E Hr. rewrite H, Hr.
    destruct (Qeq_bool (get_uptime now s) 0); eexists; reflexivity.
  - intros E Hr. rewrite H, Hr.
    destruct (Qeq_bool (get_uptime now s) 0) eqn:E0; [|reflexivity].
    exfalso. apply E. apply Qeq_bool_iff. exact E0.
  - intros t1 t2. rewrite throughput_cases. cbv zeta.
    destruct (Qeq_bool (get_uptime now (NetworkStats_init t1 t2)) 0);
      eexists; reflexivity.
Qed.

End StatsProps.

(** ** The theorems above at sample inputs *)

Lemma timeouts_double_rto_witness :
  rto CongestionControl_init * inject_Z (2 ^ Z.of_nat 2)
  <= rto (cc_run (repeat EvTimeout 2) CongestionControl_init) /\
  ssthresh (cc_run (repeat EvTimeout 2) CongestionControl_init) = 2.
Proof.
  assert (H : 0 <= rto CongestionControl_init)
    by (vm_compute; discriminate).
  split.
  - apply (timeouts_double_rto 2 CongestionControl_init H).
  - apply (timeouts_double_rto 2 CongestionControl_init H). lia.
Defined.

Lemma server_new_message_is_valid_witness :
  Server.is_valid sample_notice = Ok true.
Proof.
  apply (proj2 (server_new_message_is_valid (py "broadcast_1700000000_1234")
                  Server.CHAT (py "server") (py "[bob]: hi") sample_ts)
               sample_notice).
  vm_compute. reflexivity.
Defined.

Lemma unique_two_clients : unique_keys (Server.clients two_clients).
Proof.
  unfold unique_keys. apply NoDup_cons; [|apply NoDup_cons; [|apply NoDup_nil]].
  - intros [H|[]]. vm_compute in H. discriminate H.
  - intros [].
Qed.

Lemma sender_sends_in_queue_order_witness :
  Server.wire (Server._sender_worker 1 queued_notice) = [sample_notice].
Proof.
  apply (ConnectionProps.sender_sends_in_queue_order 1 queued_notice).
  - reflexivity.
  - reflexivity.
  - apply NoDup_nil.
  - apply Forall_nil.
  - apply Forall_cons; [|apply Forall_nil].
    exists sample_frame. vm_compute. reflexivity.
Defined.

Lemma ack_is_honoured_once_witness :
  dict_get (py "broadcast_1700000000_1234")
    (Server.pending_messages
       (Server.handle_ack sample_float_of_literal 2 sample_ack
          (Server.conn_run sample_float_of_literal
             [Server.CSend sample_notice; Server.CSenderTurn 1]
             (Server.ClientConnection_init (py "client_1700000000_1000") 0))))
  = None.
Proof.
  apply (ConnectionProps.ack_is_honoured_once sample_float_of_literal
           (py "client_1700000000_1000") 0
           [Server.CSend sample_notice; Server.CSenderTurn 1]
           2 sample_ack (py "broadcast_1700000000_1234") sample_notice 1);
    vm_compute; reflexivity.
Defined.

Lemma broadcast_reaches_everyone_else_witness :
  forallb encodable (py "hi" ++ float_repr (Server.clock_ts sample_stamp)) = true /\
  exists message,
    Server.is_valid message = Ok true /\
    Server.msg_id message = Server.fresh_id (py "broadcast") sample_stamp /\
    Server.msg_type message = Server.CHAT /\
    Server.sender message = py "server" /\
    Server.content message = py "hi" /\
    dict_keys (Server.clients
                 (state_of (Server._broadcast_message sample_stamp (py "hi")
                              (Some (py "client_1700000000_1000")) two_clients)))
    = dict_keys (Server.clients two_clients) /\
    forall id c,
      dict_get id (Server.clients two_clients) = Some c ->
      dict_get id
        (Server.clients
           (state_of (Server._broadcast_message sample_stamp (py "hi")
                        (Some (py "client_1700000000_1000")) two_clients)))
      = Some (if negb (excluded (Some (py "client_1700000000_1000")) id)
                 && Server.running c
              then Server.with_queue (Server.send_queue c ++ [message]) c
              else c).
Proof.
  apply (proj2 (RegistryProps.broadcast_reaches_everyone_else sample_stamp
                  (py "hi") (Some (py "client_1700000000_1000")) two_clients)).
  vm_compute. reflexivity.
Defined.

Lemma disconnect_removes_client_witness :
  dict_get (py "client_1700000000_1000")
    (Server.clients
       (state_of (Server._disconnect_client sample_stamp
                    (py "client_1700000000_1000") two_clients)))
  = None.
Proof.
  apply (RegistryProps.disconnect_removes_client sample_stamp
           (py "client_1700000000_1000") two_clients
           (state_of (Server._disconnect_client sample_stamp
                        (py "client_1700000000_1000") two_clients))
           (Server.with_username (py "bob")
              (Server.ClientConnection_init (py "client_1700000000_1000") 0))).
  - exact unique_two_clients.
  - reflexivity.
  - vm_compute. reflexivity.
Defined.

Lemma every_message_is_acknowledged_witness :
  exists ack c',
    dict_get (py "client_1700000000_1000")
      (Server.clients
         (state_of (Server._process_message sample_float_of_literal
                      sample_readings (py "client_1700000000_1000")
                      bad_join lone_client)))
    = Some c' /\
    Server.send_queue c' = [] ++ [ack] /\
    Server.last_heartbeat c' = 17000000006 # 10 /\
    Server.is_valid ack = Ok true /\ Server.msg_type ack = Server.ACK /\
    Server.sender ack = py "server" /\
    Server.ack_for sample_float_of_literal (Server.content ack)
    = Some (py "join_1700000000_1111").
Proof.
  apply (proj1 (RegistryProps.every_message_is_acknowledged
                  sample_float_of_literal sample_readings
                  (py "client_1700000000_1000") bad_join lone_client
                  (Server.ClientConnection_init (py "client_1700000000_1000") 0)
                  eq_refl)).
  - reflexivity.
  - discriminate.
  - discriminate.
  - vm_compute. reflexivity.
  - vm_compute. reflexivity.
Defined.

Lemma heartbeat_scan_drops_the_silent_witness :
  dict_keys
    (Server.clients
       (state_of (Server._heartbeat_worker 35 (fun _ => sample_stamp)
                    (fun _ => sample_stamp) two_clients)))
  = [py "client_1700000020_2000"].
Proof.
  apply (RegistryProps.heartbeat_scan_drops_the_silent 35
           (fun _ => sample_stamp) (fun _ => sample_stamp) two_clients
           (state_of (Server._heartbeat_worker 35 (fun _ => sample_stamp)
                        (fun _ => sample_stamp) two_clients))).
  - reflexivity.
  - exact unique_two_clients.
  - vm_compute. reflexivity.
Defined.

Lemma shutdown_empties_registry_witness :
  exists s', Server.shutdown (fun _ => sample_stamp) two_clients = Returned s'.
Proof.
  apply (proj2 (RegistryProps.shutdown_empties_registry (fun _ => sample_stamp)
                  two_clients unique_two_clients)).
  - repeat (apply Forall_cons; [reflexivity|]). apply Forall_nil.
  - intros id. reflexivity.
Defined.

Lemma network_conditions_are_clamped_witness :
  Server.handle_frame sample_float_of_literal
    {| Server.loss_sample := 1 # 2; Server.frame_readings := sample_readings |}
    (py "client_1700000000_1000") (skipn 4 sample_frame)
    (Server.set_network_conditions 2 0 lone_client)
  = Ok (Server.set_network_conditions 2 0 lone_client).
Proof.
  apply (RegistryProps.network_conditions_are_clamped sample_float_of_literal
           2 0 lone_client).
  - discriminate.
  - reflexivity.
Defined.

Lemma throughput_never_divides_by_zero_witness :
  (exists t,
     Protocol.get_throughput 2 (Protocol.record_sent 1 sample_message 120
                                  (Protocol.NetworkStats_init 0 0)) = Ok t) /\
  Protocol.get_throughput 2 (Protocol.record_sent 1 sample_message (2 ^ 1024)
                               (Protocol.NetworkStats_init 0 0))
  = Err OverflowError.
Proof.
  split.
  - apply (StatsProps.throughput_never_divides_by_zero 2
             (Protocol.record_sent 1 sample_message 120
                (Protocol.NetworkStats_init 0 0))).
    + vm_compute. discriminate.
    + vm_compute. reflexivity.
  - apply (StatsProps.throughput_never_divides_by_zero 2
             (Protocol.record_sent 1 sample_message (2 ^ 1024)
                (Protocol.NetworkStats_init 0 0))).
    + vm_compute. discriminate.
    + vm_compute. reflexivity.
Defined.

Lemma stats_counters_are_consistent_witness :
  (0 <= Protocol.bytes_sent
          (Protocol.stats_run [Protocol.Sent 1 sample_message 120;
                               Protocol.Retransmission]
             (Protocol.NetworkStats_init 0 0)))%Z /\
  (0 <= Protocol.bytes_received
          (Protocol.stats_run [Protocol.Sent 1 sample_message 120;
                               Protocol.Retransmission]
             (Protocol.NetworkStats_init 0 0)))%Z.
Proof.
  apply (StatsProps.stats_counters_are_consistent 0 0
           [Protocol.Sent 1 sample_message 120; Protocol.Retransmission]).
  repeat constructor; vm_compute; discriminate.
Defined.

Lemma first_ack_does_not_grow_window_witness :
  cwnd (Server.congestion_control
          (Server.handle_ack sample_float_of_literal 2 sample_ack
             (Server.conn_run sample_float_of_literal
                [Server.CSend sample_notice; Server.CSenderTurn 1]
                (Server.ClientConnection_init (py "client_1700000000_1000") 0))))
  = cwnd (Server.congestion_control
            (Server.conn_run sample_float_of_literal
               [Server.CSend sample_notice; Server.CSenderTurn 1]
               (Server.ClientConnection_init (py "client_1700000000_1000") 0))).
Proof.
  apply (ConnectionProps.first_ack_does_not_grow_window sample_float_of_literal
           (py "client_1700000000_1000") 0
           [Server.CSend sample_notice; Server.CSenderTurn 1]
           2 sample_ack (py "broadcast_1700000000_1234") sample_notice 1);
    vm_compute; reflexivity.
Defined.

Lemma chat_is_relayed_to_the_others_witness :
  dict_keys
    (Server.clients
       (state_of (Server._process_message sample_float_of_literal sample_readings
                    (py "client_1700000000_1000") sample_notice two_clients)))
  = dict_keys (Server.clients two_clients).
Proof.
  assert (H : Server._process_message sample_float_of_literal sample_readings
                (py "client_1700000000_1000") sample_notice two_clients
              = Returned
                  (state_of (Server._process_message sample_float_of_literal
                               sample_readings (py "client_1700000000_1000")
                               sample_notice two_clients)))
    by (vm_compute; reflexivity).
  destruct (RegistryProps.chat_is_relayed_to_the_others sample_float_of_literal
              sample_readings (py "client_1700000000_1000") sample_notice
              two_clients _
              (Server.with_username (py "bob")
                 (Server.ClientConnection_init (py "client_1700000000_1000") 0))
              (or_introl eq_refl) eq_refl H)
    as (relay & _ & _ & _ & _ & Hk & _).
  exact Hk.
Defined.

Lemma leave_unregisters_client_witness :
  exists s',
    Server._process_message sample_float_of_literal sample_readings
      (py "client_1700000000_1000")
      (Server.mkMessage (py "leave_1700000030_5555") Server.LEAVE (py "bob") []
                        sample_ts (py "0000000000000000"))
      two_clients
    = Returned s' /\
    dict_get (py "client_1700000000_1000") (Server.clients s') = None /\
    dict_keys (Server.clients s')
    = filter (fun x => negb (pystr_eqb x (py "client_1700000000_1000")))
             (dict_keys (Server.clients two_clients)).
Proof.
  apply (RegistryProps.leave_unregisters_client sample_float_of_literal
           sample_readings (py "client_1700000000_1000")
           (Server.mkMessage (py "leave_1700000030_5555") Server.LEAVE (py "bob")
                             [] sample_ts (py "0000000000000000"))
           two_clients
           (Server.with_username (py "bob")
              (Server.ClientConnection_init (py "client_1700000000_1000") 0))).
  - reflexivity.
  - exact unique_two_clients.
  - reflexivity.
  - vm_compute. reflexivity.
  - reflexivity.
  - reflexivity.
Defined.
